(** * Odyssey wallet core: a shallow embedding of the Go sources

    Packages embedded here: [crypto] (vault.go), [wallet] (hdwallet.go and
    the wallet manager), [cmd] (init, unlock, network, recovery phrase, the
    three payments of pay.go), [chains/bitcoin], [chains/ethereum] and
    [chains/solana] (transaction.go), and the fee rate of [api].

    Conventions.
    - A Go [[]byte] is a [list byte]; where the difference between a nil
      slice and an empty one is observable (JSON, the vault's MAC field)
      the field is an [option (list byte)] with [None] for nil.
    - A Go [string] is a [string] (a sequence of 8-bit characters).
    - Go's [(T, error)] is a [result T]; an [error] keeps the format string
      of the [fmt.Errorf] call that built it and the wrapped cause.
    - [int64] arithmetic is arithmetic on [Z] followed by [wrap64].
    - Functions of imported libraries (scrypt, AES-GCM, encoding/json,
      HMAC-SHA512, ...) are fields of a class, one class per Go package;
      their documented contracts are stated as separate law records.
    - The disk, the clock and the random source are fields of [World];
      writing a file or creating a directory fails exactly on the paths
      that the world lists as [denied], reading fails exactly when the
      file is absent, and [os.UserHomeDir] succeeds. *)

From Stdlib Require Import ZArith List String Ascii Bool Lia.
From Stdlib.Strings Require Import Byte.
From Bignums Require Import BigZ.
From stdpp Require Import base gmap strings list.
Import ListNotations.


(** ** Go runtime *)

Inductive error : Type :=
| Errorf (msg : string)                   (* fmt.Errorf(msg) *)
| Wrapf (msg : string) (cause : error)    (* fmt.Errorf(msg + ": %w", cause) *)
| External (origin : string).             (* an error made by a library or the OS *)

Inductive result (A : Type) : Type :=
| Ok (a : A)
| Err (e : error).
Arguments Ok {A} a.
Arguments Err {A} e.

Definition is_ok {A} (r : result A) : bool :=
  match r with Ok _ => true | Err _ => false end.

Definition is_err {A} (r : result A) : bool := negb (is_ok r).

(** [lib origin o]: the result of a library call that either delivers a
    value or fails with the library's own error. *)
Definition lib {A} (origin : string) (o : option A) : result A :=
  match o with Some a => Ok a | None => Err (External origin) end.

(** [x <- e wrapping msg ; k] is Go's
    [x, err := e; if err != nil { return fmt.Errorf(msg + ": %w", err) }; k]. *)
Notation "x <- e 'wrapping' msg ; k" :=
  (match e with
   | Ok x => k
   | Err cause => Err (Wrapf msg cause)
   end)
  (at level 200, e at level 100, msg at level 0, k at level 200,
   right associativity, format "x  <-  e  'wrapping'  msg ; '//' k").

Definition bytes_of (s : option (list byte)) : list byte :=
  match s with Some b => b | None => [] end.

Definition byte_of_Z (z : Z) : byte :=
  match Byte.of_N (Z.to_N (z mod 256)) with
  | Some b => b
  | None => Byte.x00
  end.

Definition Z_of_byte (b : byte) : Z := Z.of_N (Byte.to_N b).

(** *** Fixed-width integers *)

Definition wrap64 (z : Z) : Z := (z + 2 ^ 63) mod 2 ^ 64 - 2 ^ 63.
Definition add64 (a b : Z) : Z := wrap64 (a + b).
Definition sub64 (a b : Z) : Z := wrap64 (a - b).
Definition mul64 (a b : Z) : Z := wrap64 (a * b).

Definition wrapu8 (z : Z) : Z := z mod 2 ^ 8.

(** *** math/big *)

(** [new(big.Int).SetBytes(b)]: [b] read as a big-endian unsigned number. *)
Definition big_SetBytes (b : list byte) : Z :=
  fold_left (fun acc x => (acc * 256 + Z_of_byte x)%Z) b 0%Z.

(** The [k] low base-256 digits of [z], most significant first. *)
Definition digits (z : Z) (k : nat) : list byte :=
  map (fun i => byte_of_Z (Z.shiftr z (8 * Z.of_nat i))) (rev (seq 0 k)).

(** [z.Bytes()]: the absolute value of [z] as a big-endian byte slice
    without leading zero bytes (empty for 0). *)
Definition big_Bytes (z : Z) : list byte :=
  let a := Z.abs z in
  if (a =? 0)%Z then []
  else digits a (Z.to_nat (Z.log2 a / 8 + 1)).

(** [z.FillBytes(make([]byte, k))] for a [z] that fits. *)
Definition bytes_be (k : nat) (z : Z) : list byte := digits z k.

(** [binary.BigEndian.PutUint32] on a fresh 4-byte slice. *)
Definition PutUint32 (v : Z) : list byte :=
  [byte_of_Z (Z.shiftr v 24); byte_of_Z (Z.shiftr v 16);
   byte_of_Z (Z.shiftr v 8); byte_of_Z v].

(** [binary.BigEndian.Uint32] of the first four bytes. *)
Definition Uint32 (b : list byte) : Z := big_SetBytes (take 4 b).

(** *** Random source, clock and disk *)

(** The bytes the system generator is going to deliver, in order. *)
Definition Reader : Type := list byte.

(** [io.ReadFull(rand.Reader, buf)] with [len(buf) = n]; also [rand.Read]. *)
Definition io_ReadFull (n : nat) (r : Reader) : option (list byte) * Reader :=
  if (n <=? length r)%nat then (Some (take n r), drop n r) else (None, []).

Record World : Type := mkWorld {
  fs : gmap string (list byte);     (* regular files, by path *)
  clock : Z;                        (* time.Now(), in nanoseconds *)
  rand_Reader : Reader;
  home : string;                    (* os.UserHomeDir() *)
  denied : list string              (* paths the OS refuses to write or create *)
}.

Definition set_fs (f : gmap string (list byte)) (w : World) : World :=
  mkWorld f (clock w) (rand_Reader w) (home w) (denied w).
Definition set_rand (r : Reader) (w : World) : World :=
  mkWorld (fs w) (clock w) r (home w) (denied w).

(** [time.Minute]. *)
Definition time_Minute : Z := 60000000000.

(** Go's [error] as a return value: [None] is nil. *)
Definition goerror : Type := option error.

Definition os_ReadFile (path : string) (w : World) : option (list byte) :=
  fs w !! path.
(** The disk after [data] has been written to [path]. *)
Definition os_WriteFile (path : string) (data : list byte) (w : World) : World :=
  set_fs (<[path := data]> (fs w)) w.
(** The OS lets [path] be written or created. *)
Definition writable (path : string) (w : World) : bool :=
  negb (existsb (String.eqb path) (denied w)).
(** [os.WriteFile(path, data, perm)] with its error: a refused write
    leaves the disk as it was. *)
Definition os_WriteFile_err (path : string) (data : list byte) (w : World)
  : goerror * World :=
  if writable path w then (None, os_WriteFile path data w)
  else (Some (External "os"), w).
(** [os.MkdirAll(dir, perm)]; directories are not kept in [fs]. *)
Definition os_MkdirAll (dir : string) (w : World) : goerror :=
  if writable dir w then None else Some (External "os").
(** [os.UserHomeDir()]. *)
Definition os_UserHomeDir (w : World) : result string := Ok (home w).
Definition os_Remove (path : string) (w : World) : World :=
  set_fs (delete path (fs w)) w.
(** [os.Stat(path)] succeeds. *)
Definition os_Stat (path : string) (w : World) : bool :=
  match fs w !! path with Some _ => true | None => false end.
(** [filepath.Join(dir, ".odyssey", name)]. *)
Definition odyssey_path (dir name : string) : string :=
  (dir ++ "/.odyssey/" ++ name)%string.
(** [filepath.Join(dir, ".odyssey")]. *)
Definition odyssey_dir (dir : string) : string := (dir ++ "/.odyssey")%string.

(** *** encoding/json values *)

#[local] Unset Elimination Schemes.
Inductive JSON : Type :=
| JNull
| JString (s : string)
| JNumber (n : Z)
| JBase64 (b : list byte)            (* a []byte: a string of base64 *)
| JTime (t : Z)                      (* a time.Time: an RFC 3339 string *)
| JObject (fields : list (string * JSON)).
#[local] Set Elimination Schemes.

(** How encoding/json writes a [[]byte] field. *)
Definition json_of_bytes (s : option (list byte)) : JSON :=
  match s with Some b => JBase64 b | None => JNull end.

(** ** Package crypto (crypto/vault.go) *)

Module crypto.

Definition ScryptN : Z := 32768.
Definition ScryptR : Z := 8.
Definition ScryptP : Z := 1.
Definition KeyLen : Z := 32.

Record Vault : Type := mkVault {
  Salt : option (list byte);
  Nonce : option (list byte);
  Data : option (list byte);
  MAC : option (list byte)
}.

Record VaultData : Type := mkVaultData {
  Mnemonic : string;
  Version : Z
}.

(** The struct tags of [Vault] and [VaultData]. *)
Definition Vault_json (v : Vault) : JSON :=
  JObject [("salt", json_of_bytes (Salt v)); ("nonce", json_of_bytes (Nonce v));
           ("data", json_of_bytes (Data v)); ("mac", json_of_bytes (MAC v))]%string.

Definition VaultData_json (d : VaultData) : JSON :=
  JObject [("mnemonic", JString (Mnemonic d)); ("version", JNumber (Version d))]%string.

(** What vault.go imports. *)
Class Lib : Type := {
  scrypt_Key : list byte -> list byte -> Z -> Z -> Z -> Z -> option (list byte);
  cipher_Block : Type;
  cipher_AEAD : Type;
  aes_NewCipher : list byte -> option cipher_Block;
  cipher_NewGCM : cipher_Block -> option cipher_AEAD;
  (* aead.Seal(nil, nonce, plaintext, additionalData) *)
  Seal : cipher_AEAD -> list byte -> list byte -> list byte -> list byte;
  (* aead.Open(nil, nonce, ciphertext, additionalData) *)
  Open : cipher_AEAD -> list byte -> list byte -> list byte -> option (list byte);
  json_Marshal : JSON -> option (list byte);
  json_Unmarshal_VaultData : list byte -> option VaultData;
  json_Unmarshal_Vault : list byte -> option Vault
}.

(** The contracts of those libraries that the vault relies on. *)
Record Laws (L : Lib) : Prop := {
  scrypt_Key_len : forall pw salt,
    exists k, scrypt_Key pw salt ScryptN ScryptR ScryptP KeyLen = Some k /\
              length k = 32%nat;
  aes_NewCipher_256 : forall k,
    length k = 32%nat -> exists blk, aes_NewCipher k = Some blk;
  cipher_NewGCM_ok : forall k blk,
    aes_NewCipher k = Some blk -> exists g, cipher_NewGCM blk = Some g;
  Open_Seal : forall g nonce plaintext ad,
    length nonce = 12%nat -> Open g nonce (Seal g nonce plaintext ad) ad = Some plaintext
}.

Section Vault.
Context {L : Lib}.

Definition deriveKey (password : string) (salt : list byte) : result (list byte) :=
  key <- lib "scrypt" (scrypt_Key (list_byte_of_string password) salt
                         ScryptN ScryptR ScryptP KeyLen)
    wrapping "scrypt key derivation failed";
  Ok key.

Definition encrypt (key nonce data : list byte)
  : result (list byte * option (list byte)) :=
  block <- lib "aes" (aes_NewCipher key) wrapping "failed to create cipher";
  aesGCM <- lib "cipher" (cipher_NewGCM block) wrapping "failed to create GCM";
  let ciphertext := Seal aesGCM nonce data [] in
  Ok (ciphertext, None).

Definition decrypt (key nonce data : list byte) (mac : option (list byte))
  : result (list byte) :=
  block <- lib "aes" (aes_NewCipher key) wrapping "failed to create cipher";
  aesGCM <- lib "cipher" (cipher_NewGCM block) wrapping "failed to create GCM";
  plaintext <- lib "cipher" (Open aesGCM nonce data []) wrapping "failed to decrypt";
  Ok plaintext.

Definition clearBytes (b : list byte) : list byte := map (fun _ => Byte.x00) b.

(** [NewVault]; the deferred [clearBytes(key)] overwrites a buffer that
    nothing reads afterwards. *)
Definition NewVault (mnemonic password : string) (r : Reader)
  : result Vault * Reader :=
  match io_ReadFull 32 r with
  | (None, r1) => (Err (Wrapf "failed to generate salt" (External "rand")), r1)
  | (Some salt, r1) =>
    match deriveKey password salt with
    | Err e => (Err (Wrapf "failed to derive key" e), r1)
    | Ok key =>
      let vaultData := mkVaultData mnemonic 1 in
      match lib "json" (json_Marshal (VaultData_json vaultData)) with
      | Err e => (Err (Wrapf "failed to serialize vault data" e), r1)
      | Ok data =>
        match io_ReadFull 12 r1 with
        | (None, r2) => (Err (Wrapf "failed to generate nonce" (External "rand")), r2)
        | (Some nonce, r2) =>
          match encrypt key nonce data with
          | Err e => (Err (Wrapf "failed to encrypt data" e), r2)
          | Ok (encryptedData, mac) =>
            (Ok (mkVault (Some salt) (Some nonce) (Some encryptedData) mac), r2)
          end
        end
      end
    end
  end.

Definition Decrypt (v : Vault) (password : string) : result string :=
  key <- deriveKey password (bytes_of (Salt v)) wrapping "failed to derive key";
  decryptedData <- decrypt key (bytes_of (Nonce v)) (bytes_of (Data v)) (MAC v)
    wrapping "failed to decrypt data";
  vaultData <- lib "json" (json_Unmarshal_VaultData decryptedData)
    wrapping "failed to deserialize vault data";
  Ok (Mnemonic vaultData).

Definition ValidatePassword (v : Vault) (password : string) : bool :=
  is_ok (Decrypt v password).

(** encoding/json gives back the [VaultData] it has written. *)
Definition json_faithful (d : VaultData) : Prop :=
  exists data, json_Marshal (VaultData_json d) = Some data /\
               json_Unmarshal_VaultData data = Some d.

End Vault.
End crypto.

(** ** The curve behind [crypto.S256()]

    secp256k1, y^2 = x^3 + 7 over the field of [P] elements, in affine
    coordinates; [None] is the point at infinity.  The arithmetic runs on
    [bigZ] so that public keys can be computed. *)

Module secp256k1.

Definition P_Z : Z := (2 ^ 256 - 2 ^ 32 - 977)%Z.
Definition N_Z : Z := 0xFFFFFFFFFFFFFFFFFFFFFFFFFFFFFFFEBAAEDCE6AF48A03BBFD25E8CD0364141%Z.
Definition Gx_Z : Z := 0x79BE667EF9DCBBAC55A06295CE870B07029BFCDB2DCE28D959F2815B16F81798%Z.
Definition Gy_Z : Z := 0x483ADA7726A3C4655DA4FBFC0E1108A8FD17B448A68554199C47D08FFB10D4B8%Z.

Definition P : bigZ := BigZ.of_Z P_Z.

Definition point : Type := option (bigZ * bigZ).
Definition G : point := Some (BigZ.of_Z Gx_Z, BigZ.of_Z Gy_Z).

Fixpoint pow_mod (b : bigZ) (e : positive) (m : bigZ) : bigZ :=
  match e with
  | xH => (b mod m)%bigZ
  | xO e' => let h := pow_mod b e' m in ((h * h) mod m)%bigZ
  | xI e' => let h := pow_mod b e' m in ((h * h mod m * b) mod m)%bigZ
  end.

(** The inverse in the field, by Fermat's little theorem. *)
Definition inv (a : bigZ) : bigZ := pow_mod a (Z.to_pos (P_Z - 2)) P.

Definition add (p q : point) : point :=
  match p, q with
  | None, _ => q
  | _, None => p
  | Some (x1, y1), Some (x2, y2) =>
    if ((x1 =? x2) && ((y1 + y2) mod P =? 0))%bigZ then None
    else
      let l := if (x1 =? x2)%bigZ then ((3 * x1 * x1 * inv (2 * y1)) mod P)%bigZ
               else (((y2 - y1) * inv (x2 - x1)) mod P)%bigZ in
      let x3 := ((l * l - x1 - x2) mod P)%bigZ in
      Some (x3, ((l * (x1 - x3) - y1) mod P)%bigZ)
  end.

Fixpoint mul_pos (k : positive) (p : point) : point :=
  match k with
  | xH => p
  | xO k' => let q := mul_pos k' p in add q q
  | xI k' => let q := mul_pos k' p in add (add q q) p
  end.

Definition mul (k : Z) (p : point) : point :=
  match k with
  | Zpos k' => mul_pos k' p
  | _ => None
  end.

(** [curve.ScalarBaseMult(k)]: the affine coordinates of k*G, the scalar
    being the big-endian number in [k]; (0, 0) stands for infinity. *)
Definition ScalarBaseMult (k : list byte) : Z * Z :=
  match mul (big_SetBytes k) G with
  | Some (x, y) => (BigZ.to_Z x, BigZ.to_Z y)
  | None => (0, 0)%Z
  end.

End secp256k1.

(** ** Package wallet: key derivation (wallet/hdwallet.go) *)

Module hdwallet.
Local Open Scope Z_scope.

Record HDKey : Type := mkHDKey {
  PrivateKey : list byte;
  PublicKey : list byte;
  ChainCode : list byte;
  Depth : Z;           (* uint8 *)
  ChildNum : Z;        (* uint32 *)
  Fingerprint : Z      (* uint32 *)
}.

(** What hdwallet.go imports for the secp256k1 branch, besides the curve. *)
Class Lib : Type := {
  (* h := hmac.New(sha512.New, key); h.Write(data); h.Sum(nil) *)
  hmac_SHA512_Sum : list byte -> list byte -> list byte;
  crypto_Keccak256 : list byte -> list byte
}.

(** The secp256k1 group order, as both functions below parse it. *)
Definition curveOrder : Z :=
  0xFFFFFFFFFFFFFFFFFFFFFFFFFFFFFFFEBAAEDCE6AF48A03BBFD25E8CD0364141.

Definition derivePublicKey (privateKey : list byte) : list byte :=
  let '(x, y) := secp256k1.ScalarBaseMult privateKey in
  if negb (Z.testbit y 0) then Byte.x02 :: big_Bytes x
  else Byte.x03 :: big_Bytes x.

Definition isValidPrivateKey (privateKey : list byte) : bool :=
  if negb (length privateKey =? 32)%nat then false
  else
    let keyInt := big_SetBytes privateKey in
    if keyInt =? 0 then false
    else if curveOrder <=? keyInt then false
    else true.

Definition isHardened (childNum : Z) : bool := 0x80000000 <=? childNum.

Section Derivation.
Context {L : Lib}.

Definition hmacSHA512 (key data : list byte) : list byte := hmac_SHA512_Sum key data.

Definition parentFingerprint (publicKey : list byte) : Z :=
  let hash := crypto_Keccak256 publicKey in
  Uint32 (take 4 hash).

Definition newMasterKey (seed : list byte) : result HDKey :=
  let key := list_byte_of_string "Bitcoin seed" in
  let data := seed in
  let hash := hmacSHA512 key data in
  if negb (length hash =? 64)%nat then Err (Errorf "invalid hash length")
  else
    let privateKey := take 32 hash in
    let chainCode := drop 32 hash in
    if negb (isValidPrivateKey privateKey) then Err (Errorf "invalid private key")
    else
      let publicKey := derivePublicKey privateKey in
      Ok (mkHDKey privateKey publicKey chainCode 0 0 0).

(** The bytes [deriveChild] feeds to the HMAC (its [data] at the call of
    [hmacSHA512]). *)
Definition childData (parent : HDKey) (childNum : Z) : list byte :=
  let data :=
    if isHardened childNum then Byte.x00 :: PrivateKey parent
    else PublicKey parent in
  let childNumBytes := PutUint32 childNum in
  data ++ childNumBytes.

Definition deriveChild (parent : HDKey) (childNum : Z) : result HDKey :=
  let data := childData parent childNum in
  let hash := hmacSHA512 (ChainCode parent) data in
  if negb (length hash =? 64)%nat then Err (Errorf "invalid hash length")
  else
    let il := take 32 hash in
    let ir := drop 32 hash in
    let parentPrivateKey := big_SetBytes (PrivateKey parent) in
    let ilInt := big_SetBytes il in
    let n := curveOrder in
    let newPrivateKeyInt := (parentPrivateKey + ilInt) mod n in
    if newPrivateKeyInt =? 0 then Err (Errorf "invalid private key")
    else
      let newPrivateKey := big_Bytes newPrivateKeyInt in
      let newPrivateKey :=
        if (length newPrivateKey <? 32)%nat
        then repeat Byte.x00 (32 - length newPrivateKey) ++ newPrivateKey
        else newPrivateKey in
      let newPublicKey := derivePublicKey newPrivateKey in
      let fingerprint := parentFingerprint (PublicKey parent) in
      Ok (mkHDKey newPrivateKey newPublicKey ir
                  (wrapu8 (Depth parent + 1)) childNum fingerprint).

Fixpoint deriveChildKey (parent : HDKey) (derivationPath : list Z) : result HDKey :=
  match derivationPath with
  | [] => Ok parent
  | childNum :: rest =>
    childKey <- deriveChild parent childNum wrapping "failed to derive child";
    deriveChildKey childKey rest
  end.

End Derivation.
End hdwallet.

(** ** Package wallet: the manager *)

Module wallet.

Definition NetworkMainnet : string := "mainnet".
Definition NetworkTestnet : string := "testnet".

(** Session duration in minutes. *)
Definition SessionDuration : Z := 30.

Record SessionData : Type := mkSessionData {
  Token : string;
  Mnemonic : string;
  Expiration : Z;
  Network : string
}.

Definition SessionData_json (s : SessionData) : JSON :=
  JObject [("token", JString (Token s)); ("mnemonic", JString (Mnemonic s));
           ("expiration", JTime (Expiration s)); ("network", JString (Network s))]%string.

(** The manager without its mutex. *)
Record Manager : Type := mkManager {
  vaultPath : string;
  sessionPath : string;
  vault : option crypto.Vault;     (* nil until loaded or created *)
  mnemonic : string;
  password : string;
  unlocked : bool;
  network : string
}.

(** What the manager imports besides package crypto and its libraries. *)
Class Lib : Type := {
  hex_EncodeToString : list byte -> string;
  json_Unmarshal_SessionData : list byte -> option SessionData;
  bip39_NewMnemonic : list byte -> option string;
  bip39_IsMnemonicValid : string -> bool;
  strings_TrimSpace : string -> string;
  strings_Fields : string -> list string;
  filepath_Dir : string -> string
}.

Section Manager.
Context {CL : crypto.Lib} {WL : Lib}.

Definition NewManager (w : World) : Manager :=
  let homeDir := home w in
  let networkPath := odyssey_path homeDir "network.txt" in
  let network :=
    if os_Stat networkPath w then
      match os_ReadFile networkPath w with
      | Some data =>
        let network := strings_TrimSpace (string_of_list_byte data) in
        if negb (String.eqb network NetworkMainnet)
           && negb (String.eqb network NetworkTestnet)
        then NetworkMainnet else network
      | None => NetworkMainnet
      end
    else NetworkMainnet in
  mkManager (odyssey_path homeDir "wallet.vault")
            (odyssey_path homeDir "session.json")
            None "" "" false network.

Definition generateSessionToken (w : World) : result string * World :=
  match io_ReadFull 32 (rand_Reader w) with
  | (None, r) => (Err (External "rand"), set_rand r w)
  | (Some tokenBytes, r) => (Ok (hex_EncodeToString tokenBytes), set_rand r w)
  end.

Definition createSession (m : Manager) (w : World) : goerror * World :=
  match generateSessionToken w with
  | (Err e, w1) => (Some (Wrapf "failed to generate session token" e), w1)
  | (Ok token, w1) =>
    let session :=
      mkSessionData token (mnemonic m)
                    (clock w1 + SessionDuration * time_Minute) (network m) in
    match lib "json" (crypto.json_Marshal (SessionData_json session)) with
    | Err e => (Some (Wrapf "failed to marshal session" e), w1)
    | Ok data =>
      match os_WriteFile_err (sessionPath m) data w1 with
      | (Some e, w2) => (Some (Wrapf "failed to write session file" e), w2)
      | (None, w2) => (None, w2)
      end
    end
  end.

Definition loadSession (m : Manager) (w : World) : bool * Manager * World :=
  match os_ReadFile (sessionPath m) w with
  | None => (false, m, w)
  | Some data =>
    match json_Unmarshal_SessionData data with
    | None =>
      (* Session file is corrupted, delete it *)
      (false, m, os_Remove (sessionPath m) w)
    | Some session =>
      if (clock w >? Expiration session)%Z then
        (* Session expired, delete it *)
        (false, m, os_Remove (sessionPath m) w)
      else if negb (String.eqb (Network session) (network m)) then
        (* Network mismatch, session not valid for current network *)
        (false, m, w)
      else
        (true,
         mkManager (vaultPath m) (sessionPath m) (vault m) (Mnemonic session)
                   (password m) true (network m),
         w)
    end
  end.

Definition clearSession (m : Manager) (w : World) : World :=
  os_Remove (sessionPath m) w.

Definition saveVault (m : Manager) (v : crypto.Vault) (w : World) : goerror * World :=
  match lib "json" (crypto.json_Marshal (crypto.Vault_json v)) with
  | Err e => (Some (Wrapf "failed to marshal vault" e), w)
  | Ok data =>
    match os_WriteFile_err (vaultPath m) data w with
    | (Some e, w1) => (Some (Wrapf "failed to write vault file" e), w1)
    | (None, w1) => (None, w1)
    end
  end.

Definition loadVault (m : Manager) (w : World) : result crypto.Vault :=
  match os_ReadFile (vaultPath m) w with
  | None => Err (Wrapf "failed to read vault file" (External "os"))
  | Some data =>
    match crypto.json_Unmarshal_Vault data with
    | None => Err (Wrapf "failed to unmarshal vault" (External "json"))
    | Some v => Ok v
    end
  end.

Definition VaultExists (m : Manager) (w : World) : bool := os_Stat (vaultPath m) w.

(** The statements that [Initialize] and [ImportFromMnemonic] share, from
    "Create vault" to the end (the two bodies repeat them verbatim). *)
Definition createAndStore (mnemonic' password' : string) (m : Manager) (w : World)
  : goerror * Manager * World :=
  match crypto.NewVault mnemonic' password' (rand_Reader w) with
  | (Err e, r) => (Some (Wrapf "failed to create vault" e), m, set_rand r w)
  | (Ok v, r) =>
    let w1 := set_rand r w in
    (* Ensure directory exists *)
    let dir := filepath_Dir (vaultPath m) in
    match os_MkdirAll dir w1 with
    | Some e => (Some (Wrapf "failed to create directory" e), m, w1)
    | None =>
      match saveVault m v w1 with
      | (Some e, w2) => (Some (Wrapf "failed to save vault" e), m, w2)
      | (None, w2) =>
        let m1 := mkManager (vaultPath m) (sessionPath m) (Some v) mnemonic'
                            password' true (network m) in
        match createSession m1 w2 with
        | (Some e, w3) => (Some (Wrapf "failed to create session" e), m1, w3)
        | (None, w3) => (None, m1, w3)
        end
      end
    end
  end.

Definition Initialize (password' : string) (m : Manager) (w : World)
  : goerror * Manager * World :=
  (* bip39.NewEntropy(256) reads 32 bytes from the generator *)
  match io_ReadFull 32 (rand_Reader w) with
  | (None, r) =>
    (Some (Wrapf "failed to generate entropy" (External "rand")), m, set_rand r w)
  | (Some entropy, r) =>
    let w1 := set_rand r w in
    match lib "bip39" (bip39_NewMnemonic entropy) with
    | Err e => (Some (Wrapf "failed to generate mnemonic" e), m, w1)
    | Ok mnemonic' => createAndStore mnemonic' password' m w1
    end
  end.

Definition ImportFromMnemonic (mnemonic' password' : string) (m : Manager) (w : World)
  : goerror * Manager * World :=
  if negb (bip39_IsMnemonicValid mnemonic') then
    (Some (Errorf "invalid mnemonic"), m, w)
  else createAndStore mnemonic' password' m w.

Definition Unlock (password' : string) (m : Manager) (w : World)
  : goerror * Manager * World :=
  (* First try to load existing session *)
  match loadSession m w with
  | (true, m1, w1) => (None, m1, w1)
  | (false, m1, w1) =>
    (* Load vault if not loaded *)
    match (match vault m1 with
           | Some v => Ok v
           | None => loadVault m1 w1
           end) with
    | Err e => (Some (Wrapf "failed to load vault" e), m1, w1)
    | Ok v =>
      let m2 := mkManager (vaultPath m1) (sessionPath m1) (Some v) (mnemonic m1)
                          (password m1) (unlocked m1) (network m1) in
      (* Validate password *)
      if negb (crypto.ValidatePassword v password') then
        (Some (Errorf "invalid password"), m2, w1)
      else
        match crypto.Decrypt v password' with
        | Err e => (Some (Wrapf "failed to decrypt vault" e), m2, w1)
        | Ok mnemonic' =>
          let m3 := mkManager (vaultPath m2) (sessionPath m2) (vault m2) mnemonic'
                              password' true (network m2) in
          match createSession m3 w1 with
          | (Some e, w2) => (Some (Wrapf "failed to create session" e), m3, w2)
          | (None, w2) => (None, m3, w2)
          end
        end
    end
  end.

Definition Lock (m : Manager) (w : World) : Manager * World :=
  let m1 := mkManager (vaultPath m) (sessionPath m) (vault m) "" "" false (network m) in
  (m1, clearSession m1 w).

Definition IsUnlocked (m : Manager) (w : World) : bool * Manager * World :=
  if unlocked m && negb (String.eqb (mnemonic m) "") then (true, m, w)
  else loadSession m w.

Definition GetMnemonic (m : Manager) (w : World) : result string * Manager * World :=
  if unlocked m && negb (String.eqb (mnemonic m) "") then (Ok (mnemonic m), m, w)
  else
    match loadSession m w with
    | (false, m1, w1) => (Err (Errorf "wallet is locked"), m1, w1)
    | (true, m1, w1) => (Ok (mnemonic m1), m1, w1)
    end.

End Manager.
End wallet.

(** ** Package cmd: the init and recovery-phrase import commands

    What the user types is an argument: [None] for a read that failed. *)

Module cmd.
Section Commands.
Context {CL : crypto.Lib} {WL : wallet.Lib}.

Definition runInit (typed confirmed : option string) (w : World) : goerror * World :=
  let manager := wallet.NewManager w in
  (* Check if wallet already exists *)
  if wallet.VaultExists manager w then
    (Some (Errorf "wallet already exists. Remove ~/.odyssey/wallet.vault to create a new wallet"), w)
  else
    match typed with
    | None => (Some (Wrapf "failed to read password" (External "term")), w)
    | Some password =>
      if (String.length password <? 8)%nat then
        (Some (Errorf "password must be at least 8 characters long"), w)
      else
        match confirmed with
        | None => (Some (Wrapf "failed to read password confirmation" (External "term")), w)
        | Some confirmPassword =>
          if negb (String.eqb password confirmPassword) then
            (Some (Errorf "passwords do not match"), w)
          else
            match wallet.Initialize password manager w with
            | (Some e, _, w1) => (Some (Wrapf "failed to initialize wallet" e), w1)
            | (None, manager1, w1) =>
              match wallet.GetMnemonic manager1 w1 with
              | (Err e, _, w2) => (Some (Wrapf "failed to get recovery phrase" e), w2)
              | (Ok _, _, w2) => (None, w2)
              end
            end
        end
    end.

Definition isValidMnemonic (mnemonic : string) : bool :=
  let words := wallet.strings_Fields mnemonic in
  (length words =? 24)%nat.

Definition importRecoveryPhrase (manager : wallet.Manager)
    (line typed confirmed : option string) (w : World) : goerror * World :=
  (* Check if wallet already exists *)
  if wallet.VaultExists manager w then
    (Some (Errorf "wallet already exists. Remove existing wallet first"), w)
  else
    match line with
    | None => (Some (Wrapf "failed to read mnemonic" (External "bufio")), w)
    | Some mnemonic0 =>
      let mnemonic := wallet.strings_TrimSpace mnemonic0 in
      if negb (isValidMnemonic mnemonic) then
        (Some (Errorf "invalid mnemonic. Must be 24 words"), w)
      else
        match typed with
        | None => (Some (Wrapf "failed to read password" (External "term")), w)
        | Some password =>
          match confirmed with
          | None =>
            (Some (Wrapf "failed to read password confirmation" (External "term")), w)
          | Some confirmPassword =>
            if negb (String.eqb password confirmPassword) then
              (Some (Errorf "passwords do not match"), w)
            else
              match wallet.ImportFromMnemonic mnemonic password manager w with
              | (Some e, _, w1) => (Some (Wrapf "failed to import wallet" e), w1)
              | (None, _, w1) => (None, w1)
              end
          end
        end
    end.

End Commands.
End cmd.

(** ** Package bitcoin (chains/bitcoin/transaction.go) *)

Module bitcoin.
Local Open Scope Z_scope.

Record UTXO : Type := mkUTXO {
  TxID : string;
  Vout : Z;            (* uint32 *)
  Value : Z;           (* int64 *)
  Script : list byte
}.

(** [wire.TxIn] and [wire.TxOut], as far as this package fills them. *)
Record TxIn : Type := mkTxIn {
  PreviousHash : list byte;
  PreviousIndex : Z;
  Witness : list (list byte)
}.

Record TxOut : Type := mkTxOut {
  OutValue : Z;        (* int64 *)
  PkScript : list byte
}.

Record Transaction : Type := mkTransaction {
  Version : Z;
  Inputs : list TxIn;
  Outputs : list TxOut;
  LockTime : Z
}.

(** What transaction.go imports from btcd for building a transaction. *)
Class Lib : Type := {
  Address : Type;
  chainhash_NewHashFromStr : string -> option (list byte);
  txscript_PayToAddrScript : Address -> option (list byte)
}.

Definition NewTransaction : Transaction := mkTransaction 2 [] [] 0.

(** [tx.UpdateChangeOutput(value)]: the last output is taken to be the
    change output. *)
Definition UpdateChangeOutput (value : Z) (tx : Transaction) : goerror * Transaction :=
  if (length (Outputs tx) <? 2)%nat then
    (Some (Errorf "no change output to update"), tx)
  else
    (None,
     mkTransaction (Version tx) (Inputs tx)
       (alter (fun o => mkTxOut value (PkScript o)) (length (Outputs tx) - 1)%nat
              (Outputs tx))
       (LockTime tx)).

Definition CalculateFee (inputValue outputValue : Z) : Z := sub64 inputValue outputValue.

(** [tx.EstimateFee]; no caller in the repository. *)
Definition EstimateFee (inputCount outputCount feeRate : Z) : Z :=
  let baseSize := 8 in
  let inputSize := 41 in
  let outputSize := 34 in
  let witnessSize := 109 in
  let totalSize := baseSize + (inputCount * inputSize) + (outputCount * outputSize)
                   + (inputCount * witnessSize) in
  let virtualBytes := totalSize in
  mul64 virtualBytes feeRate.

Section Building.
Context {L : Lib}.

Definition AddInput (utxo : UTXO) (tx : Transaction) : result Transaction :=
  prevHash <- lib "chainhash" (chainhash_NewHashFromStr (TxID utxo))
    wrapping "invalid previous transaction hash";
  let input := mkTxIn prevHash (Vout utxo) [] in
  Ok (mkTransaction (Version tx) (Inputs tx ++ [input]) (Outputs tx) (LockTime tx)).

Definition AddOutput (value : Z) (address : Address) (tx : Transaction)
  : result Transaction :=
  script <- lib "txscript" (txscript_PayToAddrScript address)
    wrapping "failed to create output script";
  let output := mkTxOut value script in
  Ok (mkTransaction (Version tx) (Inputs tx) (Outputs tx ++ [output]) (LockTime tx)).

End Building.
End bitcoin.

(** ** Package api: the fee rate (api/bitcoin.go)

    The outcome of each HTTP request is an argument: [Some fee] when the
    request, the reading of the body and the JSON parse all succeeded,
    [fee] being the half-hour fee of mempool.space, respectively the
    regular fee of blockchain.info. *)

Module api.
Local Open Scope Z_scope.

Definition GetBitcoinFeeEstimate (testnet : bool) (mempool blockchainInfo : option Z)
  : result Z :=
  if testnet then Err (Errorf "bitcoin is not supported in testnet mode")
  else
    let fallback :=
      match blockchainInfo with
      | None => Ok 10        (* Default to 10 sat/byte if API fails *)
      | Some regular => if regular >? 0 then Ok regular else Ok 10
      end in
    match mempool with
    | Some halfHourFee => if halfHourFee >? 0 then Ok halfHourFee else fallback
    | None => fallback
    end.

End api.

(** ** Package cmd: the Bitcoin payment (cmd/pay.go, [sendBitcoin])

    From the check that there are UTXOs to the funds check: the fee rate
    is chosen, the transaction built, the fee estimated and the change
    settled.  The UTXOs (values in satoshis) and the outcome of the
    fee-rate request are arguments. *)

Module pay.
Local Open Scope Z_scope.
Import bitcoin.

(** The locals of [sendBitcoin] when the funds check has passed. *)
Record Plan : Type := mkPlan {
  tx : Transaction;
  txSize : Z;          (* int *)
  feeRate : Z;         (* int64 *)
  estimatedFee : Z;    (* int64 *)
  change : Z           (* int64 *)
}.

Definition dustThreshold : Z := 546.

(** [totalInput]: the sum kept while the UTXOs are converted. *)
Definition totalInputOf (utxos : list UTXO) : Z :=
  fold_left (fun total u => add64 total (Value u)) utxos 0.

(** "If change is very small (dust), add it to the fee instead":
    the new [estimatedFee] and [change]. *)
Definition foldDust (estimatedFee change : Z) : Z * Z :=
  if (change >? 0) && (change <? dustThreshold)
  then (add64 estimatedFee change, 0)
  else (estimatedFee, change).

Section Pay.
Context {L : bitcoin.Lib}.

Fixpoint addInputs (utxos : list UTXO) (tx : Transaction) : result Transaction :=
  match utxos with
  | [] => Ok tx
  | utxo :: rest =>
    tx1 <- AddInput utxo tx wrapping "failed to add input";
    addInputs rest tx1
  end.

(** The body of "if change > 0": the change output is appended, the size
    and the fee are recomputed once and the change reduced if it can be. *)
Definition appendChange (txSize feeRate estimatedFee change : Z)
    (senderAddress : Address) (tx : Transaction)
  : result (Transaction * Z * Z) :=
  tx1 <- AddOutput change senderAddress tx wrapping "failed to add change output";
  (* Adjust size calculation for the additional output *)
  let txSize := txSize + 34 in
  (* Recalculate fee with the new size *)
  let newFee := mul64 txSize feeRate in
  (* If fee increased significantly, adjust change *)
  if newFee >? estimatedFee then
    let feeIncrease := sub64 newFee estimatedFee in
    if change >? feeIncrease then
      let change := sub64 change feeIncrease in
      (* Update output with new change amount; the error is dropped *)
      Ok ((UpdateChangeOutput change tx1).2, txSize, change)
    else Ok (tx1, txSize, change)
  else Ok (tx1, txSize, change).

(** From "Calculate change" to the end of "if change > 0". *)
Definition settleChange (totalInput value txSize feeRate estimatedFee : Z)
    (senderAddress : Address) (tx : Transaction)
  : result (Transaction * Z * Z * Z) :=
  let change := sub64 (sub64 totalInput value) estimatedFee in
  let '(estimatedFee, change) := foldDust estimatedFee change in
  if change >? 0 then
    match appendChange txSize feeRate estimatedFee change senderAddress tx with
    | Err e => Err e
    | Ok (tx1, txSize, change) => Ok (tx1, txSize, estimatedFee, change)
    end
  else Ok (tx, txSize, estimatedFee, change).

Definition sendBitcoin (utxos : list UTXO) (value : Z) (feeEstimate : result Z)
    (recipient senderAddress : Address) : result Plan :=
  if (length utxos =? 0)%nat then
    Err (Errorf "your Bitcoin wallet has no funds")
  else
  let totalInput := totalInputOf utxos in
  (* Get dynamic fee rate; default to 10 sat/byte if estimation fails *)
  let feeRate := match feeEstimate with Ok r => r | Err _ => 10 end in
  (* Create transaction, add inputs, add output *)
  match addInputs utxos NewTransaction with
  | Err e => Err e
  | Ok tx0 =>
    tx1 <- AddOutput value recipient tx0 wrapping "failed to add output";
    (* P2WPKH: ~110 bytes per input + ~34 bytes per output + ~10 bytes overhead *)
    let txSize := 10 + (Z.of_nat (length utxos) * 110) + (1 * 34) in
    let estimatedFee := mul64 txSize feeRate in
    match settleChange totalInput value txSize feeRate estimatedFee senderAddress tx1 with
    | Err e => Err e
    | Ok (tx2, txSize, estimatedFee, change) =>
      (* Check if we have enough funds *)
      if totalInput <? add64 value estimatedFee then
        Err (Errorf "insufficient funds for transaction with fees")
      else Ok (mkPlan tx2 txSize feeRate estimatedFee change)
    end
  end.

End Pay.
End pay.

(** ** Package solana (chains/solana/transaction.go) *)

Module solana.

(** What transaction.go imports from solana-go and base58. *)
Class Lib : Type := {
  Instruction : Type;
  PrivateKey : Type;
  PublicKey : Type;
  Hash : Type;
  SignedTx : Type;
  HashFromBase58 : string -> option Hash;
  solana_NewTransaction : list Instruction -> Hash -> PublicKey -> option SignedTx;
  (* stx.Sign with the lookup among the signers *)
  Sign : SignedTx -> list PrivateKey -> option SignedTx;
  MarshalBinary : SignedTx -> option (list byte);
  base58_Encode : list byte -> string
}.

Definition base58Chars : string :=
  "123456789ABCDEFGHJKLMNPQRSTUVWXYZabcdefghijkmnopqrstuvwxyz".

(** [strings.ContainsRune(chars, c)] for a one-byte [c]. *)
Definition ContainsRune (chars : string) (c : ascii) : bool :=
  existsb (Ascii.eqb c) (list_ascii_of_string chars).

(** The loop over the blockhash: the position of the first character that
    is not in [base58Chars].  The alphabet is ASCII, so a rune of several
    bytes is reported at its first byte, which is not in the alphabet
    either. *)
Fixpoint firstInvalid (s : string) (i : nat) : option nat :=
  match s with
  | EmptyString => None
  | String c rest =>
    if negb (ContainsRune base58Chars c) then Some i
    else firstInvalid rest (S i)
  end.

(** Every character of [s] is in the base58 alphabet. *)
Definition all_base58 (s : string) : bool :=
  forallb (ContainsRune base58Chars) (list_ascii_of_string s).

Section Transactions.
Context {L : Lib}.

Record Transaction : Type := mkTransaction {
  Instructions : list Instruction;
  Signers : list PrivateKey;
  FeePayer : PublicKey;
  RecentBlockhash : string
}.

(** The checks on the blockhash that open [BuildAndSign], up to and
    including the parse. *)
Definition validateBlockhash (blockhash : string) : result Hash :=
  (* Validate blockhash is present *)
  if String.eqb blockhash "" then Err (Errorf "blockhash is empty")
  else
    (* Validate blockhash is valid base58 format *)
    match firstInvalid blockhash 0 with
    | Some i =>
      Err (Errorf "blockhash contains invalid base58 character '%c' at position %d")
    | None =>
      (* Validate blockhash length *)
      if (String.length blockhash <? 32)%nat then
        Err (Errorf "blockhash is too short: got %d chars, expected at least 32")
      else
        (* Try to parse the blockhash *)
        blockhash' <- lib "solana" (HashFromBase58 blockhash)
          wrapping "invalid blockhash format";
        Ok blockhash'
    end.

Definition BuildAndSign (tx : Transaction) : result string :=
  match validateBlockhash (RecentBlockhash tx) with
  | Err e => Err e
  | Ok blockhash =>
    stx <- lib "solana" (solana_NewTransaction (Instructions tx) blockhash (FeePayer tx))
      wrapping "failed to create transaction";
    if (length (Signers tx) =? 0)%nat then
      Err (Errorf "no signers provided for transaction")
    else
      stx1 <- lib "solana" (Sign stx (Signers tx)) wrapping "failed to sign transaction";
      serialized <- lib "solana" (MarshalBinary stx1)
        wrapping "failed to serialize transaction";
      Ok (base58_Encode serialized)
  end.

End Transactions.
End solana.

(** ** Package wallet: paths and per-chain keys (wallet/hdwallet.go) *)

Module hdkeys.
Local Open Scope Z_scope.
Import hdwallet.

(** What hdwallet.go imports for parsing paths and for the chain keys. *)
Class Lib : Type := {
  (* fmt.Sscanf(s, "%d", &result) with result a uint32: the number scanned *)
  fmt_Sscanf_uint32 : string -> option Z;
  btcec_PrivateKey : Type;
  btcec_PrivKeyFromBytes : list byte -> btcec_PrivateKey;
  ecdsa_PrivateKey : Type;
  crypto_ToECDSA : list byte -> option ecdsa_PrivateKey;
  ed25519_NewKeyFromSeed : list byte -> list byte
}.

(** [strings.HasSuffix]. *)
Definition HasSuffix (s suffix : string) : bool :=
  (String.length suffix <=? String.length s)%nat
  && String.eqb (substring (String.length s - String.length suffix)
                           (String.length suffix) s) suffix.

(** [strings.Split(s, "/")]. *)
Fixpoint Split (s : string) : list string :=
  match s with
  | EmptyString => [EmptyString]
  | String c rest =>
    if Ascii.eqb c "/"%char then EmptyString :: Split rest
    else
      match Split rest with
      | first :: others => String c first :: others
      | [] => [String c EmptyString]
      end
  end.

Section Keys.
Context {HL : hdwallet.Lib} {KL : Lib}.

Definition parseUint32 (s : string) : result Z :=
  lib "fmt" (fmt_Sscanf_uint32 s).

Definition parseChildNum (childStr : string) : result Z :=
  if HasSuffix childStr "'" then
    (* Hardened *)
    match parseUint32 (substring 0 (String.length childStr - 1) childStr) with
    | Err e => Err e
    | Ok childNum => Ok ((childNum + 0x80000000) mod 2 ^ 32)
    end
  else
    (* Normal *)
    match parseUint32 childStr with
    | Err e => Err e
    | Ok childNum => Ok childNum
    end.

(** The loop of [deriveBitcoinKey] over [pathParts[1:]]. *)
Fixpoint derivePathParts (childKey : HDKey) (parts : list string) : result HDKey :=
  match parts with
  | [] => Ok childKey
  | part :: rest =>
    childNum <- parseChildNum part wrapping "failed to parse child number";
    childKey1 <- deriveChild childKey childNum wrapping "failed to derive child";
    derivePathParts childKey1 rest
  end.

Definition deriveBitcoinKey (seed : list byte) (path : string) : result btcec_PrivateKey :=
  masterKey <- newMasterKey seed wrapping "failed to create master key";
  let pathParts := Split path in
  if (length pathParts <? 2)%nat then Err (Errorf "invalid derivation path")
  else
    match derivePathParts masterKey (drop 1 pathParts) with
    | Err e => Err e
    | Ok childKey => Ok (btcec_PrivKeyFromBytes (PrivateKey childKey))
    end.

Definition deriveEthereumKey (seed : list byte) (path : list Z) : result ecdsa_PrivateKey :=
  masterKey <- newMasterKey seed wrapping "failed to create master key";
  childKey <- deriveChildKey masterKey path wrapping "failed to derive child key";
  privateKey <- lib "crypto" (crypto_ToECDSA (PrivateKey childKey))
    wrapping "failed to convert to ECDSA key";
  Ok privateKey.

Definition deriveSolanaKey (seed : list byte) (path : string) : result (list byte) :=
  let combinedSeed := seed ++ list_byte_of_string path in
  let seedHash := hmac_SHA512_Sum (list_byte_of_string "ed25519 seed") combinedSeed in
  let privateKey := ed25519_NewKeyFromSeed (take 32 seedHash) in
  Ok privateKey.

End Keys.
End hdkeys.

(** No character of [s] is the path separator. *)
Definition no_slash (s : string) : bool :=
  forallb (fun c => negb (Ascii.eqb c "/"%char)) (list_ascii_of_string s).


(** The same world at another instant. *)
Definition set_clock (t : Z) (w : World) : World :=
  mkWorld (fs w) t (rand_Reader w) (home w) (denied w).

(** ** What the manager expects of encoding/json *)

Module codec.
Section Codec.
Context {CL : crypto.Lib} {WL : wallet.Lib}.

(** A session that has been written can be read back, the token apart. *)
Definition session_readable (s : wallet.SessionData) : Prop :=
  forall data,
    crypto.json_Marshal (wallet.SessionData_json s) = Some data ->
    exists s',
      wallet.json_Unmarshal_SessionData data = Some s' /\
      wallet.Mnemonic s' = wallet.Mnemonic s /\
      wallet.Expiration s' = wallet.Expiration s /\
      wallet.Network s' = wallet.Network s.

(** A vault that has been written can be read back. *)
Definition vault_readable (v : crypto.Vault) : Prop :=
  forall data,
    crypto.json_Marshal (crypto.Vault_json v) = Some data ->
    crypto.json_Unmarshal_Vault data = Some v.

End Codec.
End codec.

(** ** Package wallet: the key and address accessors of the manager *)

Module accessors.
Import wallet.

Definition EthDerivationPath : string := "m/44'/60'/0'/0/0".
Definition BtcDerivationPath : string := "m/44'/0'/0'/0/0".
Definition SolDerivationPath : string := "m/44'/501'/0'/0'".
Definition EthTestnetDerivationPath : string := "m/44'/1'/0'/0/0".
Definition SolTestnetDerivationPath : string := "m/44'/501'/0'/1'".

(** What the accessors import. *)
Class Lib {KL : hdkeys.Lib} : Type := {
  (* bip39.NewSeed(mnemonic, passphrase) *)
  bip39_NewSeed : string -> string -> list byte;
  accounts_ParseDerivationPath : string -> option (list Z);
  eth_Address : Type;
  (* the address of the public key: ethcrypto.PubkeyToAddress *)
  eth_address_of_key : hdkeys.ecdsa_PrivateKey -> eth_Address;
  btc_Address : Type;
  (* btcutil.Hash160(key.PubKey().SerializeCompressed()) *)
  btc_witness_program : hdkeys.btcec_PrivateKey -> list byte;
  btcutil_NewAddressWitnessPubKeyHash : list byte -> option btc_Address;
  sol_PublicKey : Type;
  (* key.PublicKey() of a solana.PrivateKey *)
  sol_public_key : list byte -> sol_PublicKey
}.

Section Accessors.
Context {CL : crypto.Lib} {WL : wallet.Lib} {HL : hdwallet.Lib}
        {KL : hdkeys.Lib} {AL : Lib}.

(** "Check if already unlocked; try to load session": the manager and the
    disk afterwards, or the error. *)
Definition ensureUnlocked (m : Manager) (w : World)
  : option error * Manager * World :=
  if negb (unlocked m) then
    match loadSession m w with
    | (false, m1, w1) => (Some (Errorf "wallet is locked"), m1, w1)
    | (true, m1, w1) => (None, m1, w1)
    end
  else (None, m, w).

Definition GetEthereumKey (m : Manager) (w : World)
  : result hdkeys.ecdsa_PrivateKey * Manager * World :=
  match ensureUnlocked m w with
  | (Some e, m1, w1) => (Err e, m1, w1)
  | (None, m1, w1) =>
    let seed := bip39_NewSeed (mnemonic m1) "" in
    let derivationPath :=
      if String.eqb (network m1) NetworkTestnet then EthTestnetDerivationPath
      else EthDerivationPath in
    (path <- lib "accounts" (accounts_ParseDerivationPath derivationPath)
       wrapping "failed to parse derivation path";
     key <- hdkeys.deriveEthereumKey seed path wrapping "failed to derive Ethereum key";
     Ok key,
     m1, w1)
  end.

Definition GetEthereumAddress (m : Manager) (w : World)
  : result eth_Address * Manager * World :=
  match GetEthereumKey m w with
  | (Err e, m1, w1) => (Err e, m1, w1)
  | (Ok key, m1, w1) => (Ok (eth_address_of_key key), m1, w1)
  end.

Definition GetBitcoinKey (m : Manager) (w : World)
  : result hdkeys.btcec_PrivateKey * Manager * World :=
  (* Bitcoin is only supported in mainnet *)
  if String.eqb (network m) NetworkTestnet then
    (Err (Errorf "bitcoin is not supported in testnet mode"), m, w)
  else
    match ensureUnlocked m w with
    | (Some e, m1, w1) => (Err e, m1, w1)
    | (None, m1, w1) =>
      let seed := bip39_NewSeed (mnemonic m1) "" in
      (key <- hdkeys.deriveBitcoinKey seed BtcDerivationPath
         wrapping "failed to derive Bitcoin key";
       Ok key,
       m1, w1)
    end.

Definition GetBitcoinAddress (m : Manager) (w : World)
  : result btc_Address * Manager * World :=
  if String.eqb (network m) NetworkTestnet then
    (Err (Errorf "bitcoin is not supported in testnet mode"), m, w)
  else
    match GetBitcoinKey m w with
    | (Err e, m1, w1) => (Err e, m1, w1)
    | (Ok key, m1, w1) =>
      let witnessProg := btc_witness_program key in
      (address <- lib "btcutil" (btcutil_NewAddressWitnessPubKeyHash witnessProg)
         wrapping "failed to create Bitcoin address";
       Ok address,
       m1, w1)
    end.

Definition GetSolanaKey (m : Manager) (w : World)
  : result (list byte) * Manager * World :=
  match ensureUnlocked m w with
  | (Some e, m1, w1) => (Err e, m1, w1)
  | (None, m1, w1) =>
    let seed := bip39_NewSeed (mnemonic m1) "" in
    let derivationPath :=
      if String.eqb (network m1) NetworkTestnet then SolTestnetDerivationPath
      else SolDerivationPath in
    (key <- hdkeys.deriveSolanaKey seed derivationPath
       wrapping "failed to derive Solana key";
     Ok key,
     m1, w1)
  end.

Definition GetSolanaAddress (m : Manager) (w : World)
  : result sol_PublicKey * Manager * World :=
  match GetSolanaKey m w with
  | (Err e, m1, w1) => (Err e, m1, w1)
  | (Ok key, m1, w1) => (Ok (sol_public_key key), m1, w1)
  end.

End Accessors.
End accessors.

(** ** Package cmd: unlock, recovery phrase, network *)

Module cmd2.
Import wallet.

(** What these commands import besides the manager. *)
Class Lib : Type := {
  strings_ToLower : string -> string
}.

Section Commands.
Context {CL : crypto.Lib} {WL : wallet.Lib} {TL : Lib}.

Definition runUnlock (typed : option string) (w : World) : goerror * World :=
  let manager := NewManager w in
  (* Check if wallet exists *)
  if negb (VaultExists manager w) then
    (Some (Errorf "no wallet found. Run 'odyssey init' to create a new wallet"), w)
  else
    (* Check if already unlocked *)
    match IsUnlocked manager w with
    | (true, _, w1) => (None, w1)
    | (false, manager1, w1) =>
      match typed with
      | None => (Some (Wrapf "failed to read password" (External "term")), w1)
      | Some password =>
        match Unlock password manager1 w1 with
        | (Some e, _, w2) => (Some (Wrapf "failed to unlock wallet" e), w2)
        | (None, _, w2) => (None, w2)
        end
      end
    end.

(** [showRecoveryPhrase]: the phrase it prints, or the error. *)
Definition showRecoveryPhrase (manager : Manager) (w : World) : result string * World :=
  if negb (VaultExists manager w) then
    (Err (Errorf "no wallet found. Run 'odyssey init' first"), w)
  else
    match IsUnlocked manager w with
    | (false, _, w1) => (Err (Errorf "wallet is locked. Run 'odyssey unlock' first"), w1)
    | (true, manager1, w1) =>
      match GetMnemonic manager1 w1 with
      | (Err e, _, w2) => (Err (Wrapf "failed to get mnemonic" e), w2)
      | (Ok mnemonic, _, w2) => (Ok mnemonic, w2)
      end
    end.

(** [getCurrentNetwork] of package cmd (its error is always nil). *)
Definition getCurrentNetwork (w : World) : string :=
  let networkPath := odyssey_path (home w) "network.txt" in
  if negb (os_Stat networkPath w) then NetworkMainnet
  else
    match os_ReadFile networkPath w with
    | None => NetworkMainnet
    | Some data =>
      let network := strings_TrimSpace (string_of_list_byte data) in
      if negb (String.eqb network NetworkMainnet)
         && negb (String.eqb network NetworkTestnet)
      then NetworkMainnet else network
    end.


Definition setNetwork (network : string) (w : World) : goerror * World :=
  (* Get home directory *)
  match os_UserHomeDir w with
  | Err e => (Some (Wrapf "failed to get home directory" e), w)
  | Ok homeDir =>
    (* Create .odyssey directory if it doesn't exist *)
    let configDir := odyssey_dir homeDir in
    match os_MkdirAll configDir w with
    | Some e => (Some (Wrapf "failed to create directory" e), w)
    | None =>
      (* Write network to network.txt file *)
      let networkPath := odyssey_path homeDir "network.txt" in
      match os_WriteFile_err networkPath (list_byte_of_string network) w with
      | (Some e, w1) => (Some (Wrapf "failed to write network file" e), w1)
      | (None, w1) => (None, w1)
      end
    end
  end.

(** [runNetwork] with one argument. *)
Definition runNetwork (arg : string) (w : World) : goerror * World :=
  let network := strings_ToLower arg in
  if negb (String.eqb network NetworkMainnet) && negb (String.eqb network NetworkTestnet)
  then (Some (Errorf "invalid network: %s. Use 'mainnet' or 'testnet'"), w)
  else setNetwork network w.

End Commands.
End cmd2.

(** ** Package ethereum (chains/ethereum) and the Ethereum payment *)

Module ethereum.
Local Open Scope Z_scope.

Definition MainnetChainID : Z := 1.
Definition SepoliaChainID : Z := 11155111.

(** What the package imports for addresses. *)
Class Lib : Type := {
  Address : Type;
  common_IsHexAddress : string -> bool;
  common_HexToAddress : string -> Address
}.

Section Ethereum.
Context {WL : wallet.Lib} {EL : Lib}.

(** A [*big.Int] and a [*common.Address] may be nil. *)
Record Transaction : Type := mkTransaction {
  Nonce : Z;                 (* uint64 *)
  GasPrice : option Z;
  GasLimit : Z;              (* uint64 *)
  To : option Address;
  Value : option Z;
  Data : list byte;
  ChainID : Z
}.

Definition getCurrentNetwork (w : World) : string :=
  let networkPath := odyssey_path (home w) "network.txt" in
  if negb (os_Stat networkPath w) then wallet.NetworkMainnet
  else
    match os_ReadFile networkPath w with
    | None => wallet.NetworkMainnet
    | Some data =>
      let network := wallet.strings_TrimSpace (string_of_list_byte data) in
      if negb (String.eqb network wallet.NetworkMainnet)
         && negb (String.eqb network wallet.NetworkTestnet)
      then wallet.NetworkMainnet else network
    end.

Definition GetChainID (w : World) : Z :=
  if String.eqb (getCurrentNetwork w) wallet.NetworkTestnet then SepoliaChainID
  else MainnetChainID.

Definition NewTransaction (nonce : Z) (to : Address) (value : Z) (gasLimit : Z)
    (gasPrice : Z) (data : list byte) (w : World) : Transaction :=
  mkTransaction nonce (Some gasPrice) gasLimit (Some to) (Some value) data (GetChainID w).

Definition ParseAddress (address : string) : result Address :=
  if negb (common_IsHexAddress address) then Err (Errorf "invalid Ethereum address: %s")
  else Ok (common_HexToAddress address).

Definition EstimateGasLimit (data : list byte) : Z :=
  let baseGas := 21000 in
  if (0 <? length data)%nat then (baseGas + Z.of_nat (length data) * 16) mod 2 ^ 64
  else baseGas.

Definition ValidateTransaction (t : Transaction) : goerror :=
  match To t with
  | None => Some (Errorf "transaction must have a recipient address")
  | Some _ =>
    if match Value t with None => true | Some v => v <? 0 end then
      Some (Errorf "transaction value must be non-negative")
    else if match GasPrice t with None => true | Some p => p <=? 0 end then
      Some (Errorf "gas price must be positive")
    else if GasLimit t =? 0 then Some (Errorf "gas limit must be greater than 0")
    else None
  end.

(** The locals of [sendEthereum] when both balance checks have passed. *)
Record Quote : Type := mkQuote {
  quoted : Transaction;
  maxFee : Z;
  totalCost : Z
}.

(** [sendEthereum] from "Check if balance is sufficient" to "Ensure user
    has enough for value + gas"; the value in wei, the balance, the nonce,
    the gas price and the outcome of the gas estimate are arguments. *)
Definition sendEthereum (recipient : Address) (value balance nonce gasPrice : Z)
    (gasEstimate : result Z) (w : World) : result Quote :=
  if balance <? value then Err (Errorf "insufficient funds in your Ethereum wallet. You're trying to send %.6f ETH but your balance is only %.6f ETH. Please deposit more ETH to your address (%s) before making this payment")
  else
    (* Add 20% to gas price to ensure faster inclusion *)
    let gasPrice := gasPrice * 120 in
    let gasPrice := gasPrice / 100 in
    let estimatedGas :=
      match gasEstimate with
      | Ok g => g
      | Err _ => EstimateGasLimit []     (* Fall back to the basic estimator *)
      end in
    let gasLimit := estimatedGas in
    let t := NewTransaction nonce recipient value gasLimit gasPrice [] w in
    match ValidateTransaction t with
    | Some e => Err (Wrapf "invalid transaction" e)
    | None =>
      let maxFee := gasPrice * wrap64 gasLimit in
      let totalCost := value + maxFee in
      if balance <? totalCost then
        Err (Errorf "insufficient funds for transaction with gas. You're trying to send %.6f ETH with approximately %.6f ETH in gas fees (total %.6f ETH) but your balance is only %.6f ETH")
      else Ok (mkQuote t maxFee totalCost)
    end.

End Ethereum.
End ethereum.

(** ** Package solana, continued *)

Module solana2.
Import solana.

(** What transaction.go imports for addresses and transfers. *)
Class Lib {L : solana.Lib} : Type := {
  PublicKeyFromBase58 : string -> option PublicKey;
  (* system.NewTransferInstruction(amount, from, to).Build() *)
  system_NewTransferInstruction : Z -> PublicKey -> PublicKey -> Instruction;
  (* signer.PublicKey() *)
  PrivateKey_PublicKey : PrivateKey -> PublicKey
}.

(** The first position of [s] that holds one of 0, O, I, l. *)
Fixpoint firstConfusable (s : string) (i : nat) : option nat :=
  match s with
  | EmptyString => None
  | String c rest =>
    if Ascii.eqb c "0" || Ascii.eqb c "O" || Ascii.eqb c "I" || Ascii.eqb c "l"
    then Some i
    else firstConfusable rest (S i)
  end.

Section Transactions.
Context {L : solana.Lib} {L2 : Lib}.

Definition NewTransaction (feePayer : PublicKey) : Transaction :=
  mkTransaction [] [] feePayer "".

Definition AddTransferInstruction (from to : PublicKey) (amount : Z) (t : Transaction)
  : Transaction :=
  let instruction := system_NewTransferInstruction amount from to in
  mkTransaction (Instructions t ++ [instruction]) (Signers t) (FeePayer t)
                (RecentBlockhash t).

Definition AddSigner (signer : PrivateKey) (t : Transaction) : Transaction :=
  mkTransaction (Instructions t) (Signers t ++ [signer]) (FeePayer t)
                (RecentBlockhash t).

Definition SetRecentBlockhash (blockhash : string) (t : Transaction) : Transaction :=
  mkTransaction (Instructions t) (Signers t) (FeePayer t) blockhash.

Definition ValidateBase58 (s : string) : bool :=
  if String.eqb s "" then false
  else
    match firstInvalid s 0 with
    | Some _ => false
    | None =>
      (* Additional validation - try to decode with the Solana library *)
      match HashFromBase58 s with Some _ => true | None => false end
    end.

Definition ParseAddress (address : string) : result PublicKey :=
  match firstConfusable address 0 with
  | Some i =>
    Err (Errorf "invalid character '%c' at position %d in Solana address. Solana addresses use base58 encoding which doesn't include 0, O, I, or l characters")
  | None =>
    match PublicKeyFromBase58 address with
    | None => Err (Wrapf "invalid Solana address (%s)" (External "solana"))
    | Some pubKey => Ok pubKey
    end
  end.

Definition CreateTransferTransaction (from : PrivateKey) (to : PublicKey) (amount : Z)
    (recentBlockhash : string) : result Transaction :=
  let t := NewTransaction (PrivateKey_PublicKey from) in
  let t := AddTransferInstruction (PrivateKey_PublicKey from) to amount t in
  let t := AddSigner from t in
  let t := SetRecentBlockhash recentBlockhash t in
  Ok t.

(** [sendSolana] of cmd/pay.go, from "Add some extra lamports for
    transaction fee" to the signing; the value in lamports and the balance
    (both uint64), the outcome of [GetSolanaKey] and the outcome of the
    request for a recent blockhash are arguments. *)
Definition sendSolana (recipient : PublicKey) (value balance : Z)
    (key : result PrivateKey) (blockhash : result string) : result string :=
  (* Solana transaction fees are currently fixed at 5000 lamports *)
  let solanaFee := 5000%Z in
  let requiredBalance := ((value + solanaFee) mod 2 ^ 64)%Z in
  if (balance <? requiredBalance)%Z then
    Err (Errorf "insufficient funds in your Solana wallet. You're trying to send %.9f SOL plus %.9f SOL in fees (total %.9f SOL) but your balance is only %.9f SOL. Please deposit more SOL to your address (%s) before making this payment")
  else
    privateKey <- key wrapping "failed to get private key";
    (* Create transaction structure first (without blockhash) *)
    t <- CreateTransferTransaction privateKey recipient value ""
      wrapping "failed to create transaction";
    recentBlockhash <- blockhash wrapping "failed to get blockhash";
    (* Set the fresh blockhash and sign immediately *)
    let t := SetRecentBlockhash recentBlockhash t in
    signedTx <- BuildAndSign t wrapping "failed to sign transaction";
    Ok signedTx.

End Transactions.
End solana2.

(** ** Executable stand-ins for the imported libraries

    Small implementations of the library interfaces, used to run the
    embedding on concrete inputs.  They satisfy the contracts stated in
    the law records; they are not the real primitives. *)

Module standin.

Definition key_sizes_ok (k : list byte) : bool :=
  ((length k =? 16) || (length k =? 24) || (length k =? 32))%nat.

Definition bytes_eqb (a b : list byte) : bool :=
  bool_decide (map Byte.to_N a = map Byte.to_N b).

Definition tag_of (k : list byte) : list byte := take 16 (k ++ repeat Byte.x00 16).

Definition seal (k nonce plaintext ad : list byte) : list byte :=
  plaintext ++ tag_of k.

Definition open (k nonce ciphertext ad : list byte) : option (list byte) :=
  let n := (length ciphertext - 16)%nat in
  if bytes_eqb (drop n ciphertext) (tag_of k) && (16 <=? length ciphertext)%nat
  then Some (take n ciphertext) else None.

Definition marshal (j : JSON) : option (list byte) :=
  match j with
  | JObject [("mnemonic", JString m); ("version", JNumber _)]%string =>
      Some (list_byte_of_string m)
  | JObject [("salt", JBase64 s); ("nonce", JBase64 n);
             ("data", JBase64 d); ("mac", _)]%string =>
      Some (s ++ n ++ d)
  | JObject [("token", JString t); ("mnemonic", JString m);
             ("expiration", JTime e); ("network", JString nw)]%string =>
      Some (bytes_be 8 e ++ list_byte_of_string nw ++ list_byte_of_string m)
  | _ => None
  end.

Definition unmarshal_VaultData (b : list byte) : option crypto.VaultData :=
  Some (crypto.mkVaultData (string_of_list_byte b) 1).

Definition unmarshal_Vault (b : list byte) : option crypto.Vault :=
  if (44 <=? length b)%nat
  then Some (crypto.mkVault (Some (take 32 b)) (Some (take 12 (drop 32 b)))
                            (Some (drop 44 b)) None)
  else None.

#[local] Instance cryptoLib : crypto.Lib := {|
  crypto.scrypt_Key pw salt _ _ _ _ := Some (take 32 (pw ++ salt ++ repeat Byte.x00 32));
  crypto.cipher_Block := list byte;
  crypto.cipher_AEAD := list byte;
  crypto.aes_NewCipher k := if key_sizes_ok k then Some k else None;
  crypto.cipher_NewGCM blk := Some blk;
  crypto.Seal := seal;
  crypto.Open := open;
  crypto.json_Marshal := marshal;
  crypto.json_Unmarshal_VaultData := unmarshal_VaultData;
  crypto.json_Unmarshal_Vault := unmarshal_Vault
|}.

(** A session file: 8 bytes of expiration, 7 of network, the mnemonic. *)
Definition unmarshal_SessionData (b : list byte) : option wallet.SessionData :=
  if (15 <=? length b)%nat
  then Some (wallet.mkSessionData "" (string_of_list_byte (drop 15 b))
               (big_SetBytes (take 8 b))
               (string_of_list_byte (take 7 (drop 8 b))))
  else None.

Fixpoint fields_from (cur : string) (s : string) : list string :=
  match s with
  | EmptyString => if String.eqb cur "" then [] else [cur]
  | String c rest =>
    if Ascii.eqb c " "%char
    then (if String.eqb cur "" then [] else [cur]) ++ fields_from "" rest
    else fields_from (cur ++ String c "") rest
  end.

(** The 24 words of the all-zero entropy, a phrase with a valid checksum. *)
Definition zero_phrase : string :=
  "abandon abandon abandon abandon abandon abandon abandon abandon abandon abandon abandon abandon abandon abandon abandon abandon abandon abandon abandon abandon abandon abandon abandon art".

Fixpoint join_path (parts : list string) : string :=
  match parts with
  | [] => ""
  | [a] => a
  | a :: rest => a ++ "/" ++ join_path rest
  end.

(** The path without its last element. *)
Definition dir_of (path : string) : string :=
  join_path (removelast (hdkeys.Split path)).

#[local] Instance walletLib : wallet.Lib := {|
  wallet.hex_EncodeToString := string_of_list_byte;
  wallet.json_Unmarshal_SessionData := unmarshal_SessionData;
  wallet.bip39_NewMnemonic entropy := Some "abandon ability able"%string;
  wallet.bip39_IsMnemonicValid s := String.eqb s zero_phrase;
  wallet.strings_TrimSpace s := s;
  wallet.strings_Fields := fields_from "";
  wallet.filepath_Dir := dir_of
|}.

(** A home directory with nothing in it, where every write is allowed;
    the clock reads 1000. *)
Definition bare (r : Reader) : World := mkWorld ∅ 1000 r "/home/u" [].

Definition entropy120 : Reader := map (fun i => byte_of_Z (Z.of_nat i)) (seq 1 120).

Definition session_file (expiration : Z) (network mnemonic : string) : list byte :=
  bytes_be 8 expiration ++ list_byte_of_string network ++ list_byte_of_string mnemonic.

(** Forty-four bytes for the generator to deliver: a salt and a nonce. *)
Definition entropy44 : Reader := map (fun i => byte_of_Z (Z.of_nat i)) (seq 1 44).

End standin.

Module standin_hd.

(** The 32-byte big-endian private key of value [k]. *)
Definition key32 (k : Z) : list byte := bytes_be 32 k.

(** A keyed function whose 64-byte output always starts with the 32 bytes
    of the group order: an output with I[0:32] >= n. *)
#[local] Instance order_hmac : hdwallet.Lib := {|
  hdwallet.hmac_SHA512_Sum _ _ := key32 hdwallet.curveOrder ++ repeat Byte.x00 32;
  hdwallet.crypto_Keccak256 _ := repeat Byte.x00 32
|}.

Definition node (k : Z) : hdwallet.HDKey :=
  hdwallet.mkHDKey (key32 k) (hdwallet.derivePublicKey (key32 k))
                   (repeat Byte.x00 32) 0 0 0.

End standin_hd.

Module standin_chain.

#[local] Instance bitcoinLib : bitcoin.Lib := {|
  bitcoin.Address := string;
  bitcoin.chainhash_NewHashFromStr s :=
    if (String.length s <=? 64)%nat then Some (list_byte_of_string s) else None;
  bitcoin.txscript_PayToAddrScript a :=
    if String.eqb a "" then None else Some (list_byte_of_string a)
|}.

Definition b58_digit (c : ascii) : option Z :=
  (fix find (chars : list ascii) (i : Z) : option Z :=
     match chars with
     | [] => None
     | d :: rest => if Ascii.eqb c d then Some i else find rest (i + 1)%Z
     end) (list_ascii_of_string solana.base58Chars) 0%Z.

Fixpoint b58_digits (s : string) : option (list Z) :=
  match s with
  | EmptyString => Some []
  | String c rest =>
    match b58_digit c, b58_digits rest with
    | Some d, Some ds => Some (d :: ds)
    | _, _ => None
    end
  end.

Fixpoint leading_zeros (ds : list Z) : nat :=
  match ds with
  | 0%Z :: rest => S (leading_zeros rest)
  | _ => 0
  end.

(** Base58 decoding: every leading '1' is a zero byte, the rest is a number. *)
Definition b58_decode (s : string) : option (list byte) :=
  match b58_digits s with
  | Some ds =>
    Some (repeat Byte.x00 (leading_zeros ds)
          ++ big_Bytes (fold_left (fun acc d => acc * 58 + d)%Z ds 0%Z))
  | None => None
  end.

#[local] Instance solanaLib : solana.Lib := {|
  solana.Instruction := unit;
  solana.PrivateKey := string;
  solana.PublicKey := string;
  solana.Hash := list byte;
  solana.SignedTx := list byte;
  solana.HashFromBase58 s :=
    match b58_decode s with
    | Some b => if (length b =? 32)%nat then Some b else None
    | None => None
    end;
  solana.solana_NewTransaction _ h _ := Some h;
  solana.Sign stx _ := Some stx;
  solana.MarshalBinary stx := Some stx;
  solana.base58_Encode := string_of_list_byte
|}.

(** The base58 text of the hash made of 32 bytes 0x01 (43 characters). *)
Definition ones_hash : string := "4vJ9JU1bJJE96FWSJKvHsmmFADCg4gpZQff4P3bkLKi".

(** A transaction that already has its payment output. *)
Definition paying (value : Z) : bitcoin.Transaction :=
  bitcoin.mkTransaction 2 [bitcoin.mkTxIn (list_byte_of_string "aa") 0 []]
    [bitcoin.mkTxOut value (list_byte_of_string "bc1recipient")] 0.

End standin_chain.

(** ** Disks for the manager *)

Module scenario.
Import standin wallet.

Definition session_path : string := "/home/u/.odyssey/session.json".
Definition vault_path : string := "/home/u/.odyssey/wallet.vault".

(** A session recorded for testnet, expiring at 2000, read at 1000 by a
    manager on mainnet. *)
Definition testnet_session : list byte := session_file 2000 "testnet" "abandon ability able".
Definition w_mismatch : World := os_WriteFile session_path testnet_session (bare []).

(** A mainnet session that expires at the very instant it is read. *)
Definition edge_session : list byte := session_file 1000 "mainnet" "abandon ability able".
Definition w_edge : World := os_WriteFile session_path edge_session (bare []).

(** A mainnet session with time left, and a vault sealed for "password123". *)
Definition live_session : list byte := session_file 2000 "mainnet" "abandon ability able".
Definition w_live : World := os_WriteFile session_path live_session (bare []).


(** A disk that already holds a vault file. *)
Definition old_vault : list byte := list_byte_of_string "an earlier vault".

End scenario.


Module standin_keys.

Fixpoint digits_value (s : string) (acc : Z) : option Z :=
  match s with
  | EmptyString => Some acc
  | String c rest =>
    let d := (Z.of_nat (nat_of_ascii c) - 48)%Z in
    if ((0 <=? d) && (d <=? 9))%Z then digits_value rest (acc * 10 + d)%Z else None
  end.

(** Decimal digits only, and the value must fit 32 bits. *)
Definition scan_uint32 (s : string) : option Z :=
  match s with
  | EmptyString => None
  | _ =>
    match digits_value s 0 with
    | Some v => if (v <? 2 ^ 32)%Z then Some v else None
    | None => None
    end
  end.

#[local] Instance keysLib : hdkeys.Lib := {|
  hdkeys.fmt_Sscanf_uint32 := scan_uint32;
  hdkeys.btcec_PrivateKey := list byte;
  hdkeys.btcec_PrivKeyFromBytes b := b;
  hdkeys.ecdsa_PrivateKey := list byte;
  hdkeys.crypto_ToECDSA b := if (length b =? 32)%nat then Some b else None;
  hdkeys.ed25519_NewKeyFromSeed seed := seed ++ seed
|}.

(** A keyed function whose 64-byte output has the number 1 as its left
    half and the first 32 bytes of the data (zero-padded) as its right half. *)
#[local] Instance counting_hmac : hdwallet.Lib := {|
  hdwallet.hmac_SHA512_Sum _ data :=
    bytes_be 32 1 ++ take 32 (data ++ repeat Byte.x00 32);
  hdwallet.crypto_Keccak256 data := take 32 (data ++ repeat Byte.x00 32)
|}.

#[local] Instance accessorsLib : @accessors.Lib keysLib := {|
  accessors.bip39_NewSeed mnemonic passphrase :=
    list_byte_of_string mnemonic ++ list_byte_of_string passphrase;
  accessors.accounts_ParseDerivationPath path :=
    if (String.length path <? 2)%nat then None else Some [44; 60; 0; 0; 0]%Z;
  accessors.eth_Address := list byte;
  accessors.eth_address_of_key key := take 20 key;
  accessors.btc_Address := list byte;
  accessors.btc_witness_program key := take 20 key;
  accessors.btcutil_NewAddressWitnessPubKeyHash prog :=
    if (length prog =? 20)%nat then Some prog else None;
  accessors.sol_PublicKey := list byte;
  accessors.sol_public_key key := drop 32 key
|}.

Definition lower_ascii (c : ascii) : ascii :=
  let n := nat_of_ascii c in
  if ((65 <=? n) && (n <=? 90))%nat then ascii_of_nat (n + 32) else c.

Fixpoint lower (s : string) : string :=
  match s with
  | EmptyString => EmptyString
  | String c rest => String (lower_ascii c) (lower rest)
  end.

#[local] Instance cmdLib : cmd2.Lib := {| cmd2.strings_ToLower := lower |}.

#[local] Instance ethereumLib : ethereum.Lib := {|
  ethereum.Address := string;
  ethereum.common_IsHexAddress s := (String.length s =? 42)%nat;
  ethereum.common_HexToAddress s := s
|}.

(** A public key is kept as its base58 text when it decodes to 32 bytes. *)
Definition public_key_text (s : string) : option string :=
  match standin_chain.b58_decode s with
  | Some b => if (length b =? 32)%nat then Some s else None
  | None => None
  end.

#[local] Instance solana2Lib : @solana2.Lib standin_chain.solanaLib :=
  @solana2.Build_Lib standin_chain.solanaLib
    public_key_text (fun (_ : Z) (_ _ : string) => tt) (fun key : string => key).

End standin_keys.

(** * Properties *)

(** ** Go runtime *)

Lemma io_ReadFull_enough n r :
  (n <= length r)%nat -> io_ReadFull n r = (Some (take n r), drop n r).
Proof.
  intros H. unfold io_ReadFull.
  destruct (Nat.leb_spec n (length r)); [reflexivity | lia].
Qed.

Lemma io_ReadFull_Some n r b r' :
  io_ReadFull n r = (Some b, r') ->
  (n <= length r)%nat /\ b = take n r /\ r' = drop n r.
Proof.
  unfold io_ReadFull.
  destruct (Nat.leb_spec n (length r)); intros [= <- <-]; auto.
Qed.

#[global] Arguments io_ReadFull : simpl never.

(** ** The stand-in libraries satisfy the contracts *)

Lemma standin_bytes_eqb_refl a : standin.bytes_eqb a a = true.
Proof. unfold standin.bytes_eqb. apply bool_decide_eq_true_2. reflexivity. Qed.

Lemma standin_open_seal k nonce plaintext ad :
  standin.open k nonce (standin.seal k nonce plaintext ad) ad = Some plaintext.
Proof.
  unfold standin.open, standin.seal.
  assert (Ht : length (standin.tag_of k) = 16%nat).
  { unfold standin.tag_of. rewrite length_take, length_app, repeat_length. lia. }
  rewrite length_app, Ht.
  replace (length plaintext + 16 - 16)%nat with (length plaintext) by lia.
  rewrite drop_app_length, take_app_length, standin_bytes_eqb_refl.
  destruct (Nat.leb_spec 16 (length plaintext + 16)); [reflexivity | lia].
Qed.

Lemma standin_cryptoLaws : crypto.Laws standin.cryptoLib.
Proof.
  split.
  - intros pw salt. eexists; split; [reflexivity |].
    rewrite length_take, !length_app, repeat_length. lia.
  - intros k Hk. cbn. unfold standin.key_sizes_ok. rewrite Hk. eauto.
  - intros k blk _. eauto.
  - intros g nonce plaintext ad _. apply standin_open_seal.
Qed.

(** ** Package crypto: the vault *)

Section VaultProperties.
Context {L : crypto.Lib} (laws : crypto.Laws L).
Import crypto.

Lemma deriveKey_ok password salt :
  exists key, deriveKey password salt = Ok key /\ length key = 32%nat.
Proof.
  unfold deriveKey.
  destruct (scrypt_Key_len L laws (list_byte_of_string password) salt) as (k & -> & Hk).
  simpl. eauto.
Qed.

Lemma encrypt_ok key nonce data :
  length key = 32%nat ->
  exists g, aes_NewCipher key ≫= cipher_NewGCM = Some g /\
            encrypt key nonce data = Ok (Seal g nonce data [], None).
Proof.
  intros Hk. unfold encrypt.
  destruct (aes_NewCipher_256 L laws key Hk) as [blk Hblk].
  destruct (cipher_NewGCM_ok L laws key blk Hblk) as [g Hg].
  exists g. rewrite Hblk. simpl. rewrite Hg. simpl. split; reflexivity.
Qed.

Lemma decrypt_sealed key nonce data mac g :
  aes_NewCipher key ≫= cipher_NewGCM = Some g ->
  length nonce = 12%nat ->
  decrypt key nonce (Seal g nonce data []) mac = Ok data.
Proof.
  intros Hg Hn. unfold decrypt.
  destruct (aes_NewCipher key) as [blk|]; simpl in *; [| discriminate].
  rewrite Hg. simpl. rewrite (Open_Seal L laws) by exact Hn. reflexivity.
Qed.

(** What a successful [NewVault] returns. *)
Lemma NewVault_shape mnemonic password r v :
  fst (NewVault mnemonic password r) = Ok v ->
  exists key data g,
    deriveKey password (take 32 r) = Ok key /\
    json_Marshal (VaultData_json (mkVaultData mnemonic 1)) = Some data /\
    aes_NewCipher key ≫= cipher_NewGCM = Some g /\
    (44 <= length r)%nat /\
    v = mkVault (Some (take 32 r)) (Some (take 12 (drop 32 r)))
                (Some (Seal g (take 12 (drop 32 r)) data [])) None.
Proof.
  unfold NewVault.
  destruct (io_ReadFull 32 r) as [[salt|] r1] eqn:H1; [| discriminate].
  apply io_ReadFull_Some in H1 as (H32 & -> & ->).
  destruct (deriveKey password (take 32 r)) as [key|] eqn:Hkey; [| discriminate].
  destruct (json_Marshal _) as [data|] eqn:Hdata; cbn [lib]; [| discriminate].
  destruct (io_ReadFull 12 (drop 32 r)) as [[nonce|] r2] eqn:H2; [| discriminate].
  apply io_ReadFull_Some in H2 as (H12 & -> & ->).
  rewrite length_drop in H12.
  unfold encrypt.
  destruct (aes_NewCipher key) as [blk|] eqn:Hblk; cbn [lib]; [| discriminate].
  destruct (cipher_NewGCM blk) as [g|] eqn:Hg; cbn [lib fst]; [| discriminate].
  intros [= <-]. exists key, data, g.
  split; [reflexivity |]. split; [reflexivity |].
  split; [rewrite Hblk; exact Hg |]. split; [lia | reflexivity].
Qed.

(** [Decrypt] never looks at the MAC field. *)
Lemma Decrypt_ignores_MAC (u : Vault) (mac : option (list byte)) password :
  Decrypt (mkVault (Salt u) (Nonce u) (Data u) mac) password = Decrypt u password.
Proof. reflexivity. Qed.

(** C1. Round trip: when the generator delivers the 32 salt bytes and the
    12 nonce bytes, and encoding/json gives back the vault data it wrote,
    [NewVault M Pw] succeeds and decrypting its vault with [Pw] returns
    exactly [M]. *)
Theorem NewVault_Decrypt_roundtrip (M Pw : string) (r : Reader) :
  (44 <= length r)%nat ->
  json_faithful (mkVaultData M 1) ->
  exists v, fst (NewVault M Pw r) = Ok v /\ Decrypt v Pw = Ok M.
Proof.
  intros Hr (data & Hmar & Hunm).
  destruct (deriveKey_ok Pw (take 32 r)) as (key & Hkey & Hlen).
  destruct (encrypt_ok key (take 12 (drop 32 r)) data Hlen) as (g & Hg & Henc).
  assert (Hn : length (take 12 (drop 32 r)) = 12%nat).
  { rewrite length_take, length_drop. lia. }
  eexists. split.
  - unfold NewVault.
    rewrite io_ReadFull_enough by lia.
    rewrite Hkey, Hmar. cbn [lib].
    rewrite io_ReadFull_enough by (rewrite length_drop; lia).
    rewrite Henc. reflexivity.
  - unfold Decrypt. cbn [Salt Nonce Data MAC bytes_of].
    rewrite Hkey.
    rewrite (decrypt_sealed key _ data None g Hg Hn).
    rewrite Hunm. reflexivity.
Qed.

(** C10. Every vault made by [NewVault] has a nil MAC, so the JSON object
    that is persisted for it has the four fields salt, nonce, data and mac
    with mac null; and for every vault the result of [Decrypt] is the same
    whatever the MAC field holds. *)
Theorem NewVault_MAC_nil_and_unread (M Pw : string) (r : Reader) (v : Vault) :
  fst (NewVault M Pw r) = Ok v ->
  MAC v = None /\
  (exists salt nonce data,
      Vault_json v = JObject [("salt", JBase64 salt); ("nonce", JBase64 nonce);
                              ("data", JBase64 data); ("mac", JNull)]%string) /\
  (forall (u : Vault) (mac : option (list byte)) (password : string),
      Decrypt (mkVault (Salt u) (Nonce u) (Data u) mac) password = Decrypt u password /\
      ValidatePassword (mkVault (Salt u) (Nonce u) (Data u) mac) password
        = ValidatePassword u password).
Proof.
  intros Hv.
  destruct (NewVault_shape M Pw r v Hv) as (key & data & g & _ & _ & _ & _ & ->).
  split; [reflexivity |]. split.
  - eexists _, _, _. reflexivity.
  - intros u mac password. split; reflexivity.
Qed.

End VaultProperties.

Lemma standin_json_faithful (M : string) :
  @crypto.json_faithful standin.cryptoLib (crypto.mkVaultData M 1).
Proof.
  exists (list_byte_of_string M). split; [reflexivity |].
  cbn. unfold standin.unmarshal_VaultData.
  rewrite string_of_list_byte_of_string. reflexivity.
Qed.

Lemma NewVault_Decrypt_roundtrip_witness :
  (44 <= length standin.entropy44)%nat /\
  @crypto.json_faithful standin.cryptoLib (crypto.mkVaultData "abandon ability able" 1) /\
  exists v,
    fst (@crypto.NewVault standin.cryptoLib "abandon ability able" "password123"
           standin.entropy44) = Ok v /\
    @crypto.Decrypt standin.cryptoLib v "password123" = Ok "abandon ability able"%string.
Proof.
  split; [vm_compute; lia |]. split; [apply standin_json_faithful |].
  apply (NewVault_Decrypt_roundtrip standin_cryptoLaws).
  - vm_compute; lia.
  - apply standin_json_faithful.
Defined.

Lemma NewVault_MAC_nil_and_unread_witness :
  exists v,
    fst (@crypto.NewVault standin.cryptoLib "abandon ability able" "password123"
           standin.entropy44) = Ok v /\
    crypto.MAC v = None.
Proof.
  eexists. split; [vm_compute; reflexivity |].
  eapply (@NewVault_MAC_nil_and_unread standin.cryptoLib
            "abandon ability able" "password123" standin.entropy44).
  vm_compute. reflexivity.
Defined.

(** ** Bytes and big integers *)

Section Bytes.
Local Open Scope Z_scope.

Lemma Z_of_byte_range b : 0 <= Z_of_byte b < 256.
Proof.
  unfold Z_of_byte. pose proof (Byte.to_N_bounded b). lia.
Qed.

Lemma Z_of_byte_of_Z v : Z_of_byte (byte_of_Z v) = v mod 256.
Proof.
  unfold Z_of_byte, byte_of_Z.
  pose proof (Z.mod_pos_bound v 256 ltac:(lia)) as Hv.
  destruct (Byte.of_N (Z.to_N (v mod 256))) as [b|] eqn:E.
  - apply Byte.to_of_N in E. rewrite E. lia.
  - apply Byte.of_N_None_iff in E. lia.
Qed.

Lemma fold_digits_from (l : list byte) (acc : Z) :
  fold_left (fun a x => a * 256 + Z_of_byte x) l acc
  = acc * 256 ^ Z.of_nat (length l)
    + fold_left (fun a x => a * 256 + Z_of_byte x) l 0.
Proof.
  revert acc. induction l as [|x l IH]; intros acc.
  - simpl. lia.
  - cbn [fold_left length]. rewrite IH. rewrite (IH (0 * 256 + Z_of_byte x)).
    rewrite Nat2Z.inj_succ, Z.pow_succ_r by lia. ring.
Qed.

Lemma big_SetBytes_cons x l :
  big_SetBytes (x :: l) = Z_of_byte x * 256 ^ Z.of_nat (length l) + big_SetBytes l.
Proof.
  unfold big_SetBytes. cbn [fold_left]. rewrite fold_digits_from. ring.
Qed.

Lemma big_SetBytes_zeros k l : big_SetBytes (repeat Byte.x00 k ++ l) = big_SetBytes l.
Proof.
  induction k as [|k IH]; [reflexivity |].
  cbn [repeat app]. rewrite big_SetBytes_cons, IH. reflexivity.
Qed.

Lemma big_SetBytes_range l : 0 <= big_SetBytes l < 256 ^ Z.of_nat (length l).
Proof.
  induction l as [|x l IH].
  - cbn. lia.
  - rewrite big_SetBytes_cons. cbn [length].
    rewrite Nat2Z.inj_succ, Z.pow_succ_r by lia.
    pose proof (Z_of_byte_range x). nia.
Qed.

Lemma length_digits z k : length (digits z k) = k.
Proof. unfold digits. rewrite length_map, length_rev, length_seq. reflexivity. Qed.

Lemma big_SetBytes_digits z k :
  0 <= z -> big_SetBytes (digits z k) = z mod 2 ^ (8 * Z.of_nat k).
Proof.
  intros Hz. induction k as [|k IH].
  - cbn. rewrite Z.mod_1_r. reflexivity.
  - unfold digits. rewrite seq_S, rev_app_distr. cbn [rev app map Nat.add].
    fold (digits z k). rewrite big_SetBytes_cons, IH, length_digits.
    rewrite Z_of_byte_of_Z, Z.shiftr_div_pow2 by lia.
    replace (256 ^ Z.of_nat k) with (2 ^ (8 * Z.of_nat k))
      by (rewrite Z.pow_mul_r by lia; reflexivity).
    replace (8 * Z.of_nat (S k)) with (8 * Z.of_nat k + 8) by lia.
    rewrite Z.pow_add_r by lia. change (2 ^ 8) with 256.
    rewrite Z.rem_mul_r by lia. lia.
Qed.

Lemma big_Bytes_pos z :
  0 < z -> big_Bytes z = digits z (Z.to_nat (Z.log2 z / 8 + 1)).
Proof.
  intros Hz. unfold big_Bytes. rewrite Z.abs_eq by lia.
  destruct (Z.eqb_spec z 0); [lia | reflexivity].
Qed.

Lemma big_SetBytes_Bytes z : 0 <= z -> big_SetBytes (big_Bytes z) = z.
Proof.
  intros Hz. destruct (Z.eq_dec z 0) as [-> | Hnz]; [reflexivity |].
  rewrite big_Bytes_pos, big_SetBytes_digits by lia.
  apply Z.mod_small. split; [lia |].
  pose proof (Z.log2_nonneg z).
  pose proof (Z.div_pos (Z.log2 z) 8 ltac:(lia) ltac:(lia)).
  apply Z.log2_lt_pow2; [lia |].
  rewrite Z2Nat.id by lia.
  pose proof (Z.mul_succ_div_gt (Z.log2 z) 8 ltac:(lia)). lia.
Qed.

Lemma length_big_Bytes_le z (n : nat) :
  0 <= z < 2 ^ (8 * Z.of_nat n) -> (length (big_Bytes z) <= n)%nat.
Proof.
  intros [Hz Hlt]. destruct (Z.eq_dec z 0) as [-> | Hnz]; [change (big_Bytes 0) with (@nil byte); cbn [length]; lia |].
  rewrite big_Bytes_pos, length_digits by lia.
  apply Z.log2_lt_pow2 in Hlt; [| lia].
  pose proof (Z.log2_nonneg z).
  assert (Z.log2 z / 8 < Z.of_nat n) by (apply Z.div_lt_upper_bound; lia).
  pose proof (Z.div_pos (Z.log2 z) 8 ltac:(lia) ltac:(lia)). lia.
Qed.

End Bytes.

(** ** Package wallet: BIP32 derivation *)

Section HDProperties.
Context {L : hdwallet.Lib}.
Import hdwallet.
Local Open Scope Z_scope.

Lemma curveOrder_bounds : 0 < curveOrder < 2 ^ 256.
Proof. unfold curveOrder. lia. Qed.

(** Left-padding to 32 bytes, as [deriveChild] does it. *)
Lemma pad32_value_length k :
  0 <= k < 2 ^ 256 ->
  let b := big_Bytes k in
  let padded := if (length b <? 32)%nat
                then repeat Byte.x00 (32 - length b) ++ b else b in
  big_SetBytes padded = k /\ length padded = 32%nat.
Proof.
  intros Hk b padded. subst padded b.
  pose proof (length_big_Bytes_le k 32 ltac:(lia)) as Hlen.
  destruct (Nat.ltb_spec (length (big_Bytes k)) 32).
  - rewrite big_SetBytes_zeros, big_SetBytes_Bytes by lia.
    rewrite length_app, repeat_length. lia.
  - rewrite big_SetBytes_Bytes by lia. lia.
Qed.

(** What [deriveChild] computes from the HMAC output [I]: the child key is
    (I[0:32] + parent key) mod n, and the only rejected outcome is 0. *)
Lemma deriveChild_spec (parent : HDKey) (childNum : Z) :
  let I := hmacSHA512 (ChainCode parent) (childData parent childNum) in
  length I = 64%nat ->
  let k := (big_SetBytes (take 32 I) + big_SetBytes (PrivateKey parent)) mod curveOrder in
  (k = 0 -> deriveChild parent childNum = Err (Errorf "invalid private key")) /\
  (k <> 0 ->
   exists child,
     deriveChild parent childNum = Ok child /\
     big_SetBytes (PrivateKey child) = k /\
     length (PrivateKey child) = 32%nat /\
     PublicKey child = derivePublicKey (PrivateKey child) /\
     ChainCode child = drop 32 I /\
     ChildNum child = childNum).
Proof.
  intros I HI k. unfold deriveChild. fold I. rewrite HI.
  change (negb (64 =? 64)%nat) with false. cbv iota.
  rewrite (Z.add_comm (big_SetBytes (PrivateKey parent))). fold k.
  split.
  - intros ->. reflexivity.
  - intros Hk. destruct (Z.eqb_spec k 0) as [|_]; [contradiction |].
    assert (Hrange : 0 <= k < 2 ^ 256).
    { pose proof curveOrder_bounds.
      pose proof (Z.mod_pos_bound
        (big_SetBytes (take 32 I) + big_SetBytes (PrivateKey parent)) curveOrder).
      subst k. lia. }
    destruct (pad32_value_length k Hrange) as [Hval Hlen].
    eexists. split; [reflexivity |]. cbn [PrivateKey PublicKey ChainCode ChildNum].
    repeat split; assumption || reflexivity.
Qed.

(** The master key is checked against the group order, a check that
    [deriveChild] does not make on I[0:32]. *)
Lemma newMasterKey_rejects_above_order (seed : list byte) :
  let I := hmacSHA512 (list_byte_of_string "Bitcoin seed") seed in
  length I = 64%nat ->
  curveOrder <= big_SetBytes (take 32 I) ->
  newMasterKey seed = Err (Errorf "invalid private key").
Proof.
  intros I HI Hge. unfold newMasterKey. fold I. rewrite HI.
  change (negb (64 =? 64)%nat) with false. cbv iota.
  unfold isValidPrivateKey.
  destruct (negb (length (take 32 I) =? 32)%nat); [reflexivity |].
  destruct (big_SetBytes (take 32 I) =? 0); [reflexivity |].
  destruct (Z.leb_spec curveOrder (big_SetBytes (take 32 I))); [reflexivity | lia].
Qed.

End HDProperties.

(** C9. [derivePublicKey] returns the parity prefix followed by the minimal
    big-endian bytes of x, without padding; whenever x < 2^248 the key is
    shorter than 33 bytes; the valid private key 153 is such a key (32
    bytes).  A normal (non-hardened) [deriveChild] calls the HMAC on the
    parent's public key as it is, followed by the 4 index bytes, and
    everything it returns is computed from that output, whatever the HMAC
    is; so for the parent with key 153 the HMAC receives 36 bytes instead
    of 37: with an HMAC whose right half repeats the first 32 bytes of its
    data, the chain code of the child is the whole 32-byte public key. *)
Theorem derivePublicKey_not_padded :
  (forall priv : list byte,
      hdwallet.derivePublicKey priv =
      (if Z.testbit (snd (secp256k1.ScalarBaseMult priv)) 0 then Byte.x03 else Byte.x02)
        :: big_Bytes (fst (secp256k1.ScalarBaseMult priv))) /\
  (forall priv : list byte,
      (0 <= fst (secp256k1.ScalarBaseMult priv) < 2 ^ 248)%Z ->
      (length (hdwallet.derivePublicKey priv) < 33)%nat) /\
  (hdwallet.isValidPrivateKey (standin_hd.key32 153) = true /\
   (0 <= fst (secp256k1.ScalarBaseMult (standin_hd.key32 153)) < 2 ^ 248)%Z /\
   length (hdwallet.derivePublicKey (standin_hd.key32 153)) = 32%nat) /\
  (forall (parent : hdwallet.HDKey) (childNum : Z),
      hdwallet.isHardened childNum = false ->
      hdwallet.childData parent childNum
        = hdwallet.PublicKey parent ++ PutUint32 childNum /\
      ((length (hdwallet.PublicKey parent) < 33)%nat ->
       (length (hdwallet.childData parent childNum) < 37)%nat)) /\
  (forall (HL : hdwallet.Lib) (parent : hdwallet.HDKey) (childNum : Z),
      hdwallet.isHardened childNum = false ->
      let I := hdwallet.hmac_SHA512_Sum (hdwallet.ChainCode parent)
                 (hdwallet.PublicKey parent ++ PutUint32 childNum) in
      let k := ((big_SetBytes (hdwallet.PrivateKey parent) + big_SetBytes (take 32 I))
                mod hdwallet.curveOrder)%Z in
      let key := if (length (big_Bytes k) <? 32)%nat
                 then repeat Byte.x00 (32 - length (big_Bytes k)) ++ big_Bytes k
                 else big_Bytes k in
      hdwallet.deriveChild parent childNum
      = if negb (length I =? 64)%nat then Err (Errorf "invalid hash length")
        else if (k =? 0)%Z then Err (Errorf "invalid private key")
        else Ok (hdwallet.mkHDKey key (hdwallet.derivePublicKey key) (drop 32 I)
                   (wrapu8 (hdwallet.Depth parent + 1)) childNum
                   (hdwallet.parentFingerprint (hdwallet.PublicKey parent)))) /\
  length (hdwallet.childData (standin_hd.node 153) 0) = 36%nat /\
  (exists child,
      @hdwallet.deriveChild standin_keys.counting_hmac (standin_hd.node 153) 0 = Ok child /\
      hdwallet.ChainCode child = hdwallet.derivePublicKey (standin_hd.key32 153) /\
      hdwallet.PrivateKey child = standin_hd.key32 154).
Proof.
  assert (Hshape : forall priv : list byte,
      hdwallet.derivePublicKey priv =
      (if Z.testbit (snd (secp256k1.ScalarBaseMult priv)) 0 then Byte.x03 else Byte.x02)
        :: big_Bytes (fst (secp256k1.ScalarBaseMult priv))).
  { intros priv. unfold hdwallet.derivePublicKey.
    destruct (secp256k1.ScalarBaseMult priv) as [x y]. cbn [fst snd].
    destruct (Z.testbit y 0); reflexivity. }
  split; [exact Hshape |]. split.
  { intros priv Hx. rewrite Hshape. cbn [length].
    pose proof (length_big_Bytes_le _ 31 Hx). lia. }
  split.
  { split; [vm_compute; reflexivity |].
    split; [| vm_compute; reflexivity].
    vm_compute. split; [discriminate | reflexivity]. }
  split.
  { intros parent childNum Hh. unfold hdwallet.childData. rewrite Hh.
    split; [reflexivity |]. intros Hlen. rewrite length_app. cbn [PutUint32 length]. lia. }
  split.
  { intros HL parent childNum Hh. cbv zeta.
    unfold hdwallet.deriveChild, hdwallet.hmacSHA512, hdwallet.childData.
    rewrite Hh. reflexivity. }
  split; [vm_compute; reflexivity |].
  eexists. split; [vm_compute; reflexivity |].
  split; vm_compute; reflexivity.
Qed.

(** ** Package wallet: sessions and the unlock life cycle *)

Section ManagerProperties.
Context {CL : crypto.Lib} {WL : wallet.Lib}.
Import wallet.

(** The three ways [loadSession] treats a session file that parses. *)
Lemma loadSession_parsed (m : Manager) (w : World) data (s : SessionData) :
  os_ReadFile (sessionPath m) w = Some data ->
  json_Unmarshal_SessionData data = Some s ->
  loadSession m w =
    if (clock w >? Expiration s)%Z then (false, m, os_Remove (sessionPath m) w)
    else if negb (String.eqb (Network s) (network m)) then (false, m, w)
    else (true,
          mkManager (vaultPath m) (sessionPath m) (vault m) (Mnemonic s)
                    (password m) true (network m),
          w).
Proof. intros Hread Hparse. unfold loadSession. rewrite Hread, Hparse. reflexivity. Qed.

Lemma loadSession_true (m m' : Manager) (w w' : World) :
  loadSession m w = (true, m', w') ->
  exists data s,
    os_ReadFile (sessionPath m) w = Some data /\
    json_Unmarshal_SessionData data = Some s /\
    (clock w <= Expiration s)%Z /\
    Network s = network m /\
    m' = mkManager (vaultPath m) (sessionPath m) (vault m) (Mnemonic s)
                   (password m) true (network m) /\
    w' = w.
Proof.
  unfold loadSession.
  destruct (os_ReadFile (sessionPath m) w) as [data|] eqn:Hread; [| discriminate].
  destruct (json_Unmarshal_SessionData data) as [s|] eqn:Hparse; [| discriminate].
  destruct (Z.gtb_spec (clock w) (Expiration s)) as [|Hle]; [discriminate |].
  destruct (String.eqb_spec (Network s) (network m)) as [Hnet|]; [| discriminate].
  cbn [negb]. intros [= <- <-]. exists data, s. repeat split; assumption || lia.
Qed.

Lemma loadSession_keeps_paths (m m' : Manager) (w w' : World) b :
  loadSession m w = (b, m', w') ->
  vaultPath m' = vaultPath m /\ sessionPath m' = sessionPath m /\
  vault m' = vault m /\ network m' = network m.
Proof.
  unfold loadSession.
  destruct (os_ReadFile (sessionPath m) w) as [data|]; [| intros [= <- <- <-]; auto].
  destruct (json_Unmarshal_SessionData data) as [s|]; [| intros [= <- <- <-]; auto].
  destruct (clock w >? Expiration s)%Z; [intros [= <- <- <-]; auto |].
  destruct (negb (Network s =? network m)%string); intros [= <- <- <-]; auto.
Qed.

(** C4 (as amended). A session is accepted only if the clock is not after
    its expiration and its network is the manager's; it is then loaded and
    the disk is left as it was.  A session whose expiration is in the past
    is not loaded and its file is removed; a session that has not expired
    but was recorded for another network is not loaded and its file is
    left on disk. *)
Theorem loadSession_validity (m : Manager) (w : World) data (s : SessionData) :
  os_ReadFile (sessionPath m) w = Some data ->
  json_Unmarshal_SessionData data = Some s ->
  (forall m' w', loadSession m w = (true, m', w') ->
     (clock w <= Expiration s)%Z /\ Network s = network m /\
     mnemonic m' = Mnemonic s /\ unlocked m' = true /\ w' = w) /\
  ((Expiration s < clock w)%Z ->
     loadSession m w = (false, m, os_Remove (sessionPath m) w) /\
     os_ReadFile (sessionPath m) (os_Remove (sessionPath m) w) = None) /\
  ((clock w <= Expiration s)%Z -> Network s <> network m ->
     loadSession m w = (false, m, w)) /\
  ((clock w <= Expiration s)%Z -> Network s = network m ->
     exists m', loadSession m w = (true, m', w) /\ mnemonic m' = Mnemonic s).
Proof.
  intros Hread Hparse.
  rewrite (loadSession_parsed m w data s Hread Hparse).
  split; [| split; [| split]].
  - intros m' w'.
    destruct (Z.gtb_spec (clock w) (Expiration s)); [discriminate |].
    destruct (String.eqb_spec (Network s) (network m)); [| discriminate].
    cbn [negb]. intros [= <- <-]. cbn. repeat split; assumption || lia.
  - intros Hexp.
    destruct (Z.gtb_spec (clock w) (Expiration s)); [| lia].
    split; [reflexivity |]. unfold os_ReadFile, os_Remove. cbn.
    apply lookup_delete_eq.
  - intros Hle Hnet.
    destruct (Z.gtb_spec (clock w) (Expiration s)); [lia |].
    destruct (String.eqb_spec (Network s) (network m)); [contradiction | reflexivity].
  - intros Hle Hnet.
    destruct (Z.gtb_spec (clock w) (Expiration s)); [lia |].
    destruct (String.eqb_spec (Network s) (network m)); [| contradiction].
    eexists. split; reflexivity.
Qed.

(** C3. When [loadSession] accepts a session, [Unlock] returns nil for
    every password and neither reads the vault file nor changes the
    manager's vault.  Otherwise it takes the vault (the one in memory, else
    the one on disk) and returns the error "invalid password" exactly when
    [Decrypt] of that vault with the given password fails; when no vault
    can be loaded it returns "failed to load vault". *)
Theorem Unlock_session_then_password (password' : string) (m : Manager) (w : World) :
  (forall m1 w1, loadSession m w = (true, m1, w1) ->
     Unlock password' m w = (None, m1, w1) /\ vault m1 = vault m) /\
  (forall m1 w1 v, loadSession m w = (false, m1, w1) ->
     (vault m1 = Some v \/ (vault m1 = None /\ loadVault m1 w1 = Ok v)) ->
     ((Unlock password' m w).1.1 = Some (Errorf "invalid password") <->
      is_err (crypto.Decrypt v password') = true)) /\
  (forall m1 w1 e, loadSession m w = (false, m1, w1) ->
     vault m1 = None -> loadVault m1 w1 = Err e ->
     Unlock password' m w = (Some (Wrapf "failed to load vault" e), m1, w1)).
Proof.
  split; [| split].
  - intros m1 w1 Hs. unfold Unlock. rewrite Hs. split; [reflexivity |].
    apply loadSession_keeps_paths in Hs. tauto.
  - intros m1 w1 v Hs Hv. unfold Unlock. rewrite Hs.
    assert (Hsel : match vault m1 with
                   | Some v0 => Ok v0
                   | None => loadVault m1 w1
                   end = Ok v).
    { destruct Hv as [-> | [-> ->]]; reflexivity. }
    rewrite Hsel. unfold crypto.ValidatePassword, is_err.
    destruct (crypto.Decrypt v password') as [mn|e]; cbn [is_ok negb].
    + destruct (createSession _ w1) as [[e|] w2]; cbn; split; discriminate.
    + cbn. split; reflexivity.
  - intros m1 w1 e Hs Hnone Hload. unfold Unlock. rewrite Hs, Hnone, Hload.
    reflexivity.
Qed.

(** *** Creating a wallet *)

Lemma createSession_ok (m : Manager) (w w' : World) :
  createSession m w = (None, w') ->
  exists sdata r, fs w' = <[sessionPath m := sdata]> (fs w) /\ w' = os_WriteFile (sessionPath m) sdata (set_rand r w).
Proof.
  unfold createSession, generateSessionToken, os_WriteFile_err.
  destruct (io_ReadFull 32 (rand_Reader w)) as [[tok|] r]; [| discriminate].
  destruct (crypto.json_Marshal _) as [sdata|]; cbn [lib]; [| discriminate].
  destruct (writable _ _); [| discriminate].
  intros [= <-]. exists sdata, r. split; reflexivity.
Qed.

Lemma createAndStore_ok mn pw (m m' : Manager) (w w' : World) :
  createAndStore mn pw m w = (None, m', w') ->
  exists v vdata sdata,
    (crypto.NewVault mn pw (rand_Reader w)).1 = Ok v /\
    crypto.json_Marshal (crypto.Vault_json v) = Some vdata /\
    m' = mkManager (vaultPath m) (sessionPath m) (Some v) mn pw true (network m) /\
    fs w' = <[sessionPath m := sdata]> (<[vaultPath m := vdata]> (fs w)).
Proof.
  unfold createAndStore, saveVault, os_WriteFile_err.
  destruct (crypto.NewVault mn pw (rand_Reader w)) as [[v|e] r] eqn:Hnv; [| discriminate].
  destruct (os_MkdirAll _ _); [discriminate |].
  destruct (crypto.json_Marshal (crypto.Vault_json v)) as [vdata|] eqn:Hm;
    cbn [lib]; [| discriminate].
  destruct (writable (vaultPath m) _); [| discriminate].
  destruct (createSession _ _) as [[e|] w3] eqn:Hcs; [discriminate |].
  intros [= <- <-].
  apply createSession_ok in Hcs as (sdata & r' & Hfs & _).
  exists v, vdata, sdata. cbn in Hfs. repeat split; assumption || reflexivity.
Qed.

(** What a successful [createAndStore] leaves behind. *)
Lemma createAndStore_effect mn pw (m m' : Manager) (w w' : World) :
  createAndStore mn pw m w = (None, m', w') ->
  unlocked m' = true /\ mnemonic m' = mn /\
  is_Some (fs w' !! sessionPath m) /\
  exists v vdata,
    vault m' = Some v /\
    (crypto.NewVault mn pw (rand_Reader w)).1 = Ok v /\
    crypto.json_Marshal (crypto.Vault_json v) = Some vdata /\
    (vaultPath m <> sessionPath m -> fs w' !! vaultPath m = Some vdata).
Proof.
  intros H. apply createAndStore_ok in H as (v & vdata & sdata & Hv & Hm & -> & Hfs).
  cbn. rewrite Hfs. split; [reflexivity |]. split; [reflexivity |]. split.
  - rewrite lookup_insert_eq. eauto.
  - exists v, vdata. repeat split; try assumption.
    intros Hne. rewrite lookup_insert_ne by congruence. apply lookup_insert_eq.
Qed.

End ManagerProperties.

(** *** The manager on concrete disks *)


Section OnConcreteDisks.
#[local] Existing Instance standin.cryptoLib.
#[local] Existing Instance standin.walletLib.

Lemma loadSession_validity_witness :
  let m := wallet.NewManager scenario.w_mismatch in
  wallet.loadSession m scenario.w_mismatch
  = (false, m, scenario.w_mismatch).
Proof.
  intros m.
  refine (proj1 (proj2 (proj2
    (loadSession_validity m scenario.w_mismatch
       scenario.testnet_session
       (wallet.mkSessionData "" "abandon ability able" 2000 "testnet") _ _))) _ _).
  - vm_compute. reflexivity.
  - vm_compute. reflexivity.
  - vm_compute. discriminate.
  - vm_compute. discriminate.
Defined.

(** C4, as stated, fails twice: a session for another network is rejected
    but its file stays on disk, and a session read at the instant of its
    expiration (not before it) is accepted. *)
Lemma loadSession_keeps_mismatched_file_and_accepts_at_expiry :
  (let m := wallet.NewManager scenario.w_mismatch in
   wallet.network m = "mainnet"%string /\
   wallet.json_Unmarshal_SessionData scenario.testnet_session
     = Some (wallet.mkSessionData "" "abandon ability able" 2000 "testnet") /\
   exists m' w',
     wallet.loadSession m scenario.w_mismatch = (false, m', w') /\
     os_ReadFile (wallet.sessionPath m) w' = Some scenario.testnet_session) /\
  (let m := wallet.NewManager scenario.w_edge in
   clock scenario.w_edge = 1000%Z /\
   wallet.json_Unmarshal_SessionData scenario.edge_session
     = Some (wallet.mkSessionData "" "abandon ability able" 1000 "mainnet") /\
   exists m' w',
     wallet.loadSession m scenario.w_edge = (true, m', w')).
Proof.
  split; cbv zeta.
  - split; [vm_compute; reflexivity |]. split; [vm_compute; reflexivity |].
    eexists _, _. split; vm_compute; reflexivity.
  - split; [vm_compute; reflexivity |]. split; [vm_compute; reflexivity |].
    eexists _, _. vm_compute; reflexivity.
Qed.

Lemma Unlock_session_then_password_witness :
  let m := wallet.NewManager scenario.w_live in
  exists m1,
    wallet.Unlock "not the password" m scenario.w_live
    = (None, m1, scenario.w_live) /\
    wallet.mnemonic m1 = "abandon ability able"%string.
Proof.
  intros m. eexists. split.
  - refine (proj1 (proj1
      (Unlock_session_then_password
         "not the password" m scenario.w_live) _ _ _)).
    vm_compute. reflexivity.
  - reflexivity.
Defined.

End OnConcreteDisks.

(** ** Package cmd: the Bitcoin payment *)

Section PayProperties.
Context {L : bitcoin.Lib}.
Import bitcoin pay.
Local Open Scope Z_scope.

Lemma wrap64_small z : - 2 ^ 63 <= z < 2 ^ 63 -> wrap64 z = z.
Proof. intros H. unfold wrap64. rewrite Z.mod_small by lia. lia. Qed.

Lemma AddOutput_inv value address tx0 tx1 :
  AddOutput value address tx0 = Ok tx1 ->
  exists script,
    txscript_PayToAddrScript address = Some script /\
    tx1 = mkTransaction (Version tx0) (Inputs tx0)
                        (Outputs tx0 ++ [mkTxOut value script]) (LockTime tx0).
Proof.
  unfold AddOutput.
  destruct (txscript_PayToAddrScript address) as [script|]; cbn [lib]; [| discriminate].
  intros [= <-]. eauto.
Qed.

Lemma addInputs_inv utxos : forall tx0 tx1,
  addInputs utxos tx0 = Ok tx1 ->
  length (Inputs tx1) = (length (Inputs tx0) + length utxos)%nat /\
  Outputs tx1 = Outputs tx0.
Proof.
  induction utxos as [|u rest IH]; intros tx0 tx1; cbn [addInputs].
  - intros [= <-]. cbn [length]. split; [lia | reflexivity].
  - unfold AddInput.
    destruct (chainhash_NewHashFromStr (TxID u)) as [h|]; cbn [lib]; [| discriminate].
    intros H. apply IH in H as [Hin Hout]. cbn [Inputs Outputs] in *.
    rewrite length_app in Hin. cbn [length] in *. split; [lia | assumption].
Qed.

(** Updating the change output of a transaction that ends with it. *)
Lemma UpdateChangeOutput_last value (tx0 : Transaction) o :
  (1 <= length (Outputs tx0))%nat ->
  (UpdateChangeOutput value
     (mkTransaction (Version tx0) (Inputs tx0) (Outputs tx0 ++ [o]) (LockTime tx0))).2
  = mkTransaction (Version tx0) (Inputs tx0)
                  (Outputs tx0 ++ [mkTxOut value (PkScript o)]) (LockTime tx0).
Proof.
  intros Hlen. unfold UpdateChangeOutput. cbn [Outputs Version Inputs LockTime].
  rewrite length_app. cbn [length].
  destruct (Nat.ltb_spec (length (Outputs tx0) + 1) 2); [lia |].
  cbn [snd]. f_equal.
  replace (length (Outputs tx0) + 1 - 1)%nat with (length (Outputs tx0) + 0)%nat by lia.
  rewrite alter_app_r. reflexivity.
Qed.

(** C5 (as amended). With change = totalInput - value - estimatedFee: a
    change strictly between 0 and 546 is added to the fee, the change is 0
    and no output is appended; a change of 546 or more is appended as an
    output and, in one pass, if the fee recomputed for the longer
    transaction is higher and the change is greater than the difference,
    the change (and its output) is reduced by exactly that difference,
    otherwise it stays as computed; a change of 0 or less appends nothing. *)
Theorem settleChange_dust_and_adjustment
    (totalInput value txSize' feeRate' estimatedFee' : Z)
    (senderAddress : Address) (script : list byte) (tx0 : Transaction) :
  txscript_PayToAddrScript senderAddress = Some script ->
  (1 <= length (Outputs tx0))%nat ->
  let change0 := sub64 (sub64 totalInput value) estimatedFee' in
  let newFee := mul64 (txSize' + 34) feeRate' in
  let delta := sub64 newFee estimatedFee' in
  let final := if (newFee >? estimatedFee') && (change0 >? delta)
               then sub64 change0 delta else change0 in
  (0 < change0 < 546 ->
     settleChange totalInput value txSize' feeRate' estimatedFee' senderAddress tx0
     = Ok (tx0, txSize', add64 estimatedFee' change0, 0)) /\
  (546 <= change0 ->
     settleChange totalInput value txSize' feeRate' estimatedFee' senderAddress tx0
     = Ok (mkTransaction (Version tx0) (Inputs tx0)
             (Outputs tx0 ++ [mkTxOut final script]) (LockTime tx0),
           txSize' + 34, estimatedFee', final)) /\
  (change0 <= 0 ->
     settleChange totalInput value txSize' feeRate' estimatedFee' senderAddress tx0
     = Ok (tx0, txSize', estimatedFee', change0)).
Proof.
  intros Hscript Hlen change0 newFee delta final.
  unfold settleChange, foldDust, dustThreshold. fold change0.
  split; [| split]; intros Hc.
  - destruct (Z.gtb_spec change0 0); [| lia].
    destruct (Z.ltb_spec change0 546); [| lia].
    cbn [andb]. reflexivity.
  - destruct (Z.gtb_spec change0 0); [| lia].
    destruct (Z.ltb_spec change0 546); [lia |].
    cbn [andb].
    destruct (Z.gtb_spec change0 0); [| lia].
    unfold appendChange, AddOutput. rewrite Hscript. cbn [lib].
    fold newFee. fold delta. subst final.
    destruct (newFee >? estimatedFee'); cbn [andb]; [| reflexivity].
    destruct (change0 >? delta); [| reflexivity].
    rewrite (UpdateChangeOutput_last _ tx0 (mkTxOut change0 script) Hlen).
    reflexivity.
  - destruct (Z.gtb_spec change0 0); [lia |].
    cbn [andb].
    destruct (Z.gtb_spec change0 0); [lia | reflexivity].
Qed.

Lemma settleChange_inv totalInput value txSize' feeRate' estimatedFee' sender tx0
      tx2 txSize2 fee2 change2 :
  settleChange totalInput value txSize' feeRate' estimatedFee' sender tx0
  = Ok (tx2, txSize2, fee2, change2) ->
  let change0 := sub64 (sub64 totalInput value) estimatedFee' in
  fee2 = (if (change0 >? 0) && (change0 <? 546)
          then add64 estimatedFee' change0 else estimatedFee') /\
  Inputs tx2 = Inputs tx0 /\
  txSize2 = txSize' + 34 * (Z.of_nat (length (Outputs tx2))
                            - Z.of_nat (length (Outputs tx0))).
Proof.
  intros H change0. revert H.
  unfold settleChange, foldDust, dustThreshold. fold change0.
  destruct ((change0 >? 0) && (change0 <? 546)) eqn:Hdust.
  - change (0 >? 0) with false. cbv iota. intros [= <- <- <- <-].
    repeat split; lia.
  - destruct (change0 >? 0); [| intros [= <- <- <- <-]; repeat split; lia].
    unfold appendChange.
    destruct (AddOutput change0 sender tx0) as [tx1|] eqn:Hadd; [| discriminate].
    apply AddOutput_inv in Hadd as (script & _ & ->).
    assert (Hlen1 : forall v,
      length (Outputs (UpdateChangeOutput v
         (mkTransaction (Version tx0) (Inputs tx0)
            (Outputs tx0 ++ [mkTxOut change0 script]) (LockTime tx0))).2)
      = (length (Outputs tx0) + 1)%nat /\
      Inputs (UpdateChangeOutput v
         (mkTransaction (Version tx0) (Inputs tx0)
            (Outputs tx0 ++ [mkTxOut change0 script]) (LockTime tx0))).2
      = Inputs tx0).
    { intros v. unfold UpdateChangeOutput. cbn [Outputs Inputs Version LockTime].
      destruct (_ <? 2)%nat; cbn [snd Outputs Inputs];
        rewrite ?length_alter, length_app; cbn [length]; split; reflexivity. }
    destruct (_ >? estimatedFee'); [destruct (change0 >? _) |];
      intros [= <- <- <- <-]; cbn [Inputs Outputs];
      rewrite ?length_app; cbn [length];
      try (destruct (Hlen1 (sub64 change0
             (sub64 (mul64 (txSize' + 34) feeRate') estimatedFee'))) as [-> ->]);
      repeat split; lia.
Qed.

(** The change and the outputs that [settleChange] leaves. *)
Lemma settleChange_change totalInput value txSize' feeRate' estimatedFee' sender tx0
      tx2 txSize2 fee2 change2 :
  (1 <= length (Outputs tx0))%nat ->
  settleChange totalInput value txSize' feeRate' estimatedFee' sender tx0
  = Ok (tx2, txSize2, fee2, change2) ->
  let change0 := sub64 (sub64 totalInput value) estimatedFee' in
  let change1 := if (change0 >? 0) && (change0 <? 546) then 0 else change0 in
  let newFee := mul64 (txSize' + 34) feeRate' in
  (change1 <= 0 -> tx2 = tx0 /\ change2 = change1) /\
  (0 < change1 ->
     change2 = (if (newFee >? estimatedFee') && (change1 >? sub64 newFee estimatedFee')
                then sub64 change1 (sub64 newFee estimatedFee') else change1) /\
     map OutValue (Outputs tx2) = map OutValue (Outputs tx0) ++ [change2]).
Proof.
  intros Hlen H change0 change1 newFee. revert H.
  unfold settleChange, foldDust, dustThreshold. fold change0.
  subst change1.
  destruct ((change0 >? 0) && (change0 <? 546)) eqn:Hdust.
  - change (0 >? 0) with false. cbv iota. intros [= <- <- <- <-].
    split; [auto | lia].
  - destruct (Z.gtb_spec change0 0) as [Hpos|Hnp].
    2:{ intros [= <- <- <- <-]. split; [auto | lia]. }
    unfold appendChange.
    destruct (AddOutput change0 sender tx0) as [tx1|] eqn:Hadd; [| discriminate].
    apply AddOutput_inv in Hadd as (script & _ & ->).
    fold newFee. intros H. split; [lia |]. intros _. revert H.
    destruct (newFee >? estimatedFee'); cbn [andb].
    + destruct (change0 >? sub64 newFee estimatedFee').
      * rewrite (UpdateChangeOutput_last _ tx0 (mkTxOut change0 script) Hlen).
        intros [= <- <- <- <-]. cbn [Outputs]. rewrite map_app. split; reflexivity.
      * intros [= <- <- <- <-]. cbn [Outputs]. rewrite map_app. split; reflexivity.
    + intros [= <- <- <- <-]. cbn [Outputs]. rewrite map_app. split; reflexivity.
Qed.

(** C6 (as amended). For a payment that reaches the funds check: the fee
    rate is the fetched one, or 10 when the request failed; the size
    estimate is 10 + 110 * inputs + 34 * outputs for the inputs and outputs
    the transaction has (one output when the fee is first estimated, two
    once the change output is there).  The estimated fee is the size with
    ONE output times the fee rate, in int64 (the exact product when it
    fits), plus the dust folded into it, if any; it is not recomputed when
    the change output is added: the fee for the final size only serves to
    reduce the change, when the change exceeds the difference.  The fee
    helper of the transaction type, [EstimateFee], computes
    (8 + 150 * inputs + 34 * outputs) times the rate.  When both fee
    services fail the rate used is 10. *)
Theorem sendBitcoin_size_and_fee (utxos : list UTXO) (value : Z)
    (feeEstimate : result Z) (recipient senderAddress : Address) (plan : Plan) :
  sendBitcoin utxos value feeEstimate recipient senderAddress = Ok plan ->
  let n := Z.of_nat (length utxos) in
  let rate := feeRate plan in
  let fee0 := mul64 (10 + 110 * n + 34 * 1) rate in
  let change0 := sub64 (sub64 (totalInputOf utxos) value) fee0 in
  let change1 := if (change0 >? 0) && (change0 <? 546) then 0 else change0 in
  let newFee := mul64 (txSize plan) rate in
  rate = match feeEstimate with Ok r => r | Err _ => 10 end /\
  length (Inputs (tx plan)) = length utxos /\
  txSize plan = 10 + 110 * Z.of_nat (length (Inputs (tx plan)))
                + 34 * Z.of_nat (length (Outputs (tx plan))) /\
  estimatedFee plan =
    (if (change0 >? 0) && (change0 <? 546) then add64 fee0 change0 else fee0) /\
  (0 <= (10 + 110 * n + 34 * 1) * rate < 2 ^ 63 ->
   fee0 = (10 + 110 * n + 34 * 1) * rate) /\
  (change1 <= 0 ->
     map OutValue (Outputs (tx plan)) = [value] /\ change plan = change1) /\
  (0 < change1 ->
     map OutValue (Outputs (tx plan)) = [value; change plan] /\
     estimatedFee plan = fee0 /\
     change plan = (if (newFee >? fee0) && (change1 >? sub64 newFee fee0)
                    then sub64 change1 (sub64 newFee fee0) else change1)) /\
  (forall inputCount outputCount feeRate',
      EstimateFee inputCount outputCount feeRate'
      = mul64 (8 + 150 * inputCount + 34 * outputCount) feeRate') /\
  (forall testnet,
      match api.GetBitcoinFeeEstimate testnet None None with
      | Ok r => r
      | Err _ => 10
      end = 10).
Proof.
  unfold sendBitcoin.
  destruct (length utxos =? 0)%nat; [discriminate |].
  destruct (addInputs utxos NewTransaction) as [tx0|] eqn:Hin; [| discriminate].
  apply addInputs_inv in Hin as [Hin Hout]. cbn [NewTransaction Inputs Outputs length] in Hin, Hout.
  destruct (AddOutput value recipient tx0) as [tx1|] eqn:Hadd; [| discriminate].
  apply AddOutput_inv in Hadd as (script & _ & ->).
  destruct (settleChange _ _ _ _ _ _ _) as [[[[tx2 txSize2] fee2] change2]|] eqn:Hs;
    [| discriminate].
  pose proof (settleChange_inv _ _ _ _ _ _ _ _ _ _ _ Hs) as (Hfee & Hinputs & Hsize).
  apply settleChange_change in Hs as [Hnone Hsome];
    [| cbn [Outputs]; rewrite Hout; cbn; lia].
  cbn [Inputs Outputs] in Hinputs, Hsize, Hnone, Hsome. rewrite Hout in Hsize, Hnone, Hsome.
  cbn [app length map OutValue] in Hsize, Hnone, Hsome.
  destruct (totalInputOf utxos <? add64 value fee2); [discriminate |].
  intros [= <-]. cbn [feeRate tx txSize estimatedFee change].
  replace (10 + Z.of_nat (length utxos) * 110 + 1 * 34)
    with (10 + 110 * Z.of_nat (length utxos) + 34 * 1) in * by lia.
  split; [reflexivity |]. rewrite Hinputs, Hin.
  split; [reflexivity |]. split; [lia |]. split; [exact Hfee |].
  split; [intros Hfit; unfold mul64; apply wrap64_small; lia |].
  split.
  { intros Hc. destruct (Hnone Hc) as [-> ->]. cbn. auto. }
  split.
  { intros Hc. destruct (Hsome Hc) as [Hch Houts].
    assert (Hdust : (sub64 (sub64 (totalInputOf utxos) value)
                       (mul64 (10 + 110 * Z.of_nat (length utxos) + 34 * 1)
                          match feeEstimate with Ok r => r | Err _ => 10 end) >? 0)
                    && (sub64 (sub64 (totalInputOf utxos) value)
                       (mul64 (10 + 110 * Z.of_nat (length utxos) + 34 * 1)
                          match feeEstimate with Ok r => r | Err _ => 10 end) <? 546)
                    = false).
    { destruct (_ && _); [lia | reflexivity]. }
    rewrite Hdust in Hfee, Hch |- *.
    assert (Hsz : txSize2 = 10 + 110 * Z.of_nat (length utxos) + 34 * 1 + 34).
    { apply (f_equal (@length Z)) in Houts. rewrite length_map in Houts.
      cbn [length] in Houts. rewrite Houts in Hsize. lia. }
    rewrite Hsz. split; [exact Houts |]. split; [exact Hfee | exact Hch]. }
  split; [| intros []; reflexivity].
  intros inputCount outputCount feeRate'. unfold EstimateFee. f_equal. lia.
Qed.

End PayProperties.

Section OnConcretePayments.
#[local] Existing Instance standin_chain.bitcoinLib.
Import bitcoin pay.
Local Open Scope Z_scope.

(** The two scenarios of the specification: 100 satoshis of change are
    folded into a fee of 400; 48000 satoshis of change become an output
    (with a size of 200 bytes at 10 sat/byte the fee estimate is 2000 and
    the one adjustment takes 340 off the change). *)
Lemma settleChange_dust_and_adjustment_witness :
  settleChange 100000 99500 40 10 400 "bc1sender"%string (standin_chain.paying 99500)
  = Ok (standin_chain.paying 99500, 40, 500, 0) /\
  settleChange 100000 50000 200 10 2000 "bc1sender"%string (standin_chain.paying 50000)
  = Ok (mkTransaction 2 [mkTxIn (list_byte_of_string "aa") 0 []]
          [mkTxOut 50000 (list_byte_of_string "bc1recipient");
           mkTxOut 47660 (list_byte_of_string "bc1sender")] 0,
        234, 2000, 47660).
Proof.
  split.
  - refine (proj1 (settleChange_dust_and_adjustment 100000 99500 40 10 400
              "bc1sender"%string (list_byte_of_string "bc1sender") (standin_chain.paying 99500) _ _) _).
    + reflexivity.
    + cbn; lia.
    + vm_compute. split; reflexivity.
  - refine (proj1 (proj2 (settleChange_dust_and_adjustment 100000 50000 200 10 2000
              "bc1sender"%string (list_byte_of_string "bc1sender") (standin_chain.paying 50000) _ _)) _).
    + reflexivity.
    + cbn; lia.
    + vm_compute. discriminate.
Defined.

(** C5, as stated, fails: one UTXO of 10000 satoshis, 6320 to pay at 20
    sat/byte.  The change is 600 (not dust) and its output is appended; the
    fee recomputed for 188 bytes is 3760, above the estimate of 3080, yet
    the change is not reduced by the difference of 680: it stays 600. *)
Lemma sendBitcoin_change_not_reduced :
  exists plan,
    sendBitcoin [mkUTXO "aa" 0 10000 []] 6320 (Ok 20) "bc1recipient"%string
                "bc1sender"%string = Ok plan /\
    estimatedFee plan = 3080 /\
    mul64 (txSize plan) (feeRate plan) = 3760 /\
    change plan = 600 /\
    map OutValue (Outputs (tx plan)) = [6320; 600].
Proof.
  eexists. split; [vm_compute; reflexivity |].
  repeat split; vm_compute; reflexivity.
Qed.

(** C6, as stated, fails: with two inputs of 60000 and 40000 satoshis,
    50000 to pay and the default rate of 10, the transaction ends with two
    outputs and a size estimate of 298 bytes, yet the estimated fee is
    2640, the fee for one output, not 298 * 10 = 2980; and [EstimateFee]
    for two inputs and two outputs at rate 10 gives 3760. *)
Lemma estimated_fee_is_not_final_size_times_rate :
  (exists plan,
      sendBitcoin [mkUTXO "aa" 0 60000 []; mkUTXO "bb" 1 40000 []] 50000
                  (Err (External "http")) "bc1recipient"%string "bc1sender"%string
      = Ok plan /\
      length (Inputs (tx plan)) = 2%nat /\ length (Outputs (tx plan)) = 2%nat /\
      txSize plan = 10 + 110 * 2 + 34 * 2 /\ feeRate plan = 10 /\
      estimatedFee plan = 2640 /\
      estimatedFee plan <> (10 + 110 * 2 + 34 * 2) * feeRate plan) /\
  EstimateFee 2 2 10 = 3760 /\
  EstimateFee 2 2 10 <> (10 + 110 * 2 + 34 * 2) * 10.
Proof.
  split; [| split; [vm_compute; reflexivity | vm_compute; discriminate]].
  eexists. split; [vm_compute; reflexivity |].
  repeat split; vm_compute; (reflexivity || discriminate).
Qed.

Lemma sendBitcoin_size_and_fee_witness :
  exists plan,
    sendBitcoin [mkUTXO "aa" 0 60000 []; mkUTXO "bb" 1 40000 []] 50000
                (Err (External "http")) "bc1recipient"%string "bc1sender"%string
    = Ok plan /\
    feeRate plan = 10 /\
    txSize plan = 10 + 110 * 2 + 34 * 2 /\
    estimatedFee plan = (10 + 110 * 2 + 34 * 1) * 10.
Proof.
  eexists. split; [vm_compute; reflexivity |].
  match goal with
  | |- context [feeRate ?p] =>
    pose proof (sendBitcoin_size_and_fee
      [mkUTXO "aa" 0 60000 []; mkUTXO "bb" 1 40000 []] 50000
      (Err (External "http")) "bc1recipient"%string "bc1sender"%string p
      ltac:(vm_compute; reflexivity)) as H
  end.
  cbv zeta in H. destruct H as (Hrate & _ & Hsize & Hfee & _).
  split; [exact Hrate |]. split; [exact Hsize | exact Hfee].
Defined.

(** The fee helper of the transaction type, which nothing calls, uses
    another estimate: 8 + 150 bytes per input + 34 per output. *)
Lemma EstimateFee_value inputCount outputCount feeRate :
  EstimateFee inputCount outputCount feeRate
  = mul64 (8 + 150 * inputCount + 34 * outputCount) feeRate.
Proof. unfold EstimateFee. f_equal. lia. Qed.

End OnConcretePayments.

(** ** Package solana: validation of the blockhash *)

Section SolanaProperties.
Context {L : solana.Lib}.
Import solana.

Lemma firstInvalid_None s : forall i,
  firstInvalid s i = None <-> all_base58 s = true.
Proof.
  unfold all_base58. induction s as [|c rest IH]; intros i.
  - cbn. tauto.
  - cbn [firstInvalid list_ascii_of_string forallb].
    destruct (ContainsRune base58Chars c); cbn [negb andb]; [apply IH |].
    split; discriminate.
Qed.

Lemma firstInvalid_found s i :
  all_base58 s = false -> exists k, firstInvalid s i = Some k.
Proof.
  intros H. destruct (firstInvalid s i) as [k|] eqn:E; [eauto |].
  apply firstInvalid_None in E. congruence.
Qed.

Lemma validateBlockhash_error_propagates (t : Transaction) e :
  validateBlockhash (RecentBlockhash t) = Err e -> BuildAndSign t = Err e.
Proof. intros H. unfold BuildAndSign. rewrite H. reflexivity. Qed.

(** C8. [BuildAndSign] fails before anything is signed when the blockhash
    is empty, when it has a character outside the base58 alphabet, or when
    it has fewer than 32 characters ("abc" is too short); a blockhash made
    of base58 characters, of 32 characters or more, that the library
    decodes to a hash passes the validation with that hash, and the
    transaction is then built, signed and encoded. *)
Theorem BuildAndSign_blockhash_validation (t : Transaction) :
  let blockhash := RecentBlockhash t in
  (blockhash = ""%string -> BuildAndSign t = Err (Errorf "blockhash is empty")) /\
  (blockhash <> ""%string -> all_base58 blockhash = false ->
     BuildAndSign t
     = Err (Errorf "blockhash contains invalid base58 character '%c' at position %d")) /\
  (blockhash <> ""%string -> all_base58 blockhash = true ->
     (String.length blockhash < 32)%nat ->
     BuildAndSign t
     = Err (Errorf "blockhash is too short: got %d chars, expected at least 32")) /\
  ((blockhash = ""%string \/ all_base58 blockhash = false \/
    (String.length blockhash < 32)%nat) ->
     is_err (BuildAndSign t) = true) /\
  (blockhash = "abc"%string ->
     BuildAndSign t
     = Err (Errorf "blockhash is too short: got %d chars, expected at least 32")) /\
  (forall h, all_base58 blockhash = true -> (32 <= String.length blockhash)%nat ->
     HashFromBase58 blockhash = Some h ->
     validateBlockhash blockhash = Ok h /\
     forall stx stx1 serialized,
       solana_NewTransaction (Instructions t) h (FeePayer t) = Some stx ->
       Signers t <> [] ->
       Sign stx (Signers t) = Some stx1 ->
       MarshalBinary stx1 = Some serialized ->
       BuildAndSign t = Ok (base58_Encode serialized)).
Proof.
  intros blockhash.
  assert (Hempty : blockhash = ""%string ->
            validateBlockhash blockhash = Err (Errorf "blockhash is empty")).
  { intros ->. reflexivity. }
  assert (Hchar : blockhash <> ""%string -> all_base58 blockhash = false ->
            validateBlockhash blockhash
            = Err (Errorf "blockhash contains invalid base58 character '%c' at position %d")).
  { intros Hne Hbad. unfold validateBlockhash.
    destruct (String.eqb_spec blockhash ""); [contradiction |].
    destruct (firstInvalid_found blockhash 0 Hbad) as [k ->]. reflexivity. }
  assert (Hshort : blockhash <> ""%string -> all_base58 blockhash = true ->
            (String.length blockhash < 32)%nat ->
            validateBlockhash blockhash
            = Err (Errorf "blockhash is too short: got %d chars, expected at least 32")).
  { intros Hne Hgood Hlen. unfold validateBlockhash.
    destruct (String.eqb_spec blockhash ""); [contradiction |].
    apply (firstInvalid_None blockhash 0) in Hgood. rewrite Hgood.
    destruct (Nat.ltb_spec (String.length blockhash) 32); [reflexivity | lia]. }
  split; [| split; [| split; [| split; [| split]]]].
  - intros H. apply validateBlockhash_error_propagates, Hempty, H.
  - intros Hne Hbad. apply validateBlockhash_error_propagates, Hchar; assumption.
  - intros Hne Hgood Hlen. apply validateBlockhash_error_propagates, Hshort; assumption.
  - intros H.
    destruct (String.eqb_spec blockhash "") as [He|Hne].
    { rewrite (validateBlockhash_error_propagates t _ (Hempty He)). reflexivity. }
    destruct (all_base58 blockhash) eqn:Hgood.
    + destruct H as [H | [H | H]]; [contradiction | discriminate |].
      rewrite (validateBlockhash_error_propagates t _ (Hshort Hne eq_refl H)). reflexivity.
    + rewrite (validateBlockhash_error_propagates t _ (Hchar Hne eq_refl)). reflexivity.
  - intros Habc. apply validateBlockhash_error_propagates.
    fold blockhash. rewrite Habc. reflexivity.
  - intros h Hgood Hlen Hparse.
    assert (Hv : validateBlockhash blockhash = Ok h).
    { unfold validateBlockhash.
      destruct (String.eqb_spec blockhash "") as [He|_].
      { rewrite He in Hlen. cbn in Hlen. lia. }
      apply (firstInvalid_None blockhash 0) in Hgood. rewrite Hgood.
      destruct (Nat.ltb_spec (String.length blockhash) 32); [lia |].
      rewrite Hparse. reflexivity. }
    split; [exact Hv |].
    intros stx stx1 serialized Hnew Hsigners Hsign Hmar.
    unfold BuildAndSign. fold blockhash. rewrite Hv, Hnew. cbn [lib].
    destruct (Signers t) as [|s rest]; [contradiction |].
    cbn [length Nat.eqb]. rewrite Hsign. cbn [lib]. rewrite Hmar. reflexivity.
Qed.

End SolanaProperties.

Section OnConcreteBlockhashes.
#[local] Existing Instance standin_chain.solanaLib.
Import solana.

Lemma BuildAndSign_blockhash_validation_witness :
  validateBlockhash standin_chain.ones_hash = Ok (repeat Byte.x01 32) /\
  BuildAndSign (@mkTransaction standin_chain.solanaLib [tt] ["signer"%string] "payer"%string "abc")
  = Err (Errorf "blockhash is too short: got %d chars, expected at least 32").
Proof.
  split.
  - destruct (BuildAndSign_blockhash_validation
                (@mkTransaction standin_chain.solanaLib [tt] ["signer"%string] "payer"%string standin_chain.ones_hash))
      as (_ & _ & _ & _ & _ & Hpass).
    refine (proj1 (Hpass (repeat Byte.x01 32) _ _ _)).
    + vm_compute. reflexivity.
    + vm_compute. lia.
    + vm_compute. reflexivity.
  - destruct (BuildAndSign_blockhash_validation
                (@mkTransaction standin_chain.solanaLib [tt] ["signer"%string] "payer"%string "abc"))
      as (_ & _ & _ & _ & Habc & _).
    apply Habc. reflexivity.
Defined.

End OnConcreteBlockhashes.

(** * Further properties of the code *)

(** ** Strings *)

Lemma append_nil (b : string) : (EmptyString ++ b)%string = b.
Proof. reflexivity. Qed.

Lemma append_cons c (a b : string) : (String c a ++ b)%string = String c (a ++ b).
Proof. reflexivity. Qed.

Lemma list_byte_of_string_app (a b : string) :
  list_byte_of_string (a ++ b) = list_byte_of_string a ++ list_byte_of_string b.
Proof.
  induction a as [|c a IH]; [reflexivity |].
  rewrite append_cons. unfold list_byte_of_string in *.
  cbn [list_ascii_of_string map app]. rewrite IH. reflexivity.
Qed.

Lemma string_length_app (a b : string) :
  String.length (a ++ b) = String.length a + String.length b.
Proof.
  induction a as [|c a IH]; [reflexivity |].
  rewrite append_cons. cbn [String.length]. rewrite IH. reflexivity.
Qed.

Lemma substring_all (a : string) : substring 0 (String.length a) a = a.
Proof. induction a as [|c a IH]; cbn; [reflexivity | rewrite IH; reflexivity]. Qed.

Lemma substring_prefix (a b : string) :
  substring 0 (String.length a) (a ++ b) = a.
Proof.
  induction a as [|c a IH].
  - rewrite append_nil. destruct b; reflexivity.
  - rewrite append_cons. cbn [String.length substring]. rewrite IH. reflexivity.
Qed.

Lemma substring_suffix (a b : string) :
  substring (String.length a) (String.length b) (a ++ b) = b.
Proof.
  induction a as [|c a IH].
  - rewrite append_nil. apply substring_all.
  - rewrite append_cons. cbn [String.length substring]. exact IH.
Qed.

Lemma HasSuffix_app (a b : string) : hdkeys.HasSuffix (a ++ b) b = true.
Proof.
  unfold hdkeys.HasSuffix. rewrite string_length_app.
  replace (String.length a + String.length b - String.length b)
    with (String.length a) by lia.
  rewrite substring_suffix, String.eqb_refl.
  destruct (Nat.leb_spec (String.length b) (String.length a + String.length b));
    [reflexivity | lia].
Qed.

Lemma Split_no_slash (a : string) : no_slash a = true -> hdkeys.Split a = [a].
Proof.
  unfold no_slash. induction a as [|c a IH]; [reflexivity |].
  cbn [list_ascii_of_string forallb hdkeys.Split].
  destruct (Ascii.eqb c "/"); cbn [negb andb]; [discriminate |].
  intros H. rewrite (IH H). reflexivity.
Qed.

Lemma Split_first (a rest : string) :
  no_slash a = true ->
  hdkeys.Split (a ++ String "/"%char rest) = a :: hdkeys.Split rest.
Proof.
  unfold no_slash. induction a as [|c a IH].
  - intros _. reflexivity.
  - rewrite append_cons. cbn [list_ascii_of_string forallb hdkeys.Split].
    destruct (Ascii.eqb c "/"); cbn [negb andb]; [discriminate |].
    intros H. rewrite (IH H). reflexivity.
Qed.

Lemma Split_nonempty (s : string) : (1 <= length (hdkeys.Split s))%nat.
Proof.
  induction s as [|c s IH]; cbn [hdkeys.Split length]; [lia |].
  destruct (Ascii.eqb c "/"); cbn [length]; [lia |].
  destruct (hdkeys.Split s); cbn [length] in *; lia.
Qed.

(** ** Package wallet: derivation, continued *)

Section DerivationProperties.
Context {HL : hdwallet.Lib} {KL : hdkeys.Lib}.
Import hdwallet hdkeys.
Local Open Scope Z_scope.

(** A 32-byte key whose value is between 1 and n - 1 is a valid private key. *)
Lemma isValidPrivateKey_in_range (key : list byte) :
  length key = 32%nat -> 0 < big_SetBytes key < curveOrder ->
  isValidPrivateKey key = true.
Proof.
  intros Hlen Hrange. unfold isValidPrivateKey. rewrite Hlen. cbn [Nat.eqb negb].
  destruct (Z.eqb_spec (big_SetBytes key) 0); [lia |].
  destruct (Z.leb_spec curveOrder (big_SetBytes key)); [lia | reflexivity].
Qed.

(** The fields of a child returned by [deriveChild]. *)
Lemma deriveChild_Ok_inv (parent child : HDKey) (childNum : Z) :
  deriveChild parent childNum = Ok child ->
  length (PrivateKey child) = 32%nat /\
  0 < big_SetBytes (PrivateKey child) < curveOrder /\
  PublicKey child = derivePublicKey (PrivateKey child) /\
  Depth child = (Depth parent + 1) mod 256 /\
  ChildNum child = childNum /\
  Fingerprint child = parentFingerprint (PublicKey parent).
Proof.
  intros Hd.
  pose (I := hmacSHA512 (ChainCode parent) (childData parent childNum)).
  assert (HI : length I = 64%nat).
  { revert Hd. unfold deriveChild. fold I.
    destruct (Nat.eqb_spec (length I) 64); [auto | discriminate]. }
  destruct (deriveChild_spec parent childNum HI) as [Hzero Hnz].
  fold I in Hzero, Hnz.
  set (k := (big_SetBytes (take 32 I) + big_SetBytes (PrivateKey parent)) mod curveOrder)
    in *.
  destruct (Z.eq_dec k 0) as [Hk|Hk].
  { rewrite (Hzero Hk) in Hd. discriminate. }
  destruct (Hnz Hk) as (child' & Hc & Hval & Hlen & Hpub & _ & Hnum).
  rewrite Hc in Hd. injection Hd as <-.
  assert (Hrange : 0 < k < curveOrder).
  { pose proof curveOrder_bounds.
    pose proof (Z.mod_pos_bound
      (big_SetBytes (take 32 I) + big_SetBytes (PrivateKey parent)) curveOrder).
    subst k. lia. }
  rewrite Hval. repeat split; try assumption; try lia.
  - revert Hc. unfold deriveChild. fold I. rewrite HI. cbn [Nat.eqb negb].
    destruct (_ =? 0); [discriminate |]. intros [= <-]. reflexivity.
  - revert Hc. unfold deriveChild. fold I. rewrite HI. cbn [Nat.eqb negb].
    destruct (_ =? 0); [discriminate |]. intros [= <-]. reflexivity.
Qed.

(** X1. A child that [deriveChild] returns always carries a valid private
    key: 32 bytes, not zero and below the group order; its public key is
    the one derived from that key, its depth the parent's plus one (a
    uint8) and its number the index asked for. *)
Theorem deriveChild_child_is_valid (parent child : HDKey) (childNum : Z) :
  deriveChild parent childNum = Ok child ->
  isValidPrivateKey (PrivateKey child) = true /\
  length (PrivateKey child) = 32%nat /\
  0 < big_SetBytes (PrivateKey child) < curveOrder /\
  PublicKey child = derivePublicKey (PrivateKey child) /\
  Depth child = (Depth parent + 1) mod 256 /\
  ChildNum child = childNum /\
  Fingerprint child = parentFingerprint (PublicKey parent).
Proof.
  intros Hd.
  destruct (deriveChild_Ok_inv parent child childNum Hd)
    as (Hlen & Hrange & Hpub & Hdepth & Hnum & Hfp).
  split; [apply isValidPrivateKey_in_range; assumption |].
  split; [exact Hlen |]. split; [exact Hrange |]. split; [exact Hpub |].
  split; [exact Hdepth |]. split; [exact Hnum | exact Hfp].
Qed.

(** X2. [newMasterKey] fails with "invalid hash length" unless the HMAC
    output has 64 bytes, fails with "invalid private key" when I[0:32] is 0
    or not below the group order, and otherwise returns the master key
    I[0:32] with chain code I[32:64], depth 0, number 0, fingerprint 0. *)
Theorem newMasterKey_cases (seed : list byte) :
  let I := hmacSHA512 (list_byte_of_string "Bitcoin seed") seed in
  let il := big_SetBytes (take 32 I) in
  (length I <> 64%nat -> newMasterKey seed = Err (Errorf "invalid hash length")) /\
  (length I = 64%nat -> il = 0 \/ curveOrder <= il ->
     newMasterKey seed = Err (Errorf "invalid private key")) /\
  (length I = 64%nat -> 0 < il < curveOrder ->
     newMasterKey seed
     = Ok (mkHDKey (take 32 I) (derivePublicKey (take 32 I)) (drop 32 I) 0 0 0)).
Proof.
  intros I il. unfold newMasterKey. fold I.
  split; [| split].
  - intros Hne. destruct (Nat.eqb_spec (length I) 64); [contradiction | reflexivity].
  - intros HI Hbad. rewrite HI. cbn [Nat.eqb negb].
    unfold isValidPrivateKey. fold il.
    destruct (negb (length (take 32 I) =? 32)%nat); [reflexivity |].
    destruct (Z.eqb_spec il 0); [reflexivity |].
    destruct (Z.leb_spec curveOrder il); [reflexivity | lia].
  - intros HI Hgood. rewrite HI. cbn [Nat.eqb negb].
    unfold isValidPrivateKey. fold il.
    rewrite length_take, HI. cbn [Nat.min Nat.eqb negb].
    destruct (Z.eqb_spec il 0); [lia |].
    destruct (Z.leb_spec curveOrder il); [lia | reflexivity].
Qed.

(** X3. Deriving along a path composes: a path p1 ++ p2 is p1 followed by
    p2 from the key reached, with the first failure returned.  The depth
    counts the steps modulo 256, and after at least one step the key is a
    valid private key. *)
Theorem deriveChildKey_composes (p1 p2 : list Z) (parent : HDKey) :
  deriveChildKey parent (p1 ++ p2)
  = match deriveChildKey parent p1 with
    | Ok k => deriveChildKey k p2
    | Err e => Err e
    end /\
  (forall child, deriveChildKey parent p1 = Ok child ->
     Depth child mod 256 = (Depth parent + Z.of_nat (length p1)) mod 256 /\
     (p1 <> [] -> isValidPrivateKey (PrivateKey child) = true)).
Proof.
  split.
  - revert parent. induction p1 as [|n p1 IH]; intros parent; [reflexivity |].
    cbn [app deriveChildKey].
    destruct (deriveChild parent n) as [k|e]; [apply IH | reflexivity].
  - revert parent. induction p1 as [|n p1 IH]; intros parent child.
    + cbn. intros [= <-]. split; [f_equal; lia | congruence].
    + cbn [deriveChildKey length].
      destruct (deriveChild parent n) as [k|e] eqn:Hk; [| discriminate].
      intros Hrest. destruct (IH k child Hrest) as [Hdepth Hvalid].
      apply deriveChild_Ok_inv in Hk as (Hklen & Hkrange & _ & Hkd & _).
      pose proof (isValidPrivateKey_in_range _ Hklen Hkrange) as Hkv.
      split.
      * rewrite Hdepth, Hkd, Nat2Z.inj_succ.
        rewrite Zplus_mod_idemp_l. f_equal. lia.
      * intros _. destruct p1 as [|n' p1']; [| apply Hvalid; discriminate].
        cbn in Hrest. injection Hrest as <-. exact Hkv.
Qed.

(** X4. The hardened mark adds 2^31 in uint32: for a number n below 2^31
    the index of "n'" is n + 2^31 and is hardened, but for n of 2^31 or
    more the sum wraps and "n'" gives the normal index n - 2^31. *)
Theorem parseChildNum_hardened_wraps (s : string) (n : Z) :
  fmt_Sscanf_uint32 s = Some n ->
  0 <= n < 2 ^ 32 ->
  parseChildNum (s ++ "'") = Ok ((n + 2 ^ 31) mod 2 ^ 32) /\
  (n < 2 ^ 31 ->
     parseChildNum (s ++ "'") = Ok (n + 2 ^ 31) /\ isHardened (n + 2 ^ 31) = true) /\
  (2 ^ 31 <= n ->
     parseChildNum (s ++ "'") = Ok (n - 2 ^ 31) /\ isHardened (n - 2 ^ 31) = false).
Proof.
  intros Hscan Hn.
  assert (Hp : parseChildNum (s ++ "'") = Ok ((n + 2 ^ 31) mod 2 ^ 32)).
  { unfold parseChildNum. rewrite HasSuffix_app.
    rewrite string_length_app. cbn [String.length].
    replace (String.length s + 1 - 1)%nat with (String.length s) by lia.
    rewrite substring_prefix. unfold parseUint32. rewrite Hscan. reflexivity. }
  split; [exact Hp |]. split; intros Hcase; rewrite Hp.
  - rewrite Z.mod_small by lia. split; [reflexivity |].
    unfold isHardened. apply Z.leb_le. lia.
  - replace ((n + 2 ^ 31) mod 2 ^ 32) with (n - 2 ^ 31).
    + split; [reflexivity |]. unfold isHardened. apply Z.leb_gt. lia.
    + apply (Z.mod_unique_pos _ _ 1); lia.
Qed.

(** X5. The Solana key is a function of seed ++ path only: moving bytes
    from the front of the path to the end of the seed gives the same key;
    and [deriveSolanaKey] never returns an error. *)
Theorem deriveSolanaKey_uses_concatenation (seed : list byte) (p1 p2 : string) :
  deriveSolanaKey (seed ++ list_byte_of_string p1) p2 = deriveSolanaKey seed (p1 ++ p2) /\
  is_ok (deriveSolanaKey seed p2) = true.
Proof.
  split; [| reflexivity].
  unfold deriveSolanaKey. rewrite list_byte_of_string_app, <- app_assoc. reflexivity.
Qed.

(** X6. [deriveBitcoinKey] never looks at the first component of the path:
    two paths that differ only there give the same result; and a path with
    no separator never yields a key. *)
Theorem deriveBitcoinKey_ignores_first_component (seed : list byte) (a b rest : string) :
  no_slash a = true -> no_slash b = true ->
  deriveBitcoinKey seed (a ++ String "/"%char rest)
  = deriveBitcoinKey seed (b ++ String "/"%char rest) /\
  is_err (deriveBitcoinKey seed a) = true.
Proof.
  intros Ha Hb. unfold deriveBitcoinKey. split.
  - rewrite (Split_first a rest Ha), (Split_first b rest Hb). reflexivity.
  - rewrite (Split_no_slash a Ha).
    destruct (newMasterKey seed); reflexivity.
Qed.

End DerivationProperties.

Section OnConcreteKeys.
#[local] Existing Instance standin_keys.keysLib.
Import hdwallet hdkeys.
Local Open Scope Z_scope.

Lemma deriveChild_child_is_valid_witness :
  exists child,
    @deriveChild standin_hd.order_hmac (standin_hd.node 1) 0 = Ok child /\
    isValidPrivateKey (PrivateKey child) = true.
Proof.
  eexists. split; [vm_compute; reflexivity |].
  eapply (@deriveChild_child_is_valid standin_hd.order_hmac (standin_hd.node 1)).
  vm_compute. reflexivity.
Defined.

Lemma newMasterKey_cases_witness :
  @newMasterKey standin_hd.order_hmac [] = Err (Errorf "invalid private key").
Proof.
  refine (proj1 (proj2 (@newMasterKey_cases standin_hd.order_hmac [])) _ _).
  - vm_compute. reflexivity.
  - right. vm_compute. discriminate.
Defined.

Lemma deriveChildKey_composes_witness :
  exists child,
    @deriveChildKey standin_keys.counting_hmac (standin_hd.node 1) [0; 1] = Ok child /\
    Depth child mod 256 = 2.
Proof.
  eexists. split; [vm_compute; reflexivity |].
  match goal with
  | |- Depth ?c mod 256 = 2 =>
    exact (proj1 (proj2 (@deriveChildKey_composes standin_keys.counting_hmac
                           [0; 1] [] (standin_hd.node 1)) c
                   ltac:(vm_compute; reflexivity)))
  end.
Defined.

Lemma parseChildNum_hardened_wraps_witness :
  parseChildNum "44'" = Ok 2147483692 /\ parseChildNum "2147483648'" = Ok 0.
Proof.
  split.
  - refine (proj1 (proj1 (proj2 (parseChildNum_hardened_wraps "44" 44 _ _)) _)).
    + reflexivity.
    + lia.
    + lia.
  - refine (proj1 (proj2 (proj2
      (parseChildNum_hardened_wraps "2147483648" 2147483648 _ _)) _)).
    + vm_compute. reflexivity.
    + lia.
    + lia.
Defined.

Lemma deriveBitcoinKey_ignores_first_component_witness :
  @deriveBitcoinKey standin_keys.counting_hmac _ [Byte.x01] "m/44'/0'/0'/0/0"
  = @deriveBitcoinKey standin_keys.counting_hmac _ [Byte.x01] "x/44'/0'/0'/0/0".
Proof.
  refine (proj1 (@deriveBitcoinKey_ignores_first_component
    standin_keys.counting_hmac _ [Byte.x01] "m" "x" "44'/0'/0'/0/0" _ _));
    reflexivity.
Defined.

End OnConcreteKeys.

(** ** Package wallet: the manager, continued *)

Lemma append_inj_l (a b c : string) : (a ++ b)%string = (a ++ c)%string -> b = c.
Proof.
  induction a as [|x a IH]; [rewrite !append_nil; auto |].
  rewrite !append_cons. intros [= H]. auto.
Qed.

Lemma odyssey_path_inj (dir a b : string) :
  odyssey_path dir a = odyssey_path dir b -> a = b.
Proof.
  unfold odyssey_path. intros H.
  apply append_inj_l in H. apply append_inj_l in H. exact H.
Qed.

Section ManagerMore.
Context {CL : crypto.Lib} {WL : wallet.Lib}.
Import wallet.

Lemma loadSession_no_file (m : Manager) (w : World) :
  os_ReadFile (sessionPath m) w = None -> loadSession m w = (false, m, w).
Proof. intros H. unfold loadSession. rewrite H. reflexivity. Qed.

(** [loadSession] touches no file but the session file. *)
Lemma loadSession_other_files (m m' : Manager) (w w' : World) b :
  loadSession m w = (b, m', w') ->
  (forall p, p <> sessionPath m -> os_ReadFile p w' = os_ReadFile p w) /\
  clock w' = clock w /\ rand_Reader w' = rand_Reader w /\ home w' = home w.
Proof.
  unfold loadSession.
  assert (Hrm : forall p, p <> sessionPath m ->
            os_ReadFile p (os_Remove (sessionPath m) w) = os_ReadFile p w).
  { intros p Hp. unfold os_ReadFile, os_Remove. cbn.
    apply lookup_delete_ne. congruence. }
  destruct (os_ReadFile (sessionPath m) w) as [data|]; [| intros [= <- <- <-]; auto].
  destruct (json_Unmarshal_SessionData data) as [s|]; [| intros [= <- <- <-]; auto].
  destruct (clock w >? Expiration s)%Z; [intros [= <- <- <-]; auto |].
  destruct (negb (Network s =? network m)%string); intros [= <- <- <-]; auto.
Qed.

(** X7. [Lock] leaves the manager locked with no mnemonic and no password,
    removes the session file and touches no other file; afterwards
    [IsUnlocked] is false, [GetMnemonic] fails with "wallet is locked", and
    locking again changes nothing. *)
Theorem Lock_locks (m : Manager) (w : World) :
  let m1 := (Lock m w).1 in
  let w1 := (Lock m w).2 in
  unlocked m1 = false /\ mnemonic m1 = ""%string /\ password m1 = ""%string /\
  vault m1 = vault m /\
  os_ReadFile (sessionPath m) w1 = None /\
  (forall p, p <> sessionPath m -> os_ReadFile p w1 = os_ReadFile p w) /\
  IsUnlocked m1 w1 = (false, m1, w1) /\
  GetMnemonic m1 w1 = (Err (Errorf "wallet is locked"), m1, w1) /\
  Lock m1 w1 = (m1, w1).
Proof.
  cbv zeta. unfold Lock, clearSession. cbn [fst snd sessionPath unlocked mnemonic
    password vault vaultPath network].
  assert (Hgone : os_ReadFile (sessionPath m) (os_Remove (sessionPath m) w) = None).
  { unfold os_ReadFile, os_Remove. cbn. apply lookup_delete_eq. }
  repeat split.
  - exact Hgone.
  - intros p Hp. unfold os_ReadFile, os_Remove. cbn.
    apply lookup_delete_ne. congruence.
  - unfold IsUnlocked. cbn [unlocked andb].
    apply loadSession_no_file. exact Hgone.
  - unfold GetMnemonic. cbn [unlocked andb].
    rewrite loadSession_no_file by exact Hgone. reflexivity.
  - f_equal. unfold os_Remove, set_fs. cbn. rewrite delete_delete_eq. reflexivity.
Qed.

(** X8. A session lasts thirty minutes: once [createSession] has written
    the file, a manager with the same session path and network that reads
    it back at any instant up to 30 minutes later is unlocked with the
    mnemonic of the session, and one that reads it later rejects it and
    removes the file. *)
Theorem session_lasts_thirty_minutes (m : Manager) (w w' : World) :
  createSession m w = (None, w') ->
  (forall token,
      codec.session_readable
        (mkSessionData token (mnemonic m)
                       (clock w + SessionDuration * time_Minute) (network m))) ->
  forall (m0 : Manager) (t : Z),
    sessionPath m0 = sessionPath m -> network m0 = network m ->
    ((t <= clock w + 30 * time_Minute)%Z ->
       exists m1,
         loadSession m0 (set_clock t w') = (true, m1, set_clock t w') /\
         mnemonic m1 = mnemonic m /\ unlocked m1 = true) /\
    ((clock w + 30 * time_Minute < t)%Z ->
       loadSession m0 (set_clock t w')
       = (false, m0, os_Remove (sessionPath m) (set_clock t w'))).
Proof.
  unfold createSession, generateSessionToken, os_WriteFile_err.
  destruct (io_ReadFull 32 (rand_Reader w)) as [[tok|] r]; [| discriminate].
  cbn [clock set_rand].
  destruct (crypto.json_Marshal _) as [data|] eqn:Hm; cbn [lib]; [| discriminate].
  destruct (writable _ _); [| discriminate].
  intros [= <-] Hread m0 t Hpath Hnet.
  destruct (Hread _ data Hm) as (s' & Hparse & Hmn & Hexp & Hnw).
  cbn [Mnemonic Expiration Network] in Hmn, Hexp, Hnw.
  assert (Hfile : os_ReadFile (sessionPath m0)
                    (set_clock t (os_WriteFile (sessionPath m) data (set_rand r w)))
                  = Some data).
  { rewrite Hpath. unfold os_ReadFile, set_clock, os_WriteFile. cbn.
    apply lookup_insert_eq. }
  rewrite (loadSession_parsed m0 _ data s' Hfile Hparse).
  cbn [clock set_clock]. rewrite Hexp, Hnw, Hnet, Hpath.
  unfold SessionDuration. split; intros Ht.
  - destruct (Z.gtb_spec t (clock w + 30 * time_Minute)); [lia |].
    rewrite String.eqb_refl. cbn [negb].
    eexists. split; [reflexivity |]. cbn. split; [exact Hmn | reflexivity].
  - destruct (Z.gtb_spec t (clock w + 30 * time_Minute)); [reflexivity | lia].
Qed.

(** What a vault made for [M] and [Pw] decrypts to. *)
Lemma NewVault_result_decrypts (laws : crypto.Laws CL) (M Pw : string) (r : Reader) v :
  (crypto.NewVault M Pw r).1 = Ok v ->
  crypto.json_faithful (crypto.mkVaultData M 1) ->
  crypto.Decrypt v Pw = Ok M.
Proof.
  intros Hv (data' & Hmar & Hunm).
  destruct (NewVault_shape M Pw r v Hv) as (key & data & g & Hkey & Hdata & Hg & Hr & ->).
  rewrite Hmar in Hdata. injection Hdata as <-.
  unfold crypto.Decrypt. cbn [crypto.Salt crypto.Nonce crypto.Data crypto.MAC bytes_of].
  rewrite Hkey.
  rewrite (decrypt_sealed laws key _ data' None g Hg).
  - rewrite Hunm. reflexivity.
  - rewrite length_take, length_drop. lia.
Qed.

(** X9. Creating a wallet and unlocking it again: after a successful
    [Initialize] with a password and a [Lock], a fresh manager on the same
    files that is given the same password finds the vault on disk, accepts
    the password and holds the mnemonic that [Initialize] generated; the
    only error it can still return is a failure to write the new session. *)
Theorem Initialize_then_Unlock_recovers (laws : crypto.Laws CL)
    (pw : string) (m m1 m0 : Manager) (w w1 : World) :
  Initialize pw m w = (None, m1, w1) ->
  vaultPath m <> sessionPath m ->
  (forall v, vault m1 = Some v -> codec.vault_readable v) ->
  crypto.json_faithful (crypto.mkVaultData (mnemonic m1) 1) ->
  vaultPath m0 = vaultPath m -> sessionPath m0 = sessionPath m -> vault m0 = None ->
  let w2 := (Lock m1 w1).2 in
  let '(e, m2, _) := Unlock pw m0 w2 in
  mnemonic m2 = mnemonic m1 /\ unlocked m2 = true /\ password m2 = pw /\
  (e = None \/ exists cause, e = Some (Wrapf "failed to create session" cause)).
Proof.
  intros Hinit Hpaths Hvr Hjf Hvp Hsp Hv0.
  revert Hinit. unfold Initialize.
  destruct (io_ReadFull 32 (rand_Reader w)) as [[entropy|] r]; [| discriminate].
  destruct (bip39_NewMnemonic entropy) as [mn|]; cbn [lib]; [| discriminate].
  intros Hcs.
  pose proof (createAndStore_effect mn pw m m1 _ w1 Hcs)
    as (_ & Hmn & _ & v & vdata & Hvault & Hnew & Hmar & Hfile).
  specialize (Hfile Hpaths).
  apply createAndStore_ok in Hcs as (v' & _ & _ & _ & _ & Hm1 & _).
  assert (Hsp1 : sessionPath m1 = sessionPath m) by (rewrite Hm1; reflexivity).
  cbv zeta. unfold Lock, clearSession. cbn [snd sessionPath].
  rewrite Hsp1.
  set (w2 := os_Remove (sessionPath m) w1).
  assert (Hgone : os_ReadFile (sessionPath m0) w2 = None).
  { rewrite Hsp. unfold os_ReadFile, w2, os_Remove. cbn. apply lookup_delete_eq. }
  assert (Hvfile : os_ReadFile (vaultPath m0) w2 = Some vdata).
  { rewrite Hvp. unfold os_ReadFile, w2, os_Remove. cbn.
    rewrite lookup_delete_ne by congruence. exact Hfile. }
  unfold Unlock. rewrite (loadSession_no_file m0 w2 Hgone), Hv0.
  unfold loadVault. rewrite Hvfile.
  rewrite (Hvr v Hvault vdata Hmar).
  rewrite <- Hmn in Hnew.
  pose proof (NewVault_result_decrypts laws _ pw _ v Hnew Hjf) as Hdec.
  unfold crypto.ValidatePassword. rewrite Hdec. cbn [is_ok negb].
  destruct (createSession _ w2) as [[cause|] w3]; cbn;
    (split; [reflexivity |]); (split; [reflexivity |]); (split; [reflexivity |]).
  - right. eauto.
  - left. reflexivity.
Qed.

(** X10. A manager made by [NewManager] is locked, has no vault loaded,
    its vault and session files are different files, and its network is
    mainnet or testnet; the network it reads is the one the network command
    and package ethereum read, so the chain id is Sepolia's exactly when
    the manager is on testnet. *)
Theorem NewManager_invariants {EL : ethereum.Lib} {TL : cmd2.Lib} (w : World) :
  let m := NewManager w in
  unlocked m = false /\ vault m = None /\ mnemonic m = ""%string /\
  vaultPath m <> sessionPath m /\
  (network m = NetworkMainnet \/ network m = NetworkTestnet) /\
  network m = cmd2.getCurrentNetwork w /\
  network m = ethereum.getCurrentNetwork w /\
  (ethereum.GetChainID w = ethereum.SepoliaChainID <-> network m = NetworkTestnet) /\
  (ethereum.GetChainID w = ethereum.MainnetChainID <-> network m = NetworkMainnet).
Proof.
  cbv zeta.
  assert (Hagree1 : network (NewManager w) = cmd2.getCurrentNetwork w).
  { unfold NewManager, cmd2.getCurrentNetwork. cbn [network].
    destruct (os_Stat _ w); cbn [negb]; [| reflexivity].
    destruct (os_ReadFile _ w); reflexivity. }
  assert (Hagree2 : network (NewManager w) = ethereum.getCurrentNetwork w).
  { unfold NewManager, ethereum.getCurrentNetwork. cbn [network].
    destruct (os_Stat _ w); cbn [negb]; [| reflexivity].
    destruct (os_ReadFile _ w); reflexivity. }
  assert (Hnet : network (NewManager w) = NetworkMainnet \/
                 network (NewManager w) = NetworkTestnet).
  { unfold NewManager. cbn [network].
    destruct (os_Stat _ w); [| left; reflexivity].
    destruct (os_ReadFile _ w) as [data|]; [| left; reflexivity].
    destruct (String.eqb_spec (strings_TrimSpace (string_of_list_byte data))
                              NetworkMainnet) as [->|];
      cbn [negb andb]; [left; reflexivity |].
    destruct (String.eqb_spec (strings_TrimSpace (string_of_list_byte data))
                              NetworkTestnet) as [->|];
      cbn [negb]; [right | left]; reflexivity. }
  repeat split; try reflexivity; try assumption.
  - unfold NewManager. cbn [vaultPath sessionPath]. intros H.
    apply odyssey_path_inj in H. discriminate.
  - unfold ethereum.GetChainID. rewrite <- Hagree2.
    destruct (String.eqb_spec (network (NewManager w)) NetworkTestnet);
      [auto | discriminate].
  - unfold ethereum.GetChainID. rewrite <- Hagree2. intros ->. reflexivity.
  - unfold ethereum.GetChainID. rewrite <- Hagree2.
    destruct (String.eqb_spec (network (NewManager w)) NetworkTestnet) as [Ht|];
      [discriminate |].
    intros _. destruct Hnet; [assumption | contradiction].
  - unfold ethereum.GetChainID. rewrite <- Hagree2. intros ->. reflexivity.
Qed.

End ManagerMore.

Section ManagerOnDisk.
#[local] Existing Instance standin.cryptoLib.
#[local] Existing Instance standin.walletLib.
Import wallet scenario.

Lemma session_lasts_thirty_minutes_witness :
  let m := mkManager vault_path session_path None "abandon ability able" "" true
                     "mainnet" in
  let w' := (createSession m (standin.bare standin.entropy120)).2 in
  (exists m1,
      loadSession (NewManager w') (set_clock (1000 + 30 * time_Minute) w')
      = (true, m1, set_clock (1000 + 30 * time_Minute) w') /\
      mnemonic m1 = "abandon ability able"%string /\ unlocked m1 = true) /\
  loadSession (NewManager w') (set_clock (1001 + 30 * time_Minute) w')
  = (false, NewManager w',
     os_Remove session_path (set_clock (1001 + 30 * time_Minute) w')).
Proof.
  cbv zeta.
  set (m := mkManager vault_path session_path None "abandon ability able" "" true
                      "mainnet").
  set (w := standin.bare standin.entropy120).
  assert (Hread : forall token,
    codec.session_readable
      (mkSessionData token (mnemonic m)
                     (clock w + SessionDuration * time_Minute) (network m))).
  { intros token data Hd. vm_compute in Hd. injection Hd as <-.
    eexists. split; [vm_compute; reflexivity |]. vm_compute. auto. }
  assert (Hcs : createSession m w = (None, (createSession m w).2))
    by (vm_compute; reflexivity).
  split.
  - refine (proj1 (session_lasts_thirty_minutes m w _ Hcs Hread
                     (NewManager (createSession m w).2)
                     (1000 + 30 * time_Minute)%Z _ _) _).
    + vm_compute. reflexivity.
    + vm_compute. reflexivity.
    + vm_compute. discriminate.
  - refine (proj2 (session_lasts_thirty_minutes m w _ Hcs Hread
                     (NewManager (createSession m w).2)
                     (1001 + 30 * time_Minute)%Z _ _) _).
    + vm_compute. reflexivity.
    + vm_compute. reflexivity.
    + vm_compute. reflexivity.
Defined.

Lemma Initialize_then_Unlock_recovers_witness :
  let w := standin.bare standin.entropy120 in
  let '(_, m1, w1) := Initialize "password123" (NewManager w) w in
  let '(e, m2, _) := Unlock "password123" (NewManager w) (Lock m1 w1).2 in
  mnemonic m2 = "abandon ability able"%string /\ unlocked m2 = true /\
  password m2 = "password123"%string /\
  (e = None \/ exists cause, e = Some (Wrapf "failed to create session" cause)).
Proof.
  cbv zeta.
  set (w := standin.bare standin.entropy120).
  destruct (Initialize "password123" (NewManager w) w) as [[e1 m1] w1] eqn:Hinit.
  assert (He1 : e1 = None).
  { apply (f_equal (fun x => x.1.1)) in Hinit. vm_compute in Hinit. congruence. }
  subst e1.
  assert (Hm1 : m1 = (Initialize "password123" (NewManager w) w).1.2)
    by (rewrite Hinit; reflexivity).
  assert (Hmn : mnemonic m1 = "abandon ability able"%string)
    by (rewrite Hm1; vm_compute; reflexivity).
  rewrite <- Hmn.
  refine (Initialize_then_Unlock_recovers standin_cryptoLaws "password123"
            (NewManager w) m1 (NewManager w) w w1 Hinit _ _ _ _ _ _).
  - vm_compute. discriminate.
  - intros v Hv. rewrite Hm1 in Hv. vm_compute in Hv. injection Hv as <-.
    intros data Hd. vm_compute in Hd. injection Hd as <-. vm_compute. reflexivity.
  - rewrite Hmn. eexists. split; vm_compute; reflexivity.
  - reflexivity.
  - reflexivity.
  - reflexivity.
Defined.

End ManagerOnDisk.

(** ** Package cmd: network, init, import, unlock *)

Section CommandProperties.
Context {CL : crypto.Lib} {WL : wallet.Lib} {TL : cmd2.Lib}.
Import wallet.

Lemma NewManager_network_is_current (w : World) :
  network (NewManager w) = cmd2.getCurrentNetwork w.
Proof.
  unfold NewManager, cmd2.getCurrentNetwork. cbn [network].
  destruct (os_Stat _ w); cbn [negb]; [| reflexivity].
  destruct (os_ReadFile _ w); reflexivity.
Qed.

(** The network that a network file holding [net] selects. *)
Lemma getCurrentNetwork_of_file (w : World) (net : string) :
  os_ReadFile (odyssey_path (home w) "network.txt") w = Some (list_byte_of_string net) ->
  strings_TrimSpace net = net ->
  net = NetworkMainnet \/ net = NetworkTestnet ->
  cmd2.getCurrentNetwork w = net.
Proof.
  intros Hfile Htrim Hnet. unfold cmd2.getCurrentNetwork, os_Stat.
  unfold os_ReadFile in Hfile. unfold os_ReadFile. rewrite Hfile. cbn [negb].
  rewrite string_of_list_byte_of_string, Htrim.
  destruct Hnet as [-> | ->]; reflexivity.
Qed.

Lemma NewManager_paths (w : World) :
  vaultPath (NewManager w) = odyssey_path (home w) "wallet.vault" /\
  sessionPath (NewManager w) = odyssey_path (home w) "session.json" /\
  vault (NewManager w) = None /\ unlocked (NewManager w) = false.
Proof. unfold NewManager. cbn. auto. Qed.

(** What [runNetwork] does with a valid argument. *)
Lemma runNetwork_valid (arg : string) (w : World) :
  cmd2.strings_ToLower arg = NetworkMainnet \/ cmd2.strings_ToLower arg = NetworkTestnet ->
  cmd2.runNetwork arg w =
    if writable (odyssey_dir (home w)) w then
      if writable (odyssey_path (home w) "network.txt") w then
        (None, os_WriteFile (odyssey_path (home w) "network.txt")
                 (list_byte_of_string (cmd2.strings_ToLower arg)) w)
      else (Some (Wrapf "failed to write network file" (External "os")), w)
    else (Some (Wrapf "failed to create directory" (External "os")), w).
Proof.
  intros Hnet. unfold cmd2.runNetwork.
  assert (Hsel : negb (cmd2.strings_ToLower arg =? NetworkMainnet)%string
                 && negb (cmd2.strings_ToLower arg =? NetworkTestnet)%string = false).
  { destruct Hnet as [-> | ->]; reflexivity. }
  rewrite Hsel. unfold cmd2.setNetwork, os_UserHomeDir, os_MkdirAll, os_WriteFile_err.
  destruct (writable (odyssey_dir (home w)) w); [| reflexivity].
  destruct (writable (odyssey_path (home w) "network.txt") w); reflexivity.
Qed.


(** X12. A session outlives a change of network and back: with a mainnet
    session on disk that has not expired, a switch to testnet that
    succeeds makes the wallet report itself locked while the session file
    stays where it is, and a switch back to mainnet that succeeds makes it
    unlocked again, with the mnemonic of the session and without any
    password. *)
Theorem session_survives_network_switch (a b : string) (w : World)
    (data : list byte) (s : SessionData) (t1 t2 : Z) :
  strings_TrimSpace NetworkMainnet = NetworkMainnet ->
  strings_TrimSpace NetworkTestnet = NetworkTestnet ->
  cmd2.strings_ToLower a = NetworkTestnet ->
  cmd2.strings_ToLower b = NetworkMainnet ->
  os_ReadFile (odyssey_path (home w) "session.json") w = Some data ->
  json_Unmarshal_SessionData data = Some s ->
  Network s = NetworkMainnet ->
  (t1 <= Expiration s)%Z -> (t2 <= Expiration s)%Z ->
  let w1 := set_clock t1 (cmd2.runNetwork a w).2 in
  let w2 := set_clock t2 (cmd2.runNetwork b w1).2 in
  (cmd2.runNetwork a w).1 = None ->
  (cmd2.runNetwork b w1).1 = None ->
  IsUnlocked (NewManager w1) w1 = (false, NewManager w1, w1) /\
  os_ReadFile (odyssey_path (home w) "session.json") w1 = Some data /\
  exists m2,
    IsUnlocked (NewManager w2) w2 = (true, m2, w2) /\ mnemonic m2 = Mnemonic s.
Proof.
  intros Hm Ht Ha Hb Hfile Hparse Hnet Ht1 Ht2.
  assert (Hne : odyssey_path (home w) "session.json"
                <> odyssey_path (home w) "network.txt").
  { intros H. apply odyssey_path_inj in H. discriminate. }
  assert (Hwritten : forall arg w0, cmd2.strings_ToLower arg = NetworkMainnet \/
                                    cmd2.strings_ToLower arg = NetworkTestnet ->
            (cmd2.runNetwork arg w0).1 = None ->
            (cmd2.runNetwork arg w0).2
            = os_WriteFile (odyssey_path (home w0) "network.txt")
                (list_byte_of_string (cmd2.strings_ToLower arg)) w0).
  { intros arg w0 Hv. rewrite (runNetwork_valid arg w0 Hv).
    destruct (writable (odyssey_dir (home w0)) w0); [| discriminate].
    destruct (writable (odyssey_path (home w0) "network.txt") w0); [| discriminate].
    reflexivity. }
  cbv zeta. intros Hok1.
  rewrite (Hwritten a w (or_intror Ha) Hok1), Ha.
  set (w1 := set_clock t1 (os_WriteFile (odyssey_path (home w) "network.txt")
                             (list_byte_of_string NetworkTestnet) w)).
  intros Hok2.
  rewrite (Hwritten b w1 (or_introl Hb) Hok2), Hb.
  set (w2 := set_clock t2 (os_WriteFile (odyssey_path (home w1) "network.txt")
                             (list_byte_of_string NetworkMainnet) w1)).
  assert (Hnet1 : network (NewManager w1) = NetworkTestnet).
  { rewrite NewManager_network_is_current. apply getCurrentNetwork_of_file; auto.
    unfold os_ReadFile, w1, set_clock, os_WriteFile. cbn. apply lookup_insert_eq. }
  assert (Hnet2 : network (NewManager w2) = NetworkMainnet).
  { rewrite NewManager_network_is_current. apply getCurrentNetwork_of_file; auto.
    unfold os_ReadFile, w2, set_clock, os_WriteFile. cbn. apply lookup_insert_eq. }
  assert (Hfile1 : os_ReadFile (odyssey_path (home w) "session.json") w1 = Some data).
  { unfold os_ReadFile, w1, set_clock, os_WriteFile. cbn.
    rewrite lookup_insert_ne by congruence. exact Hfile. }
  assert (Hfile2 : os_ReadFile (odyssey_path (home w) "session.json") w2 = Some data).
  { unfold os_ReadFile, w2, set_clock, os_WriteFile. cbn.
    rewrite lookup_insert_ne by congruence.
    rewrite lookup_insert_ne by congruence. exact Hfile. }
  split; [| split; [exact Hfile1 |]].
  - unfold IsUnlocked. cbn [NewManager unlocked andb].
    rewrite (loadSession_parsed (NewManager w1) w1 data s Hfile1 Hparse).
    change (clock w1) with t1.
    destruct (Z.gtb_spec t1 (Expiration s)); [lia |].
    rewrite Hnet, Hnet1. reflexivity.
  - unfold IsUnlocked. cbn [NewManager unlocked andb].
    rewrite (loadSession_parsed (NewManager w2) w2 data s Hfile2 Hparse).
    change (clock w2) with t2.
    destruct (Z.gtb_spec t2 (Expiration s)); [lia |].
    rewrite Hnet, Hnet2. cbn [String.eqb negb].
    change ((NetworkMainnet =? NetworkMainnet)%string) with true. cbn [negb].
    eexists. split; reflexivity.
Qed.

(** [createAndStore] keeps the home directory and the clock. *)
Lemma createAndStore_frame mn pw (m m' : Manager) (w w' : World) e :
  createAndStore mn pw m w = (e, m', w') -> home w' = home w /\ clock w' = clock w.
Proof.
  unfold createAndStore, saveVault, createSession, generateSessionToken,
    os_WriteFile_err.
  destruct (crypto.NewVault mn pw (rand_Reader w)) as [[v|e0] r];
    [| intros [= _ _ <-]; auto].
  destruct (os_MkdirAll _ _); [intros [= _ _ <-]; auto |].
  destruct (crypto.json_Marshal (crypto.Vault_json v)); cbn [lib];
    [| intros [= _ _ <-]; auto].
  destruct (writable (vaultPath m) _); [| intros [= _ _ <-]; auto].
  destruct (io_ReadFull 32 _) as [[tok|] r1]; [| intros [= _ _ <-]; auto].
  destruct (crypto.json_Marshal _); cbn [lib]; [| intros [= _ _ <-]; auto].
  destruct (writable _ _); intros [= _ _ <-]; auto.
Qed.

Lemma GetMnemonic_other_files (m m' : Manager) (w w' : World) r :
  GetMnemonic m w = (r, m', w') ->
  (forall p, p <> sessionPath m -> os_ReadFile p w' = os_ReadFile p w) /\
  home w' = home w.
Proof.
  unfold GetMnemonic.
  destruct (unlocked m && negb (mnemonic m =? "")%string); [intros [= _ _ <-]; auto |].
  destruct (loadSession m w) as [[b m1] w1] eqn:Hs.
  apply loadSession_other_files in Hs as (Hf & _ & _ & Hh).
  destruct b; intros [= _ _ <-]; auto.
Qed.

(** X13. [runInit] creates a wallet only when no vault file exists, a
    password of at least 8 characters was read and the confirmation equals
    it; otherwise it returns an error and the disk is as it was.  After a
    run that returned nil the vault file exists, so every further run
    returns the "wallet already exists" error. *)
Theorem runInit_outcomes (typed confirmed : option string) (w : World) :
  let valid :=
    negb (VaultExists (NewManager w) w) &&
    match typed, confirmed with
    | Some pw, Some c => (8 <=? String.length pw)%nat && String.eqb pw c
    | _, _ => false
    end in
  let out := cmd.runInit typed confirmed w in
  (valid = false -> is_Some out.1 /\ out.2 = w) /\
  (out.1 = None ->
     valid = true /\
     forall typed' confirmed',
       cmd.runInit typed' confirmed' out.2
       = (Some (Errorf "wallet already exists. Remove ~/.odyssey/wallet.vault to create a new wallet"),
          out.2)).
Proof.
  cbv zeta. unfold cmd.runInit.
  destruct (VaultExists (NewManager w) w) eqn:Hex; cbn [negb andb].
  { split; [intros _; split; [eauto | reflexivity] | discriminate]. }
  destruct typed as [pw|]; [| split; [intros _; split; [eauto | reflexivity] | discriminate]].
  destruct (Nat.ltb_spec (String.length pw) 8) as [Hshort|Hlong].
  { destruct confirmed as [c|];
      (split; [intros _; split; [eauto | reflexivity] | discriminate]). }
  destruct confirmed as [c|]; [| split; [intros _; split; [eauto | reflexivity] | discriminate]].
  destruct (Nat.leb_spec 8 (String.length pw)) as [_|]; [| lia]. cbn [andb].
  destruct (String.eqb_spec pw c) as [<-|Hne]; cbn [negb];
    [| split; [intros _; split; [eauto | reflexivity] | discriminate]].
  split; [discriminate |].
  destruct (Initialize pw (NewManager w) w) as [[[e|] m1] w1] eqn:Hinit;
    [discriminate |].
  destruct (GetMnemonic m1 w1) as [[[mn|e] m2] w2] eqn:Hget; [| discriminate].
  cbn [fst snd]. intros _. split; [reflexivity |].
  intros typed' confirmed'.
  assert (Hvault : VaultExists (NewManager w2) w2 = true).
  { revert Hinit. unfold Initialize.
    destruct (io_ReadFull 32 (rand_Reader w)) as [[entropy|] r]; [| discriminate].
    destruct (bip39_NewMnemonic entropy) as [mn'|]; cbn [lib]; [| discriminate].
    intros Hcs.
    pose proof (createAndStore_frame _ _ _ _ _ _ _ Hcs) as [Hhome _].
    pose proof (createAndStore_ok _ _ _ _ _ _ Hcs) as (v & vdata & sdata & _ & _ & Hm1 & Hfs).
    pose proof (GetMnemonic_other_files _ _ _ _ _ Hget) as [Hother Hhome2].
    unfold VaultExists, os_Stat.
    replace (vaultPath (NewManager w2)) with (odyssey_path (home w) "wallet.vault")
      by (cbn; rewrite Hhome2, Hhome; reflexivity).
    pose proof (Hother (odyssey_path (home w) "wallet.vault")) as Hv.
    unfold os_ReadFile in Hv. rewrite Hv.
    - rewrite Hfs. cbn [NewManager vaultPath sessionPath].
      rewrite lookup_insert_ne
        by (intros H; apply odyssey_path_inj in H; discriminate).
      rewrite lookup_insert_eq. reflexivity.
    - rewrite Hm1. cbn. intros H; apply odyssey_path_inj in H; discriminate. }
  rewrite Hvault. reflexivity.
Qed.

(** X14. [importRecoveryPhrase] reaches the manager only when no vault
    file exists, the trimmed line has exactly 24 fields and the two
    passwords read are equal; otherwise it returns an error and the disk
    is as it was.  It sets no minimum on the password length: the empty
    password is passed on to [ImportFromMnemonic]. *)
Theorem importRecoveryPhrase_outcomes (m : Manager)
    (line typed confirmed : option string) (w : World) :
  let valid :=
    negb (VaultExists m w) &&
    match line, typed, confirmed with
    | Some l, Some pw, Some c =>
      (length (strings_Fields (strings_TrimSpace l)) =? 24)%nat && String.eqb pw c
    | _, _, _ => false
    end in
  let out := cmd.importRecoveryPhrase m line typed confirmed w in
  (valid = false -> is_Some out.1 /\ out.2 = w) /\
  (valid = true ->
     exists l pw,
       line = Some l /\ typed = Some pw /\
       out.2 = (ImportFromMnemonic (strings_TrimSpace l) pw m w).2 /\
       (out.1 = None <->
        (ImportFromMnemonic (strings_TrimSpace l) pw m w).1.1 = None)) /\
  (VaultExists m w = false ->
   forall l, length (strings_Fields (strings_TrimSpace l)) = 24%nat ->
     (cmd.importRecoveryPhrase m (Some l) (Some ""%string) (Some ""%string) w).1 = None <->
     (ImportFromMnemonic (strings_TrimSpace l) "" m w).1.1 = None).
Proof.
  cbv zeta.
  assert (Hrun : forall l pw, VaultExists m w = false ->
            length (strings_Fields (strings_TrimSpace l)) = 24%nat ->
            let r := ImportFromMnemonic (strings_TrimSpace l) pw m w in
            (cmd.importRecoveryPhrase m (Some l) (Some pw) (Some pw) w).2 = r.2 /\
            ((cmd.importRecoveryPhrase m (Some l) (Some pw) (Some pw) w).1 = None <->
             r.1.1 = None)).
  { intros l pw Hex Hlen. cbv zeta. unfold cmd.importRecoveryPhrase, cmd.isValidMnemonic.
    rewrite Hex, Hlen, String.eqb_refl. cbn [Nat.eqb negb].
    change (24 =? 24)%nat with true. cbn [negb].
    destruct (ImportFromMnemonic _ pw m w) as [[[e|] m1] w1]; cbn;
      (split; [reflexivity | split; congruence]). }
  split; [| split].
  - unfold cmd.importRecoveryPhrase, cmd.isValidMnemonic.
    destruct (VaultExists m w); cbn [negb andb];
      [intros _; split; [eauto | reflexivity] |].
    destruct line as [l|]; [| intros _; split; [eauto | reflexivity]].
    destruct (length (strings_Fields (strings_TrimSpace l)) =? 24)%nat; cbn [negb andb].
    2:{ destruct typed, confirmed; intros _; split; eauto. }
    destruct typed as [pw|]; [| intros _; split; [eauto | reflexivity]].
    destruct confirmed as [c|]; [| intros _; split; [eauto | reflexivity]].
    destruct (String.eqb pw c); cbn [negb]; [discriminate |].
    intros _; split; [eauto | reflexivity].
  - destruct (VaultExists m w) eqn:Hex; cbn [negb andb]; [discriminate |].
    destruct line as [l|]; [| discriminate].
    destruct typed as [pw|]; [| discriminate].
    destruct confirmed as [c|]; [| discriminate].
    destruct (Nat.eqb_spec (length (strings_Fields (strings_TrimSpace l))) 24) as [Hlen|];
      [| discriminate].
    destruct (String.eqb_spec pw c) as [<-|]; [| discriminate].
    intros _. exists l, pw. split; [reflexivity |]. split; [reflexivity |].
    apply (Hrun l pw eq_refl Hlen).
  - intros Hex l Hlen. apply (Hrun l ""%string Hex Hlen).
Qed.

Lemma runUnlock_locked_manager (typed : option string) (w : World) :
  cmd2.runUnlock typed w =
  if negb (VaultExists (NewManager w) w) then
    (Some (Errorf "no wallet found. Run 'odyssey init' to create a new wallet"), w)
  else
    match loadSession (NewManager w) w with
    | (true, _, w1) => (None, w1)
    | (false, manager1, w1) =>
      match typed with
      | None => (Some (Wrapf "failed to read password" (External "term")), w1)
      | Some password =>
        match Unlock password manager1 w1 with
        | (Some e, _, w2) => (Some (Wrapf "failed to unlock wallet" e), w2)
        | (None, _, w2) => (None, w2)
        end
      end
    end.
Proof. reflexivity. Qed.

(** X15. [runUnlock]: without a vault file it fails with "no wallet
    found" and touches nothing; with a vault file and a session that
    [loadSession] accepts it returns nil before any password is read (even
    when reading the password would fail) and leaves the disk as it was;
    with no session file it reads the password: a failed read is an error,
    and otherwise it returns nil exactly when [Unlock] does. *)
Theorem runUnlock_outcomes (typed : option string) (w : World) :
  let manager := NewManager w in
  (VaultExists manager w = false ->
     cmd2.runUnlock typed w
     = (Some (Errorf "no wallet found. Run 'odyssey init' to create a new wallet"), w)) /\
  (VaultExists manager w = true ->
   forall m1 w1, loadSession manager w = (true, m1, w1) ->
     cmd2.runUnlock typed w = (None, w)) /\
  (VaultExists manager w = true ->
   os_ReadFile (sessionPath manager) w = None ->
     cmd2.runUnlock None w
     = (Some (Wrapf "failed to read password" (External "term")), w) /\
     forall pw, (cmd2.runUnlock (Some pw) w).1 = None <-> (Unlock pw manager w).1.1 = None).
Proof.
  cbv zeta. split; [| split].
  - intros Hex. rewrite runUnlock_locked_manager, Hex. reflexivity.
  - intros Hex m1 w1 Hs. rewrite runUnlock_locked_manager, Hex, Hs. cbn [negb].
    apply loadSession_true in Hs as (_ & _ & _ & _ & _ & _ & _ & ->). reflexivity.
  - intros Hex Hnone.
    pose proof (loadSession_no_file _ _ Hnone) as Hs.
    split; [rewrite runUnlock_locked_manager, Hex, Hs; reflexivity |].
    intros pw. rewrite runUnlock_locked_manager, Hex, Hs. cbn [negb].
    destruct (Unlock pw (NewManager w) w) as [[[e|] m2] w2]; cbn; split; congruence.
Qed.

End CommandProperties.

Section CommandsOnDisk.
#[local] Existing Instance standin.cryptoLib.
#[local] Existing Instance standin.walletLib.
#[local] Existing Instance standin_keys.cmdLib.
Import wallet scenario.


Lemma session_survives_network_switch_witness :
  let w1 := set_clock 1500 (cmd2.runNetwork "TESTNET" w_live).2 in
  let w2 := set_clock 2000 (cmd2.runNetwork "mainnet" w1).2 in
  IsUnlocked (NewManager w1) w1 = (false, NewManager w1, w1) /\
  os_ReadFile session_path w1 = Some live_session /\
  exists m2,
    IsUnlocked (NewManager w2) w2 = (true, m2, w2) /\
    mnemonic m2 = "abandon ability able"%string.
Proof.
  refine (session_survives_network_switch "TESTNET" "mainnet" w_live live_session
            (mkSessionData "" "abandon ability able" 2000 "mainnet") 1500 2000
            _ _ _ _ _ _ _ _ _ _ _);
    vm_compute; (reflexivity || discriminate).
Defined.

Lemma runInit_outcomes_witness :
  (let out := cmd.runInit (Some "short"%string) (Some "short"%string)
                (standin.bare standin.entropy120) in
   is_Some out.1 /\ out.2 = standin.bare standin.entropy120) /\
  forall typed' confirmed',
    let w' := (cmd.runInit (Some "password123"%string) (Some "password123"%string)
                 (standin.bare standin.entropy120)).2 in
    cmd.runInit typed' confirmed' w'
    = (Some (Errorf "wallet already exists. Remove ~/.odyssey/wallet.vault to create a new wallet"),
       w').
Proof.
  split.
  - exact (proj1 (runInit_outcomes (Some "short"%string) (Some "short"%string)
                    (standin.bare standin.entropy120)) eq_refl).
  - cbv zeta.
    refine (proj2 (proj2 (runInit_outcomes (Some "password123"%string)
                            (Some "password123"%string)
                            (standin.bare standin.entropy120)) _)).
    vm_compute. reflexivity.
Defined.

Lemma importRecoveryPhrase_outcomes_witness :
  let out := cmd.importRecoveryPhrase (NewManager (standin.bare standin.entropy120))
               (Some "abandon ability able"%string) (Some "password123"%string)
               (Some "password123"%string) (standin.bare standin.entropy120) in
  is_Some out.1 /\ out.2 = standin.bare standin.entropy120.
Proof.
  refine (proj1 (importRecoveryPhrase_outcomes
                   (NewManager (standin.bare standin.entropy120))
                   (Some "abandon ability able"%string) (Some "password123"%string)
                   (Some "password123"%string) (standin.bare standin.entropy120)) _).
  vm_compute. reflexivity.
Defined.

Lemma runUnlock_outcomes_witness :
  let w := os_WriteFile vault_path old_vault w_live in
  cmd2.runUnlock None w = (None, w).
Proof.
  cbv zeta.
  eapply (proj1 (proj2 (runUnlock_outcomes None
                          (os_WriteFile vault_path old_vault w_live)))).
  - vm_compute. reflexivity.
  - vm_compute. reflexivity.
Defined.

End CommandsOnDisk.

(** ** Package wallet: keys and addresses *)

Section AccessorProperties.
Context {CL : crypto.Lib} {WL : wallet.Lib} {HL : hdwallet.Lib}
        {KL : hdkeys.Lib} {AL : accessors.Lib}.
Import wallet accessors.

Lemma ensureUnlocked_locked (m : Manager) (w : World) :
  unlocked m = false -> os_ReadFile (sessionPath m) w = None ->
  ensureUnlocked m w = (Some (Errorf "wallet is locked"), m, w).
Proof.
  intros Hu Hnone. unfold ensureUnlocked. rewrite Hu. cbn [negb].
  rewrite (loadSession_no_file m w Hnone). reflexivity.
Qed.

Lemma ensureUnlocked_unlocked (m : Manager) (w : World) :
  unlocked m = true -> ensureUnlocked m w = (None, m, w).
Proof. intros Hu. unfold ensureUnlocked. rewrite Hu. reflexivity. Qed.

Lemma ensureUnlocked_session (m m1 : Manager) (w w1 : World) :
  unlocked m = false -> loadSession m w = (true, m1, w1) ->
  ensureUnlocked m w = (None, m1, w1).
Proof. intros Hu Hs. unfold ensureUnlocked. rewrite Hu, Hs. reflexivity. Qed.

(** X16. A locked manager with no session file gives out nothing: every
    key and address accessor returns "wallet is locked" and leaves the
    manager and the disk as they were; and on testnet the two Bitcoin
    accessors return "bitcoin is not supported in testnet mode" whatever
    the state of the manager, unlocked or not. *)
Theorem accessors_refuse_when_locked (m : Manager) (w : World) :
  (unlocked m = false -> os_ReadFile (sessionPath m) w = None ->
     GetEthereumKey m w = (Err (Errorf "wallet is locked"), m, w) /\
     GetEthereumAddress m w = (Err (Errorf "wallet is locked"), m, w) /\
     GetSolanaKey m w = (Err (Errorf "wallet is locked"), m, w) /\
     GetSolanaAddress m w = (Err (Errorf "wallet is locked"), m, w) /\
     (network m <> NetworkTestnet ->
        GetBitcoinKey m w = (Err (Errorf "wallet is locked"), m, w) /\
        GetBitcoinAddress m w = (Err (Errorf "wallet is locked"), m, w))) /\
  (network m = NetworkTestnet ->
     GetBitcoinKey m w
     = (Err (Errorf "bitcoin is not supported in testnet mode"), m, w) /\
     GetBitcoinAddress m w
     = (Err (Errorf "bitcoin is not supported in testnet mode"), m, w)).
Proof.
  split.
  - intros Hu Hnone.
    pose proof (ensureUnlocked_locked m w Hu Hnone) as He.
    assert (Hek : GetEthereumKey m w = (Err (Errorf "wallet is locked"), m, w))
      by (unfold GetEthereumKey; rewrite He; reflexivity).
    assert (Hsk : GetSolanaKey m w = (Err (Errorf "wallet is locked"), m, w))
      by (unfold GetSolanaKey; rewrite He; reflexivity).
    split; [exact Hek |].
    split; [unfold GetEthereumAddress; rewrite Hek; reflexivity |].
    split; [exact Hsk |].
    split; [unfold GetSolanaAddress; rewrite Hsk; reflexivity |].
    intros Hnet.
    assert (Hbk : GetBitcoinKey m w = (Err (Errorf "wallet is locked"), m, w)).
    { unfold GetBitcoinKey.
      destruct (String.eqb_spec (network m) NetworkTestnet); [contradiction |].
      rewrite He. reflexivity. }
    split; [exact Hbk |]. unfold GetBitcoinAddress.
    destruct (String.eqb_spec (network m) NetworkTestnet); [contradiction |].
    rewrite Hbk. reflexivity.
  - intros Hnet. unfold GetBitcoinAddress, GetBitcoinKey. rewrite Hnet.
    change ((NetworkTestnet =? NetworkTestnet)%string) with true. cbn. auto.
Qed.

(** X17. A session is as good as the password for the keys: a locked
    manager whose session [loadSession] accepts derives exactly the keys
    that any unlocked manager holding the session's mnemonic on the same
    network derives, and reading them leaves the disk as it was. *)
Theorem accessors_use_session (m m1 m2 : Manager) (w w1 w2 : World) :
  unlocked m = false ->
  loadSession m w = (true, m1, w1) ->
  unlocked m2 = true -> mnemonic m2 = mnemonic m1 -> network m2 = network m ->
  w1 = w /\
  (GetEthereumKey m w).1.1 = (GetEthereumKey m2 w2).1.1 /\
  (GetEthereumAddress m w).1.1 = (GetEthereumAddress m2 w2).1.1 /\
  (GetBitcoinKey m w).1.1 = (GetBitcoinKey m2 w2).1.1 /\
  (GetBitcoinAddress m w).1.1 = (GetBitcoinAddress m2 w2).1.1 /\
  (GetSolanaKey m w).1.1 = (GetSolanaKey m2 w2).1.1 /\
  (GetSolanaAddress m w).1.1 = (GetSolanaAddress m2 w2).1.1 /\
  (GetEthereumKey m w).2 = w /\ (GetBitcoinKey m w).2 = w /\ (GetSolanaKey m w).2 = w.
Proof.
  intros Hu Hs Hu2 Hmn Hnet.
  pose proof (ensureUnlocked_session m m1 w w1 Hu Hs) as He.
  pose proof (ensureUnlocked_unlocked m2 w2 Hu2) as He2.
  pose proof (loadSession_keeps_paths _ _ _ _ _ Hs) as (_ & _ & _ & Hnet1).
  apply loadSession_true in Hs as (_ & _ & _ & _ & _ & _ & _ & ->).
  assert (Hek : (GetEthereumKey m w).1.1 = (GetEthereumKey m2 w2).1.1 /\
                (GetEthereumKey m w).2 = w).
  { unfold GetEthereumKey. rewrite He, He2. cbn [fst snd].
    rewrite Hmn, Hnet, Hnet1. auto. }
  assert (Hsk : (GetSolanaKey m w).1.1 = (GetSolanaKey m2 w2).1.1 /\
                (GetSolanaKey m w).2 = w).
  { unfold GetSolanaKey. rewrite He, He2. cbn [fst snd].
    rewrite Hmn, Hnet, Hnet1. auto. }
  assert (Hbk : (GetBitcoinKey m w).1.1 = (GetBitcoinKey m2 w2).1.1 /\
                (GetBitcoinKey m w).2 = w).
  { unfold GetBitcoinKey. rewrite Hnet.
    destruct (network m =? NetworkTestnet)%string; [auto |].
    rewrite He, He2. cbn [fst snd]. rewrite Hmn. auto. }
  destruct Hek as [Hek Hew], Hsk as [Hsk Hsw], Hbk as [Hbk Hbw].
  repeat split; try assumption.
  - unfold GetEthereumAddress.
    destruct (GetEthereumKey m w) as [[[k|e] ma] wa],
             (GetEthereumKey m2 w2) as [[[k2|e2] mb] wb];
      cbn in Hek |- *; congruence.
  - unfold GetBitcoinAddress. rewrite Hnet.
    destruct (network m =? NetworkTestnet)%string; [reflexivity |].
    destruct (GetBitcoinKey m w) as [[[k|e] ma] wa],
             (GetBitcoinKey m2 w2) as [[[k2|e2] mb] wb];
      cbn in Hbk |- *; try congruence.
    injection Hbk as ->. reflexivity.
  - unfold GetSolanaAddress.
    destruct (GetSolanaKey m w) as [[[k|e] ma] wa],
             (GetSolanaKey m2 w2) as [[[k2|e2] mb] wb];
      cbn in Hsk |- *; congruence.
Qed.

End AccessorProperties.

(** ** Package crypto: the randomness of a vault *)

Section VaultRandomness.
Context {L : crypto.Lib} (laws : crypto.Laws L).
Import crypto.

(** X18. [NewVault] draws exactly 44 bytes from the generator, the first
    32 as the salt and the next 12 as the nonce, and leaves the rest; with
    fewer than 32 bytes to read it fails with "failed to generate salt",
    and with fewer than 44 (the vault data being serialisable) with "failed
    to generate nonce". *)
Theorem NewVault_randomness (mnemonic password : string) (r : Reader) :
  is_Some (json_Marshal (VaultData_json (mkVaultData mnemonic 1))) ->
  ((44 <= length r)%nat ->
     exists v, NewVault mnemonic password r = (Ok v, drop 44 r) /\
               Salt v = Some (take 32 r) /\
               Nonce v = Some (take 12 (drop 32 r)) /\
               length (bytes_of (Salt v)) = 32%nat /\
               length (bytes_of (Nonce v)) = 12%nat) /\
  ((length r < 32)%nat ->
     (NewVault mnemonic password r).1
     = Err (Wrapf "failed to generate salt" (External "rand"))) /\
  ((32 <= length r < 44)%nat ->
     (NewVault mnemonic password r).1
     = Err (Wrapf "failed to generate nonce" (External "rand"))).
Proof.
  intros [data Hdata]. unfold NewVault. split; [| split].
  - intros Hlen. rewrite io_ReadFull_enough by lia.
    destruct (deriveKey_ok laws password (take 32 r)) as (key & -> & Hk).
    rewrite Hdata. cbn [lib].
    rewrite io_ReadFull_enough by (rewrite length_drop; lia).
    destruct (encrypt_ok laws key (take 12 (drop 32 r)) data Hk) as (g & _ & ->).
    rewrite drop_drop. eexists. split; [reflexivity |].
    cbn [Salt Nonce bytes_of]. rewrite !length_take, length_drop.
    repeat split; lia.
  - intros Hlen. unfold io_ReadFull.
    destruct (Nat.leb_spec 32 (length r)); [lia | reflexivity].
  - intros Hlen. rewrite io_ReadFull_enough by lia.
    destruct (deriveKey_ok laws password (take 32 r)) as (key & -> & Hk).
    rewrite Hdata. cbn [lib]. unfold io_ReadFull. rewrite length_drop.
    destruct (Nat.leb_spec 12 (length r - 32)); [lia | reflexivity].
Qed.

End VaultRandomness.

Section AccessorsOnDisk.
#[local] Existing Instance standin.cryptoLib.
#[local] Existing Instance standin.walletLib.
#[local] Existing Instance standin_keys.keysLib.
#[local] Existing Instance standin_keys.counting_hmac.
#[local] Existing Instance standin_keys.accessorsLib.
Import wallet accessors scenario.

Lemma accessors_refuse_when_locked_witness :
  GetSolanaAddress (NewManager (standin.bare [])) (standin.bare [])
  = (Err (Errorf "wallet is locked"), NewManager (standin.bare []), standin.bare []) /\
  GetBitcoinAddress (mkManager vault_path session_path None "abandon ability able"
                               "password123" true "testnet") w_live
  = (Err (Errorf "bitcoin is not supported in testnet mode"),
     mkManager vault_path session_path None "abandon ability able" "password123" true
               "testnet", w_live).
Proof.
  split.
  - refine (proj1 (proj2 (proj2 (proj2
      (proj1 (accessors_refuse_when_locked (NewManager (standin.bare []))
                (standin.bare [])) _ _))))); reflexivity.
  - refine (proj2 (proj2 (accessors_refuse_when_locked _ w_live) _)). reflexivity.
Defined.

Lemma accessors_use_session_witness :
  let m2 := mkManager vault_path session_path None "abandon ability able" "password123"
                      true "mainnet" in
  (GetSolanaKey (NewManager w_live) w_live).1.1 = (GetSolanaKey m2 (standin.bare [])).1.1 /\
  is_ok (GetSolanaKey (NewManager w_live) w_live).1.1 = true.
Proof.
  cbv zeta. split; [| vm_compute; reflexivity].
  eapply (accessors_use_session (NewManager w_live) _ _ w_live _ (standin.bare [])).
  - reflexivity.
  - vm_compute. reflexivity.
  - reflexivity.
  - reflexivity.
  - vm_compute. reflexivity.
Defined.

Lemma NewVault_randomness_witness :
  exists v,
    crypto.NewVault "abandon ability able" "password123" standin.entropy120
    = (Ok v, drop 44 standin.entropy120) /\
    crypto.Salt v = Some (take 32 standin.entropy120).
Proof.
  destruct (proj1 (NewVault_randomness standin_cryptoLaws "abandon ability able"
                     "password123" standin.entropy120
                     (ex_intro _ _ eq_refl))
              ltac:(vm_compute; lia)) as (v & Hv & Hsalt & _).
  exists v. split; assumption.
Defined.

End AccessorsOnDisk.

(** ** Package bitcoin and the Bitcoin payment, continued *)

Section BitcoinMore.
Context {L : bitcoin.Lib}.
Import bitcoin pay.
Local Open Scope Z_scope.

(** X19. [UpdateChangeOutput] refuses a transaction with fewer than two
    outputs and leaves it alone; otherwise it returns nil and changes the
    value of the last output only: the inputs, the number of outputs, every
    script and every output before the last stay as they were. *)
Theorem UpdateChangeOutput_last_only (value : Z) (tx0 : Transaction) :
  let out := UpdateChangeOutput value tx0 in
  ((length (Outputs tx0) < 2)%nat ->
     out = (Some (Errorf "no change output to update"), tx0)) /\
  ((2 <= length (Outputs tx0))%nat ->
     out.1 = None /\
     Version out.2 = Version tx0 /\ Inputs out.2 = Inputs tx0 /\
     LockTime out.2 = LockTime tx0 /\
     length (Outputs out.2) = length (Outputs tx0) /\
     map PkScript (Outputs out.2) = map PkScript (Outputs tx0) /\
     (forall i, (i < length (Outputs tx0) - 1)%nat ->
                Outputs out.2 !! i = Outputs tx0 !! i) /\
     OutValue <$> last (Outputs out.2) = Some value).
Proof.
  cbv zeta. unfold UpdateChangeOutput. split; intros Hlen.
  - destruct (Nat.ltb_spec (length (Outputs tx0)) 2); [reflexivity | lia].
  - destruct (Nat.ltb_spec (length (Outputs tx0)) 2); [lia |].
    cbn [fst snd Version Inputs Outputs LockTime].
    split; [reflexivity |]. split; [reflexivity |]. split; [reflexivity |].
    split; [reflexivity |]. split; [apply length_alter |].
    destruct (Outputs tx0) as [|o outs _] using rev_ind; [cbn in Hlen; lia |].
    rewrite length_app. cbn [length].
    replace (length outs + 1 - 1)%nat with (length outs + 0)%nat by lia.
    rewrite alter_app_r. cbn [alter list_alter].
    split; [rewrite !map_app; reflexivity |]. split.
    + intros i Hi. rewrite !lookup_app_l by lia. reflexivity.
    + rewrite last_snoc. reflexivity.
Qed.

Lemma addInputs_ok (utxos : list UTXO) : forall tx0,
  Forall (fun u => is_Some (chainhash_NewHashFromStr (TxID u))) utxos ->
  exists tx1, addInputs utxos tx0 = Ok tx1.
Proof.
  induction utxos as [|u rest IH]; intros tx0 Hall; cbn [addInputs]; [eauto |].
  inversion Hall as [|? ? [h Hh] Hrest]; subst. unfold AddInput. rewrite Hh. cbn [lib].
  apply IH. exact Hrest.
Qed.

Lemma add64_small a b : - 2 ^ 63 <= a + b < 2 ^ 63 -> add64 a b = a + b.
Proof. apply wrap64_small. Qed.
Lemma sub64_small a b : - 2 ^ 63 <= a - b < 2 ^ 63 -> sub64 a b = a - b.
Proof. apply wrap64_small. Qed.
Lemma mul64_small a b : - 2 ^ 63 <= a * b < 2 ^ 63 -> mul64 a b = a * b.
Proof. apply wrap64_small. Qed.

(** What [sendBitcoin] returns when the scripts and hashes can be made
    and no [int64] wraps. *)
Lemma sendBitcoin_exact (utxos : list UTXO) (value : Z) (feeEstimate : result Z)
    (recipient senderAddress : Address) :
  let n := Z.of_nat (length utxos) in
  let rate := match feeEstimate with Ok r => r | Err _ => 10 end in
  let total := totalInputOf utxos in
  let fee0 := (10 + n * 110 + 34) * rate in
  let change0 := total - value - fee0 in
  utxos <> [] ->
  0 <= value < 2 ^ 62 -> 0 <= total < 2 ^ 62 -> 0 <= rate ->
  (10 + n * 110 + 68) * rate < 2 ^ 62 ->
  Forall (fun u => is_Some (chainhash_NewHashFromStr (TxID u))) utxos ->
  is_Some (txscript_PayToAddrScript recipient) ->
  is_Some (txscript_PayToAddrScript senderAddress) ->
  exists tx0 rs ss,
    sendBitcoin utxos value feeEstimate recipient senderAddress
    = if change0 <? 0 then
        Err (Errorf "insufficient funds for transaction with fees")
      else
        Ok (if change0 <? 546 then
              mkPlan (mkTransaction (Version tx0) (Inputs tx0) [mkTxOut value rs]
                                    (LockTime tx0))
                     (10 + n * 110 + 34) rate (fee0 + change0) 0
            else if (0 <? rate) && (34 * rate <? change0) then
              mkPlan (mkTransaction (Version tx0) (Inputs tx0)
                        [mkTxOut value rs; mkTxOut (change0 - 34 * rate) ss]
                        (LockTime tx0))
                     (10 + n * 110 + 34 + 34) rate fee0 (change0 - 34 * rate)
            else
              mkPlan (mkTransaction (Version tx0) (Inputs tx0)
                        [mkTxOut value rs; mkTxOut change0 ss] (LockTime tx0))
                     (10 + n * 110 + 34 + 34) rate fee0 change0).
Proof.
  intros n rate total fee0 change0 Hne Hv Ht Hr Hbig Hhash [rs Hrs] [ss Hss].
  assert (Hn : 0 <= n) by (subst n; lia).
  assert (Hfee0 : 0 <= fee0 < 2 ^ 62) by (subst fee0; nia).
  assert (Hlen0 : (length utxos =? 0)%nat = false)
    by (destruct utxos; [contradiction | reflexivity]).
  destruct (addInputs_ok utxos NewTransaction Hhash) as [tx0 Hin].
  exists tx0, rs, ss.
  unfold sendBitcoin. rewrite Hlen0, Hin.
  apply addInputs_inv in Hin as [_ Hout]. cbn [NewTransaction Outputs] in Hout.
  unfold AddOutput at 1. rewrite Hrs. cbn [lib]. rewrite Hout. cbn [app].
  fold n. fold total.
  replace (10 + n * 110 + 1 * 34) with (10 + n * 110 + 34) by lia.
  change (match feeEstimate with Ok r => r | Err _ => 10 end) with rate.
  rewrite (mul64_small (10 + n * 110 + 34) rate) by (fold fee0; lia). fold fee0.
  unfold settleChange, foldDust, dustThreshold.
  rewrite (sub64_small total value) by lia.
  rewrite (sub64_small (total - value) fee0) by lia. fold change0.
  destruct (Z.ltb_spec change0 0) as [Hneg|Hnn].
  - destruct (Z.gtb_spec change0 0); [lia |]. cbn [andb].
    destruct (Z.gtb_spec change0 0); [lia |].
    rewrite add64_small by lia.
    destruct (Z.ltb_spec total (value + fee0)); [reflexivity | lia].
  - destruct (Z.ltb_spec change0 546) as [Hdust|Hbigc].
    + destruct (Z.gtb_spec change0 0) as [Hpos|Hzero]; cbn [andb].
      * change (0 >? 0) with false. cbv iota.
        rewrite (add64_small fee0 change0) by lia.
        rewrite add64_small by lia.
        destruct (Z.ltb_spec total (value + (fee0 + change0))); [lia | reflexivity].
      * destruct (Z.gtb_spec change0 0); [lia |].
        rewrite add64_small by lia.
        destruct (Z.ltb_spec total (value + fee0)); [lia |].
        replace change0 with 0 by lia. rewrite Z.add_0_r. reflexivity.
    + destruct (Z.gtb_spec change0 0); [| lia]. cbn [andb].
      destruct (Z.gtb_spec change0 0); [| lia].
      unfold appendChange, AddOutput. rewrite Hss.
      cbn [lib Version Inputs Outputs LockTime app].
      rewrite (mul64_small (10 + n * 110 + 34 + 34) rate) by nia.
      replace ((10 + n * 110 + 34 + 34) * rate) with (fee0 + 34 * rate)
        by (subst fee0; lia).
      rewrite (sub64_small (fee0 + 34 * rate) fee0) by nia.
      replace (fee0 + 34 * rate - fee0) with (34 * rate) by lia.
      destruct (Z.gtb_spec (fee0 + 34 * rate) fee0) as [Hup|Hup];
        destruct (Z.ltb_spec 0 rate) as [Hrp|Hrp]; try lia; cbn [andb].
      * destruct (Z.gtb_spec change0 (34 * rate)) as [Hgt|Hgt];
          destruct (Z.ltb_spec (34 * rate) change0); try lia.
        -- rewrite (sub64_small change0 (34 * rate)) by lia.
           rewrite add64_small by lia.
           destruct (Z.ltb_spec total (value + fee0)); [lia |].
           unfold UpdateChangeOutput. cbn. reflexivity.
        -- rewrite add64_small by lia.
           destruct (Z.ltb_spec total (value + fee0)); [lia | reflexivity].
      * rewrite add64_small by lia.
        destruct (Z.ltb_spec total (value + fee0)); [lia | reflexivity].
Qed.

(** X20. The funds check of [sendBitcoin], when the scripts and hashes can
    be made and no [int64] wraps: the payment is refused with "insufficient
    funds for transaction with fees" exactly when the inputs are less than
    the value plus the fee for one output.  Otherwise a plan is returned
    whose outputs are the value and, if it is not zero, the change; the fee
    the transaction pays (inputs minus outputs) is never below the plan's
    estimated fee: it is that fee, or the fee recomputed for two outputs
    when the change was reduced. *)
Theorem sendBitcoin_funds_and_conservation (utxos : list UTXO) (value : Z)
    (feeEstimate : result Z) (recipient senderAddress : Address) :
  let n := Z.of_nat (length utxos) in
  let rate := match feeEstimate with Ok r => r | Err _ => 10 end in
  let total := totalInputOf utxos in
  let fee0 := (10 + n * 110 + 34) * rate in
  utxos <> [] ->
  0 <= value < 2 ^ 62 -> 0 <= total < 2 ^ 62 -> 0 <= rate ->
  (10 + n * 110 + 68) * rate < 2 ^ 62 ->
  Forall (fun u => is_Some (chainhash_NewHashFromStr (TxID u))) utxos ->
  is_Some (txscript_PayToAddrScript recipient) ->
  is_Some (txscript_PayToAddrScript senderAddress) ->
  (total < value + fee0 <->
     sendBitcoin utxos value feeEstimate recipient senderAddress
     = Err (Errorf "insufficient funds for transaction with fees")) /\
  (value + fee0 <= total ->
     exists plan,
       sendBitcoin utxos value feeEstimate recipient senderAddress = Ok plan /\
       0 <= change plan /\
       map OutValue (Outputs (tx plan))
       = (if change plan =? 0 then [value] else [value; change plan]) /\
       let paid := total - value - change plan in
       fee0 <= estimatedFee plan <= paid /\
       (paid = estimatedFee plan \/ paid = (10 + n * 110 + 68) * rate)).
Proof.
  intros n rate total fee0 Hne Hv Ht Hr Hbig Hhash Hrs Hss.
  destruct (sendBitcoin_exact utxos value feeEstimate recipient senderAddress
              Hne Hv Ht Hr Hbig Hhash Hrs Hss) as (tx0 & rs & ss & Hplan).
  fold n rate total fee0 in Hplan.
  assert (Hgood : value + fee0 <= total ->
     exists plan,
       sendBitcoin utxos value feeEstimate recipient senderAddress = Ok plan /\
       0 <= change plan /\
       map OutValue (Outputs (tx plan))
       = (if change plan =? 0 then [value] else [value; change plan]) /\
       let paid := total - value - change plan in
       fee0 <= estimatedFee plan <= paid /\
       (paid = estimatedFee plan \/ paid = (10 + n * 110 + 68) * rate)).
  { intros Hle. revert Hplan.
    destruct (Z.ltb_spec (total - value - fee0) 0); [lia |]. intros Hplan.
    eexists. split; [exact Hplan |].
    destruct (Z.ltb_spec (total - value - fee0) 546) as [Hd|Hd].
    - cbn. repeat split; lia.
    - destruct (Z.ltb_spec 0 rate) as [Hrp|Hrp]; cbn [andb].
      + destruct (Z.ltb_spec (34 * rate) (total - value - fee0)) as [Hgt|Hgt];
          cbn [change tx estimatedFee Outputs map OutValue].
        * destruct (Z.eqb_spec (total - value - fee0 - 34 * rate) 0); [lia |].
          cbv zeta. subst fee0. repeat split; lia.
        * destruct (Z.eqb_spec (total - value - fee0) 0); [lia |].
          cbv zeta. repeat split; lia.
      + cbn [change tx estimatedFee Outputs map OutValue].
        destruct (Z.eqb_spec (total - value - fee0) 0); [lia |].
        cbv zeta. repeat split; lia. }
  split; [| exact Hgood]. split.
  - intros Hlt. rewrite Hplan.
    destruct (Z.ltb_spec (total - value - fee0) 0); [reflexivity | lia].
  - intros Herr. destruct (Z.lt_ge_cases total (value + fee0)) as [|Hge]; [assumption |].
    destruct (Hgood ltac:(lia)) as (plan & Hp & _). congruence.
Qed.

(** X21. The dust rule is applied before the fee adjustment, not after
    it: when the change first computed is at least 546 satoshis, exceeds
    the fee of the extra output (34 bytes at the fee rate) and is less than
    that fee plus 546, the plan carries a change output of less than 546
    satoshis. *)
Theorem sendBitcoin_change_below_dust (utxos : list UTXO) (value : Z)
    (feeEstimate : result Z) (recipient senderAddress : Address) :
  let n := Z.of_nat (length utxos) in
  let rate := match feeEstimate with Ok r => r | Err _ => 10 end in
  let total := totalInputOf utxos in
  let change0 := total - value - (10 + n * 110 + 34) * rate in
  utxos <> [] ->
  0 <= value < 2 ^ 62 -> 0 <= total < 2 ^ 62 -> 0 < rate ->
  (10 + n * 110 + 68) * rate < 2 ^ 62 ->
  Forall (fun u => is_Some (chainhash_NewHashFromStr (TxID u))) utxos ->
  is_Some (txscript_PayToAddrScript recipient) ->
  is_Some (txscript_PayToAddrScript senderAddress) ->
  546 <= change0 -> 34 * rate < change0 < 34 * rate + 546 ->
  exists plan,
    sendBitcoin utxos value feeEstimate recipient senderAddress = Ok plan /\
    map OutValue (Outputs (tx plan)) = [value; change0 - 34 * rate] /\
    change plan = change0 - 34 * rate /\
    0 < change plan < dustThreshold.
Proof.
  intros n rate total change0 Hne Hv Ht Hr Hbig Hhash Hrs Hss Hc Hd.
  destruct (sendBitcoin_exact utxos value feeEstimate recipient senderAddress
              Hne Hv Ht ltac:(fold rate; lia) Hbig Hhash Hrs Hss)
    as (tx0 & rs & ss & Hplan).
  fold n rate total change0 in Hplan. revert Hplan.
  destruct (Z.ltb_spec change0 0); [lia |]. intros Hplan.
  eexists. split; [exact Hplan |].
  destruct (Z.ltb_spec change0 546); [lia |].
  destruct (Z.ltb_spec 0 rate); [| lia].
  destruct (Z.ltb_spec (34 * rate) change0); [| lia].
  cbn. unfold dustThreshold. repeat split; lia.
Qed.

End BitcoinMore.

(** ** Package api: the fee rate *)

(** X22. On mainnet [GetBitcoinFeeEstimate] never fails and never returns
    a rate that is not positive: it is the half-hour fee of mempool.space
    whenever that was obtained and is positive, whatever blockchain.info
    answers; else the regular fee of blockchain.info when that was obtained
    and is positive; else 10.  On testnet it is always an error. *)
Theorem GetBitcoinFeeEstimate_positive (mempool blockchainInfo : option Z) :
  (exists r,
      api.GetBitcoinFeeEstimate false mempool blockchainInfo = Ok r /\ (0 < r)%Z /\
      r = match mempool, blockchainInfo with
          | Some h, Some g => if (0 <? h)%Z then h else if (0 <? g)%Z then g else 10%Z
          | Some h, None => if (0 <? h)%Z then h else 10%Z
          | None, Some g => if (0 <? g)%Z then g else 10%Z
          | None, None => 10%Z
          end) /\
  api.GetBitcoinFeeEstimate true mempool blockchainInfo
  = Err (Errorf "bitcoin is not supported in testnet mode").
Proof.
  split; [| reflexivity]. unfold api.GetBitcoinFeeEstimate.
  destruct mempool as [h|], blockchainInfo as [g|];
    repeat match goal with
           | |- context [(?a >? ?b)%Z] => destruct (Z.gtb_spec a b)
           | |- context [(?a <? ?b)%Z] => destruct (Z.ltb_spec a b)
           end;
    try lia; eexists; (split; [reflexivity |]); split; lia || reflexivity.
Qed.

Section PaymentsOnChain.
#[local] Existing Instance standin_chain.bitcoinLib.
Import bitcoin pay.
Local Open Scope Z_scope.

Lemma UpdateChangeOutput_last_only_witness :
  UpdateChangeOutput 5 (standin_chain.paying 100)
  = (Some (Errorf "no change output to update"), standin_chain.paying 100).
Proof.
  refine (proj1 (UpdateChangeOutput_last_only 5 (standin_chain.paying 100)) _).
  vm_compute. lia.
Defined.

Lemma sendBitcoin_funds_and_conservation_witness :
  sendBitcoin [mkUTXO "aa" 0 9000 []] 6320 (Ok 20) "bc1recipient"%string
              "bc1sender"%string
  = Err (Errorf "insufficient funds for transaction with fees") /\
  exists plan,
    sendBitcoin [mkUTXO "aa" 0 10000 []] 6320 (Ok 20) "bc1recipient"%string
                "bc1sender"%string = Ok plan /\
    map OutValue (Outputs (tx plan))
    = (if change plan =? 0 then [6320] else [6320; change plan]) /\
    estimatedFee plan <= 10000 - 6320 - change plan.
Proof.
  split.
  - refine (proj1 (proj1 (sendBitcoin_funds_and_conservation
              [mkUTXO "aa" 0 9000 []] 6320 (Ok 20) "bc1recipient"%string
              "bc1sender"%string _ _ _ _ _ _ _ _)) _).
    + discriminate.
    + lia.
    + vm_compute. split; [discriminate | reflexivity].
    + lia.
    + vm_compute. reflexivity.
    + repeat constructor. vm_compute. eauto.
    + vm_compute. eauto.
    + vm_compute. eauto.
    + vm_compute. reflexivity.
  - destruct (proj2 (@sendBitcoin_funds_and_conservation standin_chain.bitcoinLib
              [mkUTXO "aa" 0 10000 []] 6320 (Ok 20) "bc1recipient"%string
              "bc1sender"%string
              ltac:(discriminate) ltac:(lia)
              ltac:(vm_compute; split; [discriminate | reflexivity])
              ltac:(lia) ltac:(vm_compute; reflexivity)
              ltac:(repeat constructor; vm_compute; eauto)
              ltac:(vm_compute; eauto) ltac:(vm_compute; eauto))
              ltac:(vm_compute; discriminate))
      as (plan & Hplan & _ & Hout & Hfee & _).
    exists plan. split; [exact Hplan |]. split; [exact Hout |].
    exact (proj2 Hfee).
Defined.

Lemma sendBitcoin_change_below_dust_witness :
  exists plan,
    sendBitcoin [mkUTXO "aa" 0 10000 []] 5920 (Ok 20) "bc1recipient"%string
                "bc1sender"%string = Ok plan /\
    map OutValue (Outputs (tx plan)) = [5920; 320] /\
    change plan = 320 /\ 0 < change plan < dustThreshold.
Proof.
  refine (sendBitcoin_change_below_dust
            [mkUTXO "aa" 0 10000 []] 5920 (Ok 20) "bc1recipient"%string
            "bc1sender"%string _ _ _ _ _ _ _ _ _ _).
  - discriminate.
  - lia.
  - vm_compute. split; [discriminate | reflexivity].
  - lia.
  - vm_compute. reflexivity.
  - repeat constructor. vm_compute. eauto.
  - vm_compute. eauto.
  - vm_compute. eauto.
  - vm_compute. discriminate.
  - vm_compute. split; reflexivity.
Defined.

End PaymentsOnChain.

(** ** Package ethereum and the Ethereum payment *)

Section EthereumProperties.
Context {WL : wallet.Lib} {EL : ethereum.Lib}.
Import ethereum.
Local Open Scope Z_scope.

(** X23. [ValidateTransaction] returns nil exactly for a transaction with
    a recipient, a value that is not negative, a positive gas price and a
    gas limit other than 0; so a transaction made by [NewTransaction] is
    valid exactly when its value is not negative, its gas price is positive
    and its gas limit is not 0.  A missing recipient is reported before
    anything else. *)
Theorem ValidateTransaction_accepts (t : Transaction) :
  (ValidateTransaction t = None <->
   exists to v p,
     To t = Some to /\ Value t = Some v /\ GasPrice t = Some p /\
     0 <= v /\ 0 < p /\ GasLimit t <> 0) /\
  (To t = None ->
   ValidateTransaction t = Some (Errorf "transaction must have a recipient address")) /\
  (forall nonce to value gasLimit gasPrice data w,
     ValidateTransaction (NewTransaction nonce to value gasLimit gasPrice data w) = None
     <-> 0 <= value /\ 0 < gasPrice /\ gasLimit <> 0).
Proof.
  assert (Hiff : forall t : Transaction,
    ValidateTransaction t = None <->
    exists to v p,
      To t = Some to /\ Value t = Some v /\ GasPrice t = Some p /\
      0 <= v /\ 0 < p /\ GasLimit t <> 0).
  { clear t. intros t. unfold ValidateTransaction. split.
    - destruct (To t) as [to|]; [| discriminate].
      destruct (Value t) as [v|]; [| discriminate].
      destruct (Z.ltb_spec v 0); [discriminate |].
      destruct (GasPrice t) as [p|]; [| discriminate].
      destruct (Z.leb_spec p 0); [discriminate |].
      destruct (Z.eqb_spec (GasLimit t) 0); [discriminate |].
      intros _. exists to, v, p. repeat split; assumption || lia.
    - intros (to & v & p & -> & -> & -> & Hv & Hp & Hg).
      destruct (Z.ltb_spec v 0); [lia |].
      destruct (Z.leb_spec p 0); [lia |].
      destruct (Z.eqb_spec (GasLimit t) 0); [contradiction | reflexivity]. }
  split; [apply Hiff |]. split.
  - intros Hto. unfold ValidateTransaction. rewrite Hto. reflexivity.
  - intros nonce to value gasLimit gasPrice data w. rewrite Hiff.
    unfold NewTransaction. cbn [To Value GasPrice GasLimit]. split.
    + intros (to' & v & p & _ & [= <-] & [= <-] & H). exact H.
    + intros H. exists to, value, gasPrice. auto.
Qed.

(** X24. [sendEthereum] quotes a payment exactly when the value is not
    negative, the gas price is positive, the gas limit is not 0 and the
    balance covers the value plus the highest fee, which is the gas limit
    times the gas price raised by 20% and rounded down; the gas limit is
    the estimate, or 21000 when the estimate failed.  A balance below the
    value is refused first, a negative value or a gas price that is not
    positive is an invalid transaction, and a balance that covers the value
    but not the fee is refused as such. *)
Theorem sendEthereum_outcomes (recipient : Address)
    (value balance nonce gasPrice : Z) (gasEstimate : result Z) (w : World) :
  let price := gasPrice * 120 / 100 in
  let gas := match gasEstimate with Ok g => g | Err _ => 21000 end in
  let out := sendEthereum recipient value balance nonce gasPrice gasEstimate w in
  0 <= gas < 2 ^ 63 ->
  (is_ok out = true <->
   0 <= value /\ 0 < gasPrice /\ gas <> 0 /\ value + price * gas <= balance) /\
  (forall q, out = Ok q ->
     quoted q = mkTransaction nonce (Some price) gas (Some recipient) (Some value) []
                              (GetChainID w) /\
     maxFee q = price * gas /\ totalCost q = value + price * gas /\
     gasPrice <= price /\ totalCost q <= balance) /\
  (balance < value ->
     out = Err (Errorf "insufficient funds in your Ethereum wallet. You're trying to send %.6f ETH but your balance is only %.6f ETH. Please deposit more ETH to your address (%s) before making this payment")) /\
  (value <= balance -> value < 0 ->
     out = Err (Wrapf "invalid transaction"
                  (Errorf "transaction value must be non-negative"))) /\
  (0 <= value <= balance -> gasPrice <= 0 ->
     out = Err (Wrapf "invalid transaction" (Errorf "gas price must be positive"))) /\
  (0 <= value <= balance -> 0 < gasPrice -> gas <> 0 ->
   balance < value + price * gas ->
     out = Err (Errorf "insufficient funds for transaction with gas. You're trying to send %.6f ETH with approximately %.6f ETH in gas fees (total %.6f ETH) but your balance is only %.6f ETH")).
Proof.
  intros price gas out Hgas.
  assert (Hprice : (0 < gasPrice -> gasPrice <= price) /\ (gasPrice <= 0 -> price <= 0)).
  { subst price. split; intros H.
    - apply Z.div_le_lower_bound; lia.
    - apply Z.div_le_upper_bound; lia. }
  assert (Hgas' : match gasEstimate with
                  | Ok g => g
                  | Err _ => EstimateGasLimit []
                  end = gas).
  { subst gas. destruct gasEstimate; reflexivity. }
  assert (Hout : out =
    if balance <? value then Err (Errorf "insufficient funds in your Ethereum wallet. You're trying to send %.6f ETH but your balance is only %.6f ETH. Please deposit more ETH to your address (%s) before making this payment")
    else if value <? 0 then
      Err (Wrapf "invalid transaction" (Errorf "transaction value must be non-negative"))
    else if price <=? 0 then
      Err (Wrapf "invalid transaction" (Errorf "gas price must be positive"))
    else if gas =? 0 then
      Err (Wrapf "invalid transaction" (Errorf "gas limit must be greater than 0"))
    else if balance <? value + price * gas then
      Err (Errorf "insufficient funds for transaction with gas. You're trying to send %.6f ETH with approximately %.6f ETH in gas fees (total %.6f ETH) but your balance is only %.6f ETH")
    else Ok (mkQuote (mkTransaction nonce (Some price) gas (Some recipient) (Some value)
                                    [] (GetChainID w))
                     (price * gas) (value + price * gas))).
  { subst out. unfold sendEthereum. rewrite Hgas'. fold price.
    destruct (balance <? value); [reflexivity |].
    unfold ValidateTransaction, NewTransaction. cbn [To Value GasPrice GasLimit].
    destruct (value <? 0); [reflexivity |].
    destruct (price <=? 0); [reflexivity |].
    destruct (gas =? 0); [reflexivity |].
    rewrite (wrap64_small gas) by lia. reflexivity. }
  rewrite Hout. clear Hout. destruct Hprice as [Hup Hdown].
  assert (Hfee : 0 < gasPrice -> 0 <= price * gas) by (intros; nia).
  destruct (Z.ltb_spec balance value) as [Hb|Hb].
  { cbn [is_ok]. repeat split; intros;
      first [discriminate | reflexivity | exfalso; lia]. }
  destruct (Z.ltb_spec value 0) as [Hv|Hv].
  { cbn [is_ok]. repeat split; intros;
      first [discriminate | reflexivity | exfalso; lia]. }
  destruct (Z.leb_spec price 0) as [Hp|Hp].
  { assert (gasPrice <= 0) by (destruct (Z.lt_ge_cases 0 gasPrice); lia).
    cbn [is_ok]. repeat split; intros;
      first [discriminate | reflexivity | exfalso; lia]. }
  assert (0 < gasPrice) by (destruct (Z.lt_ge_cases 0 gasPrice); lia).
  destruct (Z.eqb_spec gas 0) as [Hg|Hg].
  { cbn [is_ok]. repeat split; intros;
      first [discriminate | reflexivity | exfalso; lia]. }
  destruct (Z.ltb_spec balance (value + price * gas)) as [Hc|Hc].
  { cbn [is_ok]. repeat split; intros;
      first [discriminate | reflexivity | exfalso; lia]. }
  split; [split; [intros _; repeat split; lia | reflexivity] |].
  split.
  { intros q [= <-]. cbn. repeat split; lia. }
  repeat split; intros; exfalso; lia.
Qed.

End EthereumProperties.

(** ** Package solana, continued *)

Section SolanaMore.
Context {L : solana.Lib} {L2 : solana2.Lib}.
Import solana solana2.

Lemma firstConfusable_None s : forall i,
  firstConfusable s i = None <->
  forall c, In c (list_ascii_of_string s) ->
            c <> "0"%char /\ c <> "O"%char /\ c <> "I"%char /\ c <> "l"%char.
Proof.
  induction s as [|a rest IH]; intros i.
  - cbn. split; [intros _ c [] | reflexivity].
  - cbn [firstConfusable list_ascii_of_string In].
    destruct (Ascii.eqb_spec a "0"); [subst; split; [discriminate | intros H] |].
    { destruct (H "0"%char) as [Hx _]; [auto | contradiction]. }
    destruct (Ascii.eqb_spec a "O"); [subst; split; [discriminate | intros H] |].
    { destruct (H "O"%char) as (_ & Hx & _); [auto | contradiction]. }
    destruct (Ascii.eqb_spec a "I"); [subst; split; [discriminate | intros H] |].
    { destruct (H "I"%char) as (_ & _ & Hx & _); [auto | contradiction]. }
    destruct (Ascii.eqb_spec a "l"); [subst; split; [discriminate | intros H] |].
    { destruct (H "l"%char) as (_ & _ & _ & Hx); [auto | contradiction]. }
    cbn [orb]. rewrite IH. split.
    + intros H c [<- | Hc]; auto.
    + intros H c Hc. apply H. auto.
Qed.

(** X25. [ParseAddress] returns a key exactly when the address has none of
    the characters 0, O, I, l and the library parses it; an address with
    one of them is refused before the library is asked, whatever the
    library would answer.  The four characters are outside the base58
    alphabet, so the check refuses no string made of base58 characters. *)
Theorem ParseAddress_confusable_characters (address : string) :
  (forall key, ParseAddress address = Ok key <->
     (forall c, In c (list_ascii_of_string address) ->
        c <> "0"%char /\ c <> "O"%char /\ c <> "I"%char /\ c <> "l"%char) /\
     PublicKeyFromBase58 address = Some key) /\
  (forall c, In c (list_ascii_of_string address) ->
     c = "0"%char \/ c = "O"%char \/ c = "I"%char \/ c = "l"%char ->
     ParseAddress address
     = Err (Errorf "invalid character '%c' at position %d in Solana address. Solana addresses use base58 encoding which doesn't include 0, O, I, or l characters")) /\
  (all_base58 address = true ->
     ParseAddress address
     = match PublicKeyFromBase58 address with
       | Some key => Ok key
       | None => Err (Wrapf "invalid Solana address (%s)" (External "solana"))
       end).
Proof.
  split; [| split].
  - intros key. unfold ParseAddress.
    destruct (firstConfusable address 0) as [i|] eqn:E.
    + split; [discriminate |]. intros [H _].
      apply (firstConfusable_None address 0) in H. congruence.
    + pose proof (proj1 (firstConfusable_None address 0) E) as E'.
      destruct (PublicKeyFromBase58 address) as [k|].
      * split; [intros [= <-]; auto | intros [_ [= <-]]; reflexivity].
      * split; [discriminate | intros [_ H]; discriminate].
  - intros c Hin Hc. unfold ParseAddress.
    destruct (firstConfusable address 0) as [i|] eqn:E; [reflexivity |].
    pose proof (proj1 (firstConfusable_None address 0) E) as E'.
    destruct (E' c Hin) as (H0 & H1 & H2 & H3).
    destruct Hc as [Hc | [Hc | [Hc | Hc]]]; contradiction.
  - intros Hall. unfold ParseAddress.
    assert (E : firstConfusable address 0 = None).
    { apply firstConfusable_None. intros c Hin.
      unfold all_base58 in Hall. rewrite forallb_forall in Hall.
      specialize (Hall c Hin).
      repeat split; intros ->; vm_compute in Hall; discriminate. }
    rewrite E. reflexivity.
Qed.

(** The blockhash check of [BuildAndSign] in terms of [ValidateBase58]. *)
Lemma validateBlockhash_is_ok (s : string) :
  is_ok (validateBlockhash s) = ValidateBase58 s && (32 <=? String.length s)%nat.
Proof.
  unfold ValidateBase58, validateBlockhash.
  destruct (String.eqb s ""); [reflexivity |].
  destruct (firstInvalid s 0); [reflexivity |].
  destruct (HashFromBase58 s); cbn [lib];
    destruct (Nat.ltb_spec (String.length s) 32), (Nat.leb_spec 32 (String.length s));
    try lia; reflexivity.
Qed.

(** X26. [ValidateBase58] is true exactly for a string that is not empty,
    is made of base58 characters and that the library decodes to a hash;
    the blockhash check of [BuildAndSign] is the same test with one more
    condition, a length of at least 32 characters. *)
Theorem ValidateBase58_characterised (s : string) :
  (ValidateBase58 s = true <->
   s <> ""%string /\ all_base58 s = true /\ is_Some (HashFromBase58 s)) /\
  is_ok (validateBlockhash s) = ValidateBase58 s && (32 <=? String.length s)%nat.
Proof.
  split; [| apply validateBlockhash_is_ok].
  unfold ValidateBase58.
  destruct (String.eqb_spec s "") as [->|Hne].
  { split; [discriminate | intros [H _]; contradiction]. }
  destruct (firstInvalid s 0) as [i|] eqn:E.
  { split; [discriminate |].
    intros (_ & Hall & _). apply (firstInvalid_None s 0) in Hall. congruence. }
  apply firstInvalid_None in E.
  destruct (HashFromBase58 s) as [h|] eqn:Hh.
  - split; [intros _; repeat split; eauto | reflexivity].
  - split; [discriminate | intros (_ & _ & [h Hx]); discriminate].
Qed.

(** X27. A transaction made by [CreateTransferTransaction] has exactly one
    instruction, the transfer from the signer's public key, the signer as
    its only signer and as fee payer, and the blockhash given; so
    [BuildAndSign] never fails on it for want of a signer, it can succeed
    only if the blockhash passes the validation, and with no blockhash it
    fails with "blockhash is empty". *)
Theorem CreateTransferTransaction_signable (from : PrivateKey) (to : PublicKey)
    (amount : Z) (recentBlockhash : string) :
  exists t,
    CreateTransferTransaction from to amount recentBlockhash = Ok t /\
    Instructions t
    = [system_NewTransferInstruction amount (PrivateKey_PublicKey from) to] /\
    Signers t = [from] /\ FeePayer t = PrivateKey_PublicKey from /\
    RecentBlockhash t = recentBlockhash /\
    BuildAndSign t <> Err (Errorf "no signers provided for transaction") /\
    (is_ok (BuildAndSign t) = true -> ValidateBase58 recentBlockhash = true /\
                                      (32 <= String.length recentBlockhash)%nat) /\
    (recentBlockhash = ""%string -> BuildAndSign t = Err (Errorf "blockhash is empty")).
Proof.
  eexists. split; [reflexivity |].
  cbn [Instructions Signers FeePayer RecentBlockhash NewTransaction
       AddTransferInstruction AddSigner SetRecentBlockhash app].
  split; [reflexivity |]. split; [reflexivity |]. split; [reflexivity |].
  split; [reflexivity |].
  pose proof (validateBlockhash_is_ok recentBlockhash) as Hv.
  unfold BuildAndSign.
  cbn [Instructions Signers FeePayer RecentBlockhash NewTransaction
       AddTransferInstruction AddSigner SetRecentBlockhash app length Nat.eqb].
  split; [| split].
  - unfold validateBlockhash.
    destruct (String.eqb recentBlockhash ""); [discriminate |].
    destruct (firstInvalid recentBlockhash 0); [discriminate |].
    destruct (String.length recentBlockhash <? 32)%nat; [discriminate |].
    destruct (HashFromBase58 recentBlockhash); cbn [lib]; [| discriminate].
    destruct (solana_NewTransaction _ _ _); cbn [lib]; [| discriminate].
    destruct (Sign _ _); cbn [lib]; [| discriminate].
    destruct (MarshalBinary _); cbn [lib]; discriminate.
  - destruct (validateBlockhash recentBlockhash) as [h|e]; [| discriminate].
    intros _. cbn [is_ok] in Hv. symmetry in Hv. apply andb_prop in Hv as [Hv Hlen].
    split; [exact Hv |]. apply Nat.leb_le. exact Hlen.
  - intros ->. reflexivity.
Qed.

End SolanaMore.

Section PaymentsOnOtherChains.
#[local] Existing Instance standin.walletLib.
#[local] Existing Instance standin_keys.ethereumLib.
#[local] Existing Instance standin_chain.solanaLib.
#[local] Existing Instance standin_keys.solana2Lib.
Local Open Scope Z_scope.

Lemma sendEthereum_outcomes_witness :
  is_ok (ethereum.sendEthereum "0x52908400098527886E0F7030069857D2E4169EE7"%string
           1000000000000000000 2000000000000000000 7 1000000000
           (Err (External "rpc")) (standin.bare [])) = true /\
  ethereum.sendEthereum "0x52908400098527886E0F7030069857D2E4169EE7"%string
     1000000000000000000 1000000000000000000 7 1000000000
     (Ok 21000) (standin.bare [])
  = Err (Errorf "insufficient funds for transaction with gas. You're trying to send %.6f ETH with approximately %.6f ETH in gas fees (total %.6f ETH) but your balance is only %.6f ETH").
Proof.
  split.
  - refine (proj2 (proj1 (sendEthereum_outcomes
              "0x52908400098527886E0F7030069857D2E4169EE7"%string
              1000000000000000000 2000000000000000000 7 1000000000
              (Err (External "rpc")) (standin.bare []) _)) _).
    + lia.
    + vm_compute. repeat split; discriminate.
  - refine (proj2 (proj2 (proj2 (proj2 (proj2 (sendEthereum_outcomes
              "0x52908400098527886E0F7030069857D2E4169EE7"%string
              1000000000000000000 1000000000000000000 7 1000000000
              (Ok 21000) (standin.bare []) _))))) _ _ _ _).
    + lia.
    + lia.
    + lia.
    + lia.
    + vm_compute. reflexivity.
Defined.

Lemma ParseAddress_confusable_characters_witness :
  solana2.ParseAddress "4vJ9JU1bJJE96FWSJKvHsmmFADCg4gpZQff4P3bkLKO"
  = Err (Errorf "invalid character '%c' at position %d in Solana address. Solana addresses use base58 encoding which doesn't include 0, O, I, or l characters") /\
  solana2.ParseAddress standin_chain.ones_hash = Ok standin_chain.ones_hash.
Proof.
  split.
  - refine (proj1 (proj2 (ParseAddress_confusable_characters _)) "O"%char _ _).
    + vm_compute. tauto.
    + auto.
  - refine (eq_trans (proj2 (proj2 (ParseAddress_confusable_characters
                                      standin_chain.ones_hash)) _) _);
      vm_compute; reflexivity.
Defined.

End PaymentsOnOtherChains.

(** ** Package cmd: showing the recovery phrase *)

Section RecoveryPhrase.
Context {CL : crypto.Lib} {WL : wallet.Lib} {TL : cmd2.Lib}.
Import wallet.

(** X28. [showRecoveryPhrase] never asks for the password: with a vault
    file present, a locked manager whose session [loadSession] accepts
    shows the mnemonic of that session and leaves the disk as it was.
    Without a vault file it fails with "no wallet found" even if a session
    exists, and with a vault file but no session file it fails with "wallet
    is locked". *)
Theorem showRecoveryPhrase_needs_only_a_session (manager : Manager) (w : World) :
  (VaultExists manager w = false ->
     cmd2.showRecoveryPhrase manager w
     = (Err (Errorf "no wallet found. Run 'odyssey init' first"), w)) /\
  (VaultExists manager w = true -> unlocked manager = false ->
   os_ReadFile (sessionPath manager) w = None ->
     cmd2.showRecoveryPhrase manager w
     = (Err (Errorf "wallet is locked. Run 'odyssey unlock' first"), w)) /\
  (VaultExists manager w = true -> unlocked manager = false ->
   forall m1 w1, loadSession manager w = (true, m1, w1) ->
     cmd2.showRecoveryPhrase manager w = (Ok (mnemonic m1), w)).
Proof.
  unfold cmd2.showRecoveryPhrase. split; [| split].
  - intros ->. reflexivity.
  - intros -> Hu Hnone. cbn [negb]. unfold IsUnlocked. rewrite Hu. cbn [andb].
    rewrite (loadSession_no_file manager w Hnone). reflexivity.
  - intros -> Hu m1 w1 Hs. cbn [negb]. unfold IsUnlocked. rewrite Hu. cbn [andb].
    rewrite Hs.
    apply loadSession_true in Hs as (data & s & Hread & Hparse & Hexp & Hnet & -> & ->).
    unfold GetMnemonic. cbn [unlocked mnemonic andb].
    destruct (String.eqb_spec (Mnemonic s) "") as [He|Hne]; cbn [negb]; [| reflexivity].
    rewrite (loadSession_parsed
               (mkManager (vaultPath manager) (sessionPath manager) (vault manager)
                          (Mnemonic s) (password manager) true (network manager))
               w data s Hread Hparse).
    cbn [network].
    destruct (Z.gtb_spec (clock w) (Expiration s)); [lia |].
    rewrite Hnet, String.eqb_refl. cbn [negb]. reflexivity.
Qed.

End RecoveryPhrase.

Section RecoveryPhraseOnDisk.
#[local] Existing Instance standin.cryptoLib.
#[local] Existing Instance standin.walletLib.
#[local] Existing Instance standin_keys.cmdLib.
Import wallet scenario.

Lemma showRecoveryPhrase_needs_only_a_session_witness :
  let w := os_WriteFile vault_path old_vault w_live in
  cmd2.showRecoveryPhrase (NewManager w) w = (Ok "abandon ability able"%string, w).
Proof.
  cbv zeta.
  refine (proj2 (proj2 (showRecoveryPhrase_needs_only_a_session
            (NewManager (os_WriteFile vault_path old_vault w_live))
            (os_WriteFile vault_path old_vault w_live))) _ _
            (mkManager vault_path session_path None "abandon ability able" "" true
                       "mainnet")
            (os_WriteFile vault_path old_vault w_live) _);
    vm_compute; reflexivity.
Defined.

End RecoveryPhraseOnDisk.

(** ** Package cmd: the Solana payment *)

Section SolanaPayment.
Context {L : solana.Lib} {L2 : solana2.Lib}.
Import solana solana2.
Local Open Scope Z_scope.

(** X29. The funds check of [sendSolana] adds the fee of 5000 lamports to
    the value in uint64.  For a value below 2^64 - 5000 the payment is
    refused exactly when the balance is less than the value plus 5000;
    for a value from 2^64 - 5000 on the sum wraps, and a balance far below
    the value passes the check.  Past the check, with a key and a blockhash
    obtained, what is signed is the transfer transaction made for that
    blockhash: making it with no blockhash and setting the blockhash later
    changes nothing, and the result is that of [BuildAndSign]. *)
Theorem sendSolana_funds_check (recipient : PublicKey) (value balance : Z)
    (key : result PrivateKey) (blockhash : result string) :
  0 <= value < 2 ^ 64 -> 0 <= balance < 2 ^ 64 ->
  let out := sendSolana recipient value balance key blockhash in
  let refused :=
    Err (Errorf "insufficient funds in your Solana wallet. You're trying to send %.9f SOL plus %.9f SOL in fees (total %.9f SOL) but your balance is only %.9f SOL. Please deposit more SOL to your address (%s) before making this payment") in
  (value < 2 ^ 64 - 5000 -> (out = refused <-> balance < value + 5000)) /\
  (2 ^ 64 - 5000 <= value -> (out = refused <-> balance < value + 5000 - 2 ^ 64)) /\
  (forall privateKey recentBlockhash t,
     out <> refused -> key = Ok privateKey -> blockhash = Ok recentBlockhash ->
     CreateTransferTransaction privateKey recipient value recentBlockhash = Ok t ->
     out = match BuildAndSign t with
           | Ok signedTx => Ok signedTx
           | Err e => Err (Wrapf "failed to sign transaction" e)
           end).
Proof.
  intros Hv Hb out refused.
  assert (Hrefused : out = refused <-> balance < (value + 5000) mod 2 ^ 64).
  { subst out refused. unfold sendSolana.
    destruct (Z.ltb_spec balance ((value + 5000) mod 2 ^ 64)) as [Hlt|Hge].
    - split; [intros _; exact Hlt | reflexivity].
    - split; [| lia]. intros H. exfalso. revert H.
      destruct key as [k|e]; [| discriminate].
      unfold CreateTransferTransaction.
      destruct blockhash as [bh|e]; [| discriminate].
      destruct (BuildAndSign _); discriminate. }
  split; [| split].
  - intros Hsmall. rewrite Hrefused, Z.mod_small by lia. reflexivity.
  - intros Hlarge. rewrite Hrefused.
    replace ((value + 5000) mod 2 ^ 64) with (value + 5000 - 2 ^ 64); [reflexivity |].
    apply (Z.mod_unique_pos _ _ 1); lia.
  - intros privateKey recentBlockhash t Hpass -> -> [= <-].
    assert (Hge : (balance <? (value + 5000) mod 2 ^ 64) = false).
    { destruct (Z.ltb_spec balance ((value + 5000) mod 2 ^ 64)) as [Hlt|]; [| reflexivity].
      apply Hrefused in Hlt. contradiction. }
    subst out. unfold sendSolana. rewrite Hge. reflexivity.
Qed.

End SolanaPayment.

Section SolanaPaymentOnChain.
#[local] Existing Instance standin_chain.solanaLib.
#[local] Existing Instance standin_keys.solana2Lib.
Local Open Scope Z_scope.

Lemma sendSolana_funds_check_witness :
  solana2.sendSolana "recipient"%string 1000000000 1000004999
    (Ok "signer"%string) (Ok standin_chain.ones_hash)
  = Err (Errorf "insufficient funds in your Solana wallet. You're trying to send %.9f SOL plus %.9f SOL in fees (total %.9f SOL) but your balance is only %.9f SOL. Please deposit more SOL to your address (%s) before making this payment") /\
  solana2.sendSolana "recipient"%string (2 ^ 64 - 5000) 0
    (Ok "signer"%string) (Ok standin_chain.ones_hash)
  <> Err (Errorf "insufficient funds in your Solana wallet. You're trying to send %.9f SOL plus %.9f SOL in fees (total %.9f SOL) but your balance is only %.9f SOL. Please deposit more SOL to your address (%s) before making this payment").
Proof.
  split.
  - refine (proj2 (proj1 (sendSolana_funds_check "recipient"%string 1000000000
              1000004999 (Ok "signer"%string) (Ok standin_chain.ones_hash) _ _) _) _);
      lia.
  - intros H.
    pose proof (proj1 (proj1 (proj2 (sendSolana_funds_check "recipient"%string
              (2 ^ 64 - 5000) 0 (Ok "signer"%string) (Ok standin_chain.ones_hash)
              ltac:(lia) ltac:(lia))) ltac:(lia)) H) as Hlt.
    lia.
Defined.

End SolanaPaymentOnChain.

(** ** Package cmd and wallet: creating a wallet over an existing one *)

Section ExistingVault.
Context {CL : crypto.Lib} {WL : wallet.Lib}.
Import wallet.


End ExistingVault.

Section ExistingVaultOnDisk.
#[local] Existing Instance standin.cryptoLib.
#[local] Existing Instance standin.walletLib.
Import wallet scenario.


End ExistingVaultOnDisk.
